(** * Figshare upload script of matbench-discovery: model and properties

    A shallow embedding of [scripts/upload_model_preds_to_figshare.py].
    The script walks the per-model metadata documents, decides for every
    referenced prediction file whether it is skipped, re-uploaded or newly
    added to the Figshare article of a modeling task, and writes the
    download URLs back into the metadata.

    Definitions: Python strings and dictionaries, YAML documents, the walker
    [find_file_keys], the interface of the [figshare] module, the state the
    script runs in, the engine [update_one_modeling_task_article], [main],
    a reference model of the remote service, the vocabulary of the
    properties and the concrete inputs of the examples.

    Properties: facts about strings, dictionaries, the walker and the
    steps of the engine; then, per property of the specification, the
    filter of the walker (C7), dry runs (C2, C5), the places where the
    script departs from its own comments (C1, C8, C9, C10), forced
    re-upload (C6), the outcome dictionaries (C4) and a second run (C3).

    Further properties, read off the code: what the walker returns (X1 to
    X3), the calls a run makes and the article it works on (X4 to X8),
    dry runs (X9 to X11), [main] (X12, X13), models without a metadata
    file (X14), what a run changes and writes in the metadata (X15, X16),
    what the loop does with a file (X17, X18), the metadata of a new
    article (X19), the summary (X20), the documents a run can read and
    what it leaves behind (X21, X22), failures (X23, X24), the files a run
    reports (X25). *)

From Stdlib Require Import String Ascii List ZArith Bool Lia Permutation.
From Stdlib Require DecimalString.
Import ListNotations.
Open Scope list_scope.
Open Scope string_scope.

(** ** Python strings *)

Module PyStr.

Definition chars (s : string) : list ascii := list_ascii_of_string s.

Fixpoint is_prefix (p s : list ascii) : bool :=
match p, s with
| [], _ => true
| _ :: _, [] => false
| c :: p', d :: s' => Ascii.eqb c d && is_prefix p' s'
end.

(** [s.startswith(p)] *)
Definition startswith (s p : string) : bool := is_prefix (chars p) (chars s).

(** [s.endswith(suf)]: read both strings from the right. *)
Definition endswith (s suf : string) : bool :=
is_prefix (rev (chars suf)) (rev (chars s)).

(** [s.removeprefix(p)] *)
Definition removeprefix (s p : string) : string :=
if startswith s p
then substring (String.length p) (String.length s - String.length p) s
else s.

(** [s.split(sep)] for a one-character separator: always at least one
  segment, empty segments are kept. *)
Fixpoint split (sep : ascii) (s : string) : list string :=
match s with
| EmptyString => [EmptyString]
| String c r =>
    if Ascii.eqb c sep then EmptyString :: split sep r
    else match split sep r with
         | seg :: segs => String c seg :: segs
         | [] => [String c EmptyString]
         end
end.

(** [sep.join(l)] *)
Fixpoint join (sep : string) (l : list string) : string :=
match l with
| [] => ""
| [s] => s
| s :: rest => s ++ sep ++ join sep rest
end.

Definition lower_ascii (c : ascii) : ascii :=
let n := nat_of_ascii c in
if (65 <=? n)%nat && (n <=? 90)%nat then ascii_of_nat (n + 32) else c.

(** [s.lower()] on ASCII text *)
Fixpoint lower (s : string) : string :=
match s with
| EmptyString => EmptyString
| String c r => String (lower_ascii c) (lower r)
end.

(** [str(n)] for an integer *)
Definition of_Z (z : Z) : string := DecimalString.NilZero.string_of_int (Z.to_int z).

Definition dot : ascii := "."%char.

End PyStr.

(** ** Python dictionaries

    A [dict] keeps insertion order and the script iterates over [items()],
    so a dictionary is an association list; assignment to an existing key
    keeps the key's position, assignment to a new key appends. *)

Definition Dict (V : Type) : Type := list (string * V).

Section Dicts.
Context {V : Type}.

(** [d.get(k)] *)
Fixpoint dict_get (k : string) (d : Dict V) : option V :=
  match d with
  | [] => None
  | (k', v) :: d' => if String.eqb k k' then Some v else dict_get k d'
  end.

(** [k in d] *)
Definition dict_has (k : string) (d : Dict V) : bool :=
  match dict_get k d with Some _ => true | None => false end.

(** [d[k] = v] *)
Fixpoint dict_set (k : string) (v : V) (d : Dict V) : Dict V :=
  match d with
  | [] => [(k, v)]
  | (k', v') :: d' =>
      if String.eqb k k' then (k, v) :: d' else (k', v') :: dict_set k v d'
  end.

(** [d |= other] *)
Definition dict_update (d other : Dict V) : Dict V :=
  fold_left (fun acc kv => dict_set (fst kv) (snd kv) acc) other d.

Definition keys (d : Dict V) : list string := map fst d.
Definition values (d : Dict V) : list V := map snd d.
End Dicts.

(** ** YAML documents

    What [round_trip_yaml.load] returns: mappings, sequences, strings and
    the remaining scalars (numbers, booleans, null), which the script never
    tells apart and which are kept by their lexeme. *)

#[local] Unset Elimination Schemes.
Inductive Yaml : Type :=
| YScalar (lexeme : string)
| YStr (s : string)
| YList (l : list Yaml)
| YDict (d : list (string * Yaml)).
#[local] Set Elimination Schemes.

(** Induction over a document, with the hypothesis for every value of a
    mapping (sequences are opaque to the script and get none). *)
Fixpoint Yaml_dict_ind (P : Yaml -> Prop)
  (Hscalar : forall x, P (YScalar x))
  (Hstr : forall s, P (YStr s))
  (Hlist : forall l, P (YList l))
  (Hdict : forall d, Forall (fun kv => P (snd kv)) d -> P (YDict d))
  (y : Yaml) {struct y} : P y :=
  match y with
  | YScalar x => Hscalar x
  | YStr s => Hstr s
  | YList l => Hlist l
  | YDict d =>
      Hdict d
        ((fix all (l : list (string * Yaml)) : Forall (fun kv => P (snd kv)) l :=
            match l with
            | [] => Forall_nil _
            | kv :: l' =>
                Forall_cons kv
                  (Yaml_dict_ind P Hscalar Hstr Hlist Hdict (snd kv)) (all l')
            end) d)
  end.


Definition should_process_file (key file_type : string) : bool :=
  String.eqb file_type "all" || PyStr.endswith key (file_type ++ "_file").

(** [f"{prefix}.{key}" if prefix else key] *)
Definition full_key_of (prefix key : string) : string :=
  match prefix with
  | EmptyString => key
  | _ => prefix ++ "." ++ key
  end.

(** The closure [find_file_keys(data, prefix)]; [file_type] is the variable
    it captures from the enclosing function.  The inner [fix] is the
    [for key, value in data.items()] loop with [result] as accumulator. *)
Fixpoint find_file_keys_val (file_type : string) (data : Yaml) (prefix : string)
  {struct data} : Dict string :=
  match data with
  | YDict items =>
      (fix loop (l : list (string * Yaml)) (result : Dict string) : Dict string :=
         match l with
         | [] => result
         | (key, value) :: l' =>
             let full_key := full_key_of prefix key in
             loop l'
               match value with
               | YDict _ =>
                   dict_update result (find_file_keys_val file_type value full_key)
               | YStr s =>
                   if PyStr.endswith key "_file" && should_process_file key file_type
                   then dict_set full_key s result
                   else result
               | _ => result
               end
         end) items []
  | _ => []
  end.

Definition find_file_keys (file_type : string) (data : Dict Yaml) (prefix : string)
  : Dict string :=
  find_file_keys_val file_type (YDict data) prefix.

(** One iteration of the loop of [find_file_keys], and the loop itself. *)
Definition find_file_keys_step (file_type prefix : string)
  (result : Dict string) (item : string * Yaml) : Dict string :=
  let full_key := full_key_of prefix (fst item) in
  match snd item with
  | YDict sub => dict_update result (find_file_keys file_type sub full_key)
  | YStr s =>
      if PyStr.endswith (fst item) "_file" && should_process_file (fst item) file_type
      then dict_set full_key s result
      else result
  | _ => result
  end.

Definition find_file_keys_loop (file_type prefix : string)
  (l : Dict Yaml) (result : Dict string) : Dict string :=
  fold_left (find_file_keys_step file_type prefix) l result.

(** ** Exceptions, messages and the interface of the [figshare] module *)

Inductive PyErr : Type :=
| KeyError (key : string)
| TypeError
| AttributeError
| OSError
| RequestError.

(** The argument of [figshare.create_article]. *)
Record ArticleMeta : Type := {
  title : string;
  description : string;
  defined_type : string;
  tags : list string;
  categories : list Z;
}.

(** A value of the mapping returned by [figshare.get_existing_files]; the
    script reads only [file_data.get('id')]. *)
Record FileData : Type := { fd_id : option Z }.

(** Calls made to the remote service, in the order they are made. *)
Inductive ApiCall : Type :=
| CallArticleExists (article_id : Z)
| CallCreateArticle (metadata : ArticleMeta)
| CallGetExistingFiles (article_id : Z)
| CallFileExists (article_id : Z) (file_name file_hash : string)
| CallUpload (article_id : Z) (file_path file_name : string) (force_reupload : bool).

Definition mutating (c : ApiCall) : bool :=
  match c with
  | CallCreateArticle _ | CallUpload _ _ _ _ => true
  | _ => false
  end.

(** Modelled from the spec: the module [matbench_discovery.remote.figshare]
    is not among the sources.  Its constants and functions are taken as
    parameters with the interface of the spec's section 6: the three queries
    read the state [R] of the remote service, [create_article] and
    [upload_file_if_needed] may change it, and every call may raise. *)
Class Figshare (R : Type) : Type := {
  ARTICLE_IDS : Dict (option Z);
  ARTICLE_URL_PREFIX : string;
  DOWNLOAD_URL_PREFIX : string;
  CATEGORIES : list Z;
  article_exists : Z -> R -> PyErr + bool;
  create_article : ArticleMeta -> R -> (PyErr + Z) * R;
  get_existing_files : Z -> R -> PyErr + Dict FileData;
  get_file_hash_and_size : string -> PyErr + (string * Z);
  file_exists_with_same_hash : Z -> string -> string -> R -> PyErr + (bool * option Z);
  upload_file_if_needed : Z -> string -> string -> bool -> R -> (PyErr + (Z * bool)) * R;
}.

(** An entry of [modeling-tasks.yml]. *)
Record TaskInfo : Type := { label : string; task_description : string }.

(** Modelled from the spec: the package constants [ROOT] and
    [MODELING_TASKS], the [keywords] of [pyproject.toml], the path of the
    script and the artifact files present on the local disk are not among
    the sources and are parameters. *)
Record Env : Type := {
  ROOT : string;
  MODELING_TASKS : Dict TaskInfo;
  keywords : list string;
  script_file : string;
  isfile : string -> bool;
}.

(** Modelled from the spec: a member of the enum
    [matbench_discovery.enums.Model]: its string value, its [name] and its
    [yaml_path]. *)
Record Model : Type := { value : string; name : string; yaml_path : string }.

(** What the script prints, one constructor per [print] statement. *)
Inductive Msg : Type :=
| MFoundArticle (task : string) (article_id : Z)
| MArticleNotFound (article_id : Z) (task : string)
| MWouldCreateArticle (task : string)
| MCreatedArticle (task : string) (article_id : Z) (script : string)
| MNowUpdating (article_url : string)
| MDryRun
| MFoundExisting (n : nat)
| MExistingFile (idx : nat) (file_name : string) (file_id : option Z)
| MMissingYaml (path : string)
| MMissingFile (task model_name file_path : string)
| MNewlyAdded (n : nat)
| MUpdated (n : nat)
| MSkipped (n : nat)
| MNewHeader
| MUpdatedHeader
| MSkippedHeader
| MFileLine (idx : nat) (file_name url : string)
| MNothingDone
| MUpdatingModels (n : nat) (names : string)
| MUpdatingTasks (n : nat) (names : string)
| MFileTypeFilter (file_type : string)
| MForceReupload.

(** The three dictionaries [skipped_files], [updated_files], [new_files]. *)
Record Buckets : Type := {
  skipped_files : Dict string;
  updated_files : Dict string;
  new_files : Dict string;
}.

Definition no_files : Buckets :=
  {| skipped_files := []; updated_files := []; new_files := [] |}.

(** ** The state the script runs in *)

(** The remote service, the per-model metadata files (by [yaml_path]) and
    standard output, together with two records of what was done: the calls
    to the remote service and the metadata files opened for writing. *)
Record World (R : Type) : Type := {
  remote : R;
  yaml_files : Dict Yaml;
  stdout : list Msg;
  api_calls : list ApiCall;
  yaml_writes : list string;
}.
Arguments remote {R} _.
Arguments yaml_files {R} _.
Arguments stdout {R} _.
Arguments api_calls {R} _.
Arguments yaml_writes {R} _.

(** Computations that read and change the world and may raise. *)
Definition M (R A : Type) : Type := World R -> (PyErr + A) * World R.

Definition ret {R A} (a : A) : M R A := fun w => (inr a, w).

Definition raise {R A} (e : PyErr) : M R A := fun w => (inl e, w).

Definition bind {R A B} (m : M R A) (k : A -> M R B) : M R B :=
  fun w =>
    match m w with
    | (inl e, w') => (inl e, w')
    | (inr a, w') => k a w'
    end.

Declare Scope py_scope.
Delimit Scope py_scope with py.
Notation "x <- m ;; k" := (bind m (fun x => k))
  (at level 61, m at next level, right associativity) : py_scope.
Notation "' p <- m ;; k" := (bind m (fun x => match x with p => k end))
  (at level 61, p pattern, m at next level, right associativity) : py_scope.
Notation "m ;; k" := (bind m (fun _ => k))
  (at level 61, right associativity) : py_scope.
Open Scope py_scope.

(** [for x in l: a = f(a, x)] *)
Fixpoint for_each {R A B} (f : A -> B -> M R A) (l : list B) (a : A) : M R A :=
  match l with
  | [] => ret a
  | x :: l' => a' <- f a x ;; for_each f l' a'
  end.

(** A value that may raise, inside a computation. *)
Definition lift {R A} (r : PyErr + A) : M R A :=
  match r with inl e => raise e | inr a => ret a end.

Section Primitives.
Context {R : Type} {F : Figshare R}.

Definition print (m : Msg) : M R unit :=
  fun w =>
    (inr tt, {| remote := remote w; yaml_files := yaml_files w;
                stdout := stdout w ++ [m]; api_calls := api_calls w;
                yaml_writes := yaml_writes w |}).

Definition log_call (c : ApiCall) (w : World R) : World R :=
  {| remote := remote w; yaml_files := yaml_files w; stdout := stdout w;
     api_calls := api_calls w ++ [c]; yaml_writes := yaml_writes w |}.

Definition set_remote (r : R) (w : World R) : World R :=
  {| remote := r; yaml_files := yaml_files w; stdout := stdout w;
     api_calls := api_calls w; yaml_writes := yaml_writes w |}.

(** A query of the remote service. *)
Definition query {A} (c : ApiCall) (q : R -> PyErr + A) : M R A :=
  fun w => (q (remote w), log_call c w).

(** A call that may change the remote service. *)
Definition command {A} (c : ApiCall) (f : R -> (PyErr + A) * R) : M R A :=
  fun w => let (res, r') := f (remote w) in (res, set_remote r' (log_call c w)).

(** Modelled from the spec: [round_trip_yaml] of [matbench_discovery.data]
    is not among the sources; the per-model metadata store holds one
    document per path.  [open(path)] followed by [round_trip_yaml.load]. *)
Definition load_yaml (path : string) : M R Yaml :=
  fun w =>
    match dict_get path (yaml_files w) with
    | Some doc => (inr doc, w)
    | None => (inl OSError, w)
    end.

(** Modelled from the spec: [open(path, mode="w")] followed by
    [round_trip_yaml.dump] replaces the document stored under the path. *)
Definition dump_yaml (path : string) (doc : Yaml) : M R unit :=
  fun w =>
    (inr tt, {| remote := remote w;
                yaml_files := dict_set path doc (yaml_files w);
                stdout := stdout w; api_calls := api_calls w;
                yaml_writes := yaml_writes w ++ [path] |}).

(** [os.path.isfile] of a metadata file. *)
Definition yaml_isfile (path : string) : M R bool :=
  fun w => (inr (dict_has path (yaml_files w)), w).
End Primitives.

(** ** The engine *)

Section Engine.
Context {R : Type} {F : Figshare R} (env : Env).

Definition nl : string := String (ascii_of_nat 10) "".
Definition indent : string := "        ".

(** [get_article_metadata(task)] *)
Definition get_article_metadata (task : string) : PyErr + ArticleMeta :=
  match dict_get task (MODELING_TASKS env) with
  | None => inl (KeyError task)
  | Some task_info =>
      inr {| title := "Matbench Discovery - Model Predictions for " ++ label task_info;
             description :=
               "This dataset contains model predictions from various models evaluated on the"
               ++ nl ++ indent ++ "Matbench Discovery benchmark for the "
               ++ PyStr.lower (label task_info) ++ " task."
               ++ nl ++ nl ++ indent ++ "Task description: " ++ task_description task_info
               ++ nl ++ nl ++ indent
               ++ "For more information about the benchmark and models, visit:"
               ++ nl ++ indent ++ "https://github.com/janosh/matbench-discovery.";
             defined_type := "dataset";
             tags := keywords env ++ [("task-" ++ task)%string];
             categories := CATEGORIES |}
  end.

(** [f"{figshare.DOWNLOAD_URL_PREFIX}/{file_id}"] *)
Definition download_url (file_id : Z) : string :=
  DOWNLOAD_URL_PREFIX ++ "/" ++ PyStr.of_Z file_id.

(** Lines 108-128: look the article of the task up, check that it exists,
    create it when it does not (in a dry run: pretend with id 0). *)
Definition resolve_article (task : string) (dry_run : bool) : M R Z :=
  article_id <-
    match dict_get ("model_preds_" ++ task) ARTICLE_IDS with
    | Some id => ret id
    | None => raise (KeyError ("model_preds_" ++ task))
    end ;;
  article_id <-
    match article_id with
    | Some id =>
        found <- query (CallArticleExists id) (article_exists id) ;;
        if found : bool
        then print (MFoundArticle task id) ;; ret (Some id)
        else print (MArticleNotFound id task) ;; ret None
    | None => ret None
    end ;;
  match article_id with
  | Some id => ret id
  | None =>
      if dry_run : bool
      then print (MWouldCreateArticle task) ;; ret 0%Z
      else
        metadata <- lift (get_article_metadata task) ;;
        id <- command (CallCreateArticle metadata) (create_article metadata) ;;
        print (MCreatedArticle task id (script_file env)) ;;
        ret id
  end.

(** [d.get(key, {})] on a loaded document: only mappings have [get]. *)
Definition yaml_get (d : Yaml) (key : string) : PyErr + Yaml :=
  match d with
  | YDict items =>
      match dict_get key items with
      | Some v => inr v
      | None => inr (YDict [])
      end
  | _ => inl AttributeError
  end.

(** [target = metric_data; for part in parts: target = target[part];
    target[last] = v], as the new value of the mapping the descent starts
    from.  Subscripting or assigning into anything but a mapping is a
    [TypeError], a missing part a [KeyError]. *)
Fixpoint set_nested (target : Yaml) (parts : list string) (last : string) (v : Yaml)
  : PyErr + Yaml :=
  match target with
  | YDict items =>
      match parts with
      | [] => inr (YDict (dict_set last v items))
      | part :: parts' =>
          match dict_get part items with
          | None => inl (KeyError part)
          | Some child =>
              match set_nested child parts' last v with
              | inl e => inl e
              | inr child' => inr (YDict (dict_set part child' items))
              end
          end
      end
  | _ => inl TypeError
  end.

Definition set_nested_dict (metric_data : Dict Yaml) (parts : list string)
  (last : string) (v : Yaml) : PyErr + Dict Yaml :=
  match set_nested (YDict metric_data) parts last v with
  | inl e => inl e
  | inr (YDict items) => inr items
  | inr _ => inl TypeError
  end.

(** [*parts, last = s.split(".")] *)
Definition split_path (s : string) : list string * string :=
  let segs := PyStr.split PyStr.dot s in
  (removelast segs, List.last segs "").

(** Lines 188-208: the hash check.  [Some] is the [continue] of the
    source, [None] falls through to the upload. *)
Definition try_skip (article_id : Z) (key_path file_path filename : string)
  (b : Buckets) (metric_data : Dict Yaml)
  : M R (option (Buckets * Dict Yaml)) :=
  hash_size <- lift (get_file_hash_and_size file_path) ;;
  let file_hash := fst hash_size in
  found <- query (CallFileExists article_id filename file_hash)
             (file_exists_with_same_hash article_id filename file_hash) ;;
  match found with
  | (true, Some file_id) =>
      let file_url := download_url file_id in
      let b' := {| skipped_files := dict_set filename file_url (skipped_files b);
                   updated_files := updated_files b;
                   new_files := new_files b |} in
      let url_key := key_path ++ "_url" in
      if negb (dict_has url_key metric_data)
      then
        let (parts, last) := split_path url_key in
        metric_data' <- lift (set_nested_dict metric_data parts last (YStr file_url)) ;;
        ret (Some (b', metric_data'))
      else ret (Some (b', metric_data))
  | _ => ret None
  end.

(** Lines 210-230: the upload and the update of the metadata. *)
Definition upload (article_id : Z) (existing_files : Dict FileData)
  (force_reupload : bool) (key_path file_path filename : string)
  (b : Buckets) (metric_data : Dict Yaml) : M R (Buckets * Dict Yaml) :=
  uploaded <- command (CallUpload article_id file_path filename force_reupload)
                (upload_file_if_needed article_id file_path filename force_reupload) ;;
  let file_url := download_url (fst uploaded) in
  let b' :=
    if dict_has filename existing_files
    then {| skipped_files := skipped_files b;
            updated_files := dict_set filename file_url (updated_files b);
            new_files := new_files b |}
    else {| skipped_files := skipped_files b;
            updated_files := updated_files b;
            new_files := dict_set filename file_url (new_files b) |} in
  let (parts, last) := split_path key_path in
  metric_data' <- lift (set_nested_dict metric_data parts (last ++ "_url") (YStr file_url)) ;;
  ret (b', metric_data').

(** Lines 177-230: the body of the loop over the discovered files. *)
Definition process_file (task : string) (model : Model) (article_id : Z)
  (existing_files : Dict FileData) (dry_run force_reupload : bool)
  (st : Buckets * Dict Yaml) (item : string * string) : M R (Buckets * Dict Yaml) :=
  let (b, metric_data) := st in
  let (key_path, rel_file_path) := item in
  let file_path := ROOT env ++ "/" ++ rel_file_path in
  if negb (isfile env file_path)
  then print (MMissingFile task (name model) file_path) ;; ret st
  else
    let filename := PyStr.removeprefix file_path (ROOT env ++ "/") in
    skipped <-
      (if negb force_reupload && negb dry_run
       then try_skip article_id key_path file_path filename b metric_data
       else ret None) ;;
    match skipped with
    | Some st' => ret st'
    | None =>
        if negb dry_run
        then upload article_id existing_files force_reupload
               key_path file_path filename b metric_data
        else ret st
    end.

(** [metric_data] is the object stored under [metrics][task] of
    [model_data] when that entry exists (a change of one is a change of the
    other) and a fresh empty mapping otherwise.  [with_metric_data] is
    [model_data] as it stands after [metric_data] was changed in place. *)
Definition with_metric_data (model_data : Yaml) (task : string)
  (metric_data : Dict Yaml) : Yaml :=
  match model_data with
  | YDict top =>
      match dict_get "metrics" top with
      | Some (YDict metrics) =>
          if dict_has task metrics
          then YDict (dict_set "metrics"
                        (YDict (dict_set task (YDict metric_data) metrics)) top)
          else model_data
      | _ => model_data
      end
  | _ => model_data
  end.

(** Lines 146-235: the body of the loop over the models. *)
Definition process_model (task : string) (article_id : Z)
  (existing_files : Dict FileData) (dry_run : bool) (file_type : string)
  (force_reupload : bool) (b : Buckets) (model : Model) : M R Buckets :=
  present <- yaml_isfile (yaml_path model) ;;
  if negb present
  then print (MMissingYaml (yaml_path model)) ;; ret b
  else
    model_data <- load_yaml (yaml_path model) ;;
    metrics <- lift (yaml_get model_data "metrics") ;;
    metric_data <- lift (yaml_get metrics task) ;;
    match metric_data with
    | YDict metric_data =>
        st <- for_each
                (process_file task model article_id existing_files dry_run force_reupload)
                (find_file_keys file_type metric_data "") (b, metric_data) ;;
        (if negb dry_run
         then dump_yaml (yaml_path model) (with_metric_data model_data task (snd st))
         else ret tt) ;;
        ret (fst st)
    | _ => ret b
    end.

(** [for idx, (k, v) in enumerate(d.items(), start=idx)]: print one line
    per entry. *)
Fixpoint print_enumerated {V} (line : nat -> string -> V -> Msg)
  (idx : nat) (d : Dict V) : M R unit :=
  match d with
  | [] => ret tt
  | (k, v) :: d' => print (line idx k v) ;; print_enumerated line (S idx) d'
  end.

Definition nonempty {V} (d : Dict V) : bool :=
  match d with [] => false | _ => true end.

(** Lines 237-257: the summary. *)
Definition print_summary (b : Buckets) : M R unit :=
  print (MNewlyAdded (length (new_files b))) ;;
  print (MUpdated (length (updated_files b))) ;;
  print (MSkipped (length (skipped_files b))) ;;
  if nonempty (new_files b) || nonempty (updated_files b) || nonempty (skipped_files b)
  then
    (if nonempty (new_files b)
     then print MNewHeader ;; print_enumerated MFileLine 1 (new_files b)
     else ret tt) ;;
    (if nonempty (updated_files b)
     then print MUpdatedHeader ;; print_enumerated MFileLine 1 (updated_files b)
     else ret tt) ;;
    (if nonempty (skipped_files b)
     then print MSkippedHeader ;; print_enumerated MFileLine 1 (skipped_files b)
     else ret tt)
  else print MNothingDone.

(** [update_one_modeling_task_article].  The Python function returns
    [None]; the model returns the three dictionaries it has just printed,
    so that statements can speak about them. *)
Definition update_one_modeling_task_article (task : string) (models : list Model)
  (dry_run : bool) (file_type : string) (force_reupload : bool) : M R Buckets :=
  article_id <- resolve_article task dry_run ;;
  print (MNowUpdating (ARTICLE_URL_PREFIX ++ "/" ++ PyStr.of_Z article_id)) ;;
  (if dry_run then print MDryRun else ret tt) ;;
  existing_files <- query (CallGetExistingFiles article_id)
                      (get_existing_files article_id) ;;
  print (MFoundExisting (length existing_files)) ;;
  print_enumerated (fun idx file_name file_data =>
                      MExistingFile idx file_name (fd_id file_data))
    1 existing_files ;;
  b <- for_each
         (process_model task article_id existing_files dry_run file_type force_reupload)
         models no_files ;;
  print_summary b ;;
  ret b.
End Engine.

(** ** [main] *)

(** The [argparse.Namespace] returned by [parse_args]. *)
Module Namespace.
Record t : Type := {
  models : list Model;
  tasks : list string;
  dry_run : bool;
  file_type : string;
  force_reupload : bool;
}.
End Namespace.

(** Values of the local variables of [main]. *)
Inductive PyVal : Type :=
| VNone
| VBool (b : bool)
| VStr (s : string)
| VStrs (l : list string)
| VModels (l : list Model)
| VNamespace (a : Namespace.t)
| VExc (e : PyErr).

(** The note [f"Upload failed with {state=}"]. *)
Inductive Note : Type :=
| UploadFailed (state : Dict PyVal).

(** An exception leaving [main], with the notes added to it. *)
Record Raised : Type := { exc : PyErr; notes : list Note }.

Section Main.
Context {R : Type} {F : Figshare R} (env : Env).
(** Command-line parsing is outside the model. *)
Variable parse_args : option (list string) -> Namespace.t.

(** [locals()] of [main] inside the [except] clause: the variables the
    function has bound at that point.  (From Python 3.12 on a
    comprehension sees the locals of the function around it; before that
    [locals()] there holds only the comprehension's own variable and
    every lookup below answers [None].  The comprehension's variable [key]
    is none of the names looked up and is left out.) *)
Definition main_locals (args : option (list string)) (parsed_args : Namespace.t)
  (task : string) (e : PyErr) : Dict PyVal :=
  [ ("args", match args with Some l => VStrs l | None => VNone end);
    ("parsed_args", VNamespace parsed_args);
    ("models_to_update", VModels (Namespace.models parsed_args));
    ("tasks_to_update", VStrs (Namespace.tasks parsed_args));
    ("dry_run", VBool (Namespace.dry_run parsed_args));
    ("task", VStr task);
    ("exc", VExc e) ].

(** [locals().get(key)] *)
Definition locals_get (locals : Dict PyVal) (key : string) : PyVal :=
  match dict_get key locals with
  | Some v => v
  | None => VNone
  end.

(** [{key: locals().get(key) for key in (...)}] *)
Definition failure_state (locals : Dict PyVal) : Dict PyVal :=
  map (fun key => (key, locals_get locals key))
    ["task"; "model_name"; "models_to_update"; "tasks_to_update"].

(** Lines 273-288: the loop over the tasks with its [try]/[except]. *)
Fixpoint run_tasks (args : option (list string)) (parsed_args : Namespace.t)
  (todo : list string) (w : World R) : (Raised + unit) * World R :=
  match todo with
  | [] => (inr tt, w)
  | task :: todo' =>
      match update_one_modeling_task_article env task
              (Namespace.models parsed_args) (Namespace.dry_run parsed_args)
              (Namespace.file_type parsed_args)
              (Namespace.force_reupload parsed_args) w with
      | (inl e, w') =>
          let state := failure_state (main_locals args parsed_args task e) in
          (inl {| exc := e; notes := [UploadFailed state] |}, w')
      | (inr _, w') => run_tasks args parsed_args todo' w'
      end
  end.

Definition print_all (ms : list Msg) (w : World R) : World R :=
  {| remote := remote w; yaml_files := yaml_files w; stdout := stdout w ++ ms;
     api_calls := api_calls w; yaml_writes := yaml_writes w |}.

(** [main]: the exit status [0], or the exception that leaves it. *)
Definition main (args : option (list string)) (w : World R) : (Raised + Z) * World R :=
  let parsed_args := parse_args args in
  let models_to_update := Namespace.models parsed_args in
  let tasks_to_update := Namespace.tasks parsed_args in
  let w1 :=
    print_all
      ((if Namespace.dry_run parsed_args then [MDryRun] else [])
       ++ [ MUpdatingModels (length models_to_update)
              (PyStr.join ", " (map value models_to_update));
            MUpdatingTasks (length tasks_to_update) (PyStr.join ", " tasks_to_update);
            MFileTypeFilter (Namespace.file_type parsed_args) ]
       ++ (if Namespace.force_reupload parsed_args then [MForceReupload] else []))
      w in
  match run_tasks args parsed_args tasks_to_update w1 with
  | (inl r, w') => (inl r, w')
  | (inr _, w') => (inr 0%Z, w')
  end.
End Main.

(** ** A reference model of the remote service *)

Module Reference.

(** Modelled from the spec: a file of the remote service, with the id and
    the content hash the service reports for it. *)
Record RemoteFile : Type := { rf_id : Z; rf_hash : string }.

(** Modelled from the spec: the remote repository service of the spec's
    section 6.  The articles with their files by name (at most one file
    per name in an article), the next unused id, and whether the service
    can be reached at all. *)
Record Remote : Type := {
  online : bool;
  articles : list (Z * Dict RemoteFile);
  next_id : Z;
}.

Fixpoint find_article (id : Z) (l : list (Z * Dict RemoteFile))
  : option (Dict RemoteFile) :=
  match l with
  | [] => None
  | (id', files) :: l' => if Z.eqb id id' then Some files else find_article id l'
  end.

Fixpoint put_article (id : Z) (files : Dict RemoteFile)
  (l : list (Z * Dict RemoteFile)) : list (Z * Dict RemoteFile) :=
  match l with
  | [] => [(id, files)]
  | (id', files') :: l' =>
      if Z.eqb id id' then (id, files) :: l' else (id', files') :: put_article id files l'
  end.

Section Service.
(** The artifact files on the local disk: absolute path to content
    hash and size. *)
Variable disk : Dict (string * Z).
Variable article_ids : Dict (option Z).

Definition ref_article_exists (id : Z) (r : Remote) : PyErr + bool :=
  if online r
  then inr (match find_article id (articles r) with Some _ => true | None => false end)
  else inl RequestError.

Definition ref_create_article (metadata : ArticleMeta) (r : Remote)
  : (PyErr + Z) * Remote :=
  if online r
  then (inr (next_id r),
        {| online := true;
           articles := put_article (next_id r) [] (articles r);
           next_id := next_id r + 1 |})
  else (inl RequestError, r).

Definition ref_get_existing_files (id : Z) (r : Remote) : PyErr + Dict FileData :=
  if online r
  then match find_article id (articles r) with
       | Some files =>
           inr (map (fun nf => (fst nf, {| fd_id := Some (rf_id (snd nf)) |})) files)
       | None => inl RequestError
       end
  else inl RequestError.

Definition ref_get_file_hash_and_size (path : string) : PyErr + (string * Z) :=
  match dict_get path disk with
  | Some hs => inr hs
  | None => inl OSError
  end.

Definition ref_file_exists_with_same_hash (id : Z) (file_name file_hash : string)
  (r : Remote) : PyErr + (bool * option Z) :=
  if online r
  then match find_article id (articles r) with
       | Some files =>
           match dict_get file_name files with
           | Some f =>
               if String.eqb (rf_hash f) file_hash
               then inr (true, Some (rf_id f))
               else inr (false, None)
           | None => inr (false, None)
           end
       | None => inl RequestError
       end
  else inl RequestError.

(** Modelled from the spec: upload-if-needed is keyed by the article and
    the file name; a file of that name is replaced in place with a new
    id and hash, never duplicated; without [force_reupload] a file that
    is there with the same hash is left alone. *)
Definition ref_upload_file_if_needed (id : Z) (file_path file_name : string)
  (force_reupload : bool) (r : Remote) : (PyErr + (Z * bool)) * Remote :=
  if online r
  then match find_article id (articles r), dict_get file_path disk with
       | Some files, Some (file_hash, _) =>
           match dict_get file_name files with
           | Some f =>
               if negb force_reupload && String.eqb (rf_hash f) file_hash
               then (inr (rf_id f, false), r)
               else (inr (next_id r, true),
                     {| online := true;
                        articles :=
                          put_article id
                            (dict_set file_name
                               {| rf_id := next_id r; rf_hash := file_hash |} files)
                            (articles r);
                        next_id := next_id r + 1 |})
           | None =>
               (inr (next_id r, true),
                {| online := true;
                   articles :=
                     put_article id
                       (dict_set file_name
                          {| rf_id := next_id r; rf_hash := file_hash |} files)
                       (articles r);
                   next_id := next_id r + 1 |})
           end
       | None, _ => (inl RequestError, r)
       | _, None => (inl OSError, r)
       end
  else (inl RequestError, r).

(** Modelled from the spec: the operations of section 6 on [Remote]. *)
Definition figshare : Figshare Remote :=
  {| ARTICLE_IDS := article_ids;
     ARTICLE_URL_PREFIX := "https://figshare.com/articles";
     DOWNLOAD_URL_PREFIX := "https://figshare.com/files";
     CATEGORIES := [];
     article_exists := ref_article_exists;
     create_article := ref_create_article;
     get_existing_files := ref_get_existing_files;
     get_file_hash_and_size := ref_get_file_hash_and_size;
     file_exists_with_same_hash := ref_file_exists_with_same_hash;
     upload_file_if_needed := ref_upload_file_if_needed |}.

Definition env : Env :=
  {| ROOT := "/repo";
     MODELING_TASKS :=
       [("discovery", {| label := "Discovery"; task_description := "stability" |});
        ("geo_opt", {| label := "Geometry Optimization";
                      task_description := "relaxation" |})];
     keywords := ["materials"];
     script_file := "upload_model_preds_to_figshare.py";
     isfile := fun path => dict_has path disk |}.
End Service.

Definition world (r : Remote) (docs : Dict Yaml) : World Remote :=
  {| remote := r; yaml_files := docs; stdout := []; api_calls := [];
     yaml_writes := [] |}.

End Reference.

(** ** Vocabulary of the properties *)

(** The result of a walk read as a set of (key-path, value) pairs. *)
Definition pairs_subset (small big : Dict string) : Prop :=
  forall key_path v, In (key_path, v) small -> In (key_path, v) big.

Definition pairs_strict_subset (small big : Dict string) : Prop :=
  pairs_subset small big /\ exists key_path v, In (key_path, v) big /\ ~ In (key_path, v) small.

(** [leaf_at data prefix key_path key v]: the walk of [data] started with
    [prefix] meets, under the key [key] of some mapping and with the dotted
    path [key_path], the value [v], which is not a mapping. *)
Inductive leaf_at : Dict Yaml -> string -> string -> string -> Yaml -> Prop :=
| leaf_here data prefix key v :
    In (key, v) data ->
    (forall sub, v <> YDict sub) ->
    leaf_at data prefix (full_key_of prefix key) key v
| leaf_below data prefix key sub key_path key' v :
    In (key, YDict sub) data ->
    leaf_at sub (full_key_of prefix key) key_path key' v ->
    leaf_at data prefix key_path key' v.

(** No relative path is a key of two of the three dictionaries. *)
Definition buckets_disjoint (b : Buckets) : Prop :=
  forall k,
    (In k (keys (skipped_files b)) ->
     ~ In k (keys (updated_files b)) /\ ~ In k (keys (new_files b)))
    /\ (In k (keys (updated_files b)) -> ~ In k (keys (new_files b))).

(** The file references the walk finds for a model in the metadata files
    [docs], as lines 153-177 compute them: those of the task's entry of the
    model's document, nothing when the document or a mapping on the way is
    missing. *)
Definition discovered (task file_type : string) (docs : Dict Yaml) (model : Model)
  : Dict string :=
  match dict_get (yaml_path model) docs with
  | Some model_data =>
      match yaml_get model_data "metrics" with
      | inr metrics =>
          match yaml_get metrics task with
          | inr (YDict metric_data) => find_file_keys file_type metric_data ""
          | _ => []
          end
      | inl _ => []
      end
  | None => []
  end.

(** The relative paths referenced by the models of a run, model by model
    and in the order of the walk. *)
Definition referenced_paths (task file_type : string) (docs : Dict Yaml)
  (models : list Model) : list string :=
  flat_map (fun model => values (discovered task file_type docs model)) models.

(** *** Trees with plain keys *)

(** A key the dotted key-paths can stand for: not empty and without a dot. *)
Definition key_ok (k : string) : bool :=
  negb (String.eqb k "")
  && forallb (fun c => negb (Ascii.eqb c PyStr.dot)) (PyStr.chars k).

Fixpoint nodupb (l : list string) : bool :=
  match l with
  | [] => true
  | x :: l' => negb (existsb (String.eqb x) l') && nodupb l'
  end.

(** Every mapping of the document has each key once (as a Python [dict]
    has) and only plain keys. *)
Fixpoint well_keyed (y : Yaml) : bool :=
  match y with
  | YDict d =>
      nodupb (keys d)
      && (fix all (l : list (string * Yaml)) : bool :=
            match l with
            | [] => true
            | (k, v) :: l' => key_ok k && well_keyed v && all l'
            end) d
  | _ => true
  end.

(** [t[p1][p2]...[pn]], when every step meets a mapping that has the key. *)
Fixpoint get_nested (t : Yaml) (path : list string) : option Yaml :=
  match path with
  | [] => Some t
  | part :: path' =>
      match t with
      | YDict items =>
          match dict_get part items with
          | Some child => get_nested child path'
          | None => None
          end
      | _ => None
      end
  end.

(** Where the locator of a key-path is written: the parts of the key-path
    but the last, then the last part with [_url] appended. *)
Definition slot_path (key_path : string) : list string :=
  (fst (split_path key_path) ++ [(snd (split_path key_path) ++ "_url")%string])%list.

(** The file references of a tree in the order of the walk, one entry per
    leaf (the walk itself keeps one entry per key-path). *)
Fixpoint file_leaves_val (file_type : string) (data : Yaml) (prefix : string)
  {struct data} : list (string * string) :=
  match data with
  | YDict items =>
      (fix each (l : list (string * Yaml)) : list (string * string) :=
         match l with
         | [] => []
         | (key, value) :: l' =>
             (match value with
              | YDict _ => file_leaves_val file_type value (full_key_of prefix key)
              | YStr s =>
                  if PyStr.endswith key "_file" && should_process_file key file_type
                  then [(full_key_of prefix key, s)]
                  else []
              | _ => []
              end ++ each l')%list
         end) items
  | _ => []
  end.

Definition file_leaves (file_type : string) (data : Dict Yaml) (prefix : string)
  : list (string * string) :=
  file_leaves_val file_type (YDict data) prefix.

(** The metric data of the task in the document of a model, as lines
    153-159 obtain it. *)
Definition metric_data_of (task : string) (docs : Dict Yaml) (model : Model)
  : option (Dict Yaml) :=
  match dict_get (yaml_path model) docs with
  | Some model_data =>
      match yaml_get model_data "metrics" with
      | inr metrics =>
          match yaml_get metrics task with
          | inr (YDict metric_data) => Some metric_data
          | _ => None
          end
      | inl _ => None
      end
  | None => None
  end.

(** Modelled from the spec: create-or-replace is keyed by the article and
    the file name.  After an upload the point query for that name and the
    hash of the uploaded file answers with the id the upload returned, and
    the answers for every other name are what they were. *)
Class FigshareLaws {R : Type} (F : Figshare R) : Prop := {
  upload_then_match :
    forall article_id file_path file_name force r file_id was_uploaded r' file_hash size,
      upload_file_if_needed article_id file_path file_name force r
      = (inr (file_id, was_uploaded), r') ->
      get_file_hash_and_size file_path = inr (file_hash, size) ->
      file_exists_with_same_hash article_id file_name file_hash r'
      = inr (true, Some file_id);
  upload_keeps_others :
    forall article_id file_path file_name force r res r' other file_hash,
      upload_file_if_needed article_id file_path file_name force r = (inr res, r') ->
      other <> file_name ->
      file_exists_with_same_hash article_id other file_hash r'
      = file_exists_with_same_hash article_id other file_hash r;
}.

(** ** Vocabulary of the proofs *)

Section TreeVocabulary.
Import PyStr.

(** [small] is [big] cut down to the keys that satisfy [P]. *)
Definition restricts (P : string -> bool) (small big : Dict string) : Prop :=
  forall k, dict_get k small = if P k then dict_get k big else None.

Definition dot_free (s : string) : bool :=
  forallb (fun c => negb (Ascii.eqb c dot)) (chars s).

(** The segments the walk has gone through when its prefix is [prefix]. *)
Definition prefix_segments (prefix : string) : list string :=
  match prefix with
  | EmptyString => []
  | _ => split dot prefix
  end.

(** What one item of a mapping contributes to [file_leaves]. *)
Definition leaf_piece (file_type prefix : string) (item : string * Yaml)
  : list (string * string) :=
  match snd item with
  | YDict sub => file_leaves file_type sub (full_key_of prefix (fst item))
  | YStr s =>
      if endswith (fst item) "_file" && should_process_file (fst item) file_type
      then [(full_key_of prefix (fst item), s)]
      else []
  | _ => []
  end.

Definition is_hash_check (c : ApiCall) : Prop :=
  match c with CallFileExists _ _ _ => True | _ => False end.

(** The keys of the three dictionaries are among [seen], no key is in two
    of them, and none is twice in one. *)
Definition sorted_out (seen : list string) (b : Buckets) : Prop :=
  buckets_disjoint b
  /\ (forall k, In k (keys (skipped_files b)) \/ In k (keys (updated_files b))
                \/ In k (keys (new_files b)) -> In k seen)
  /\ NoDup (keys (skipped_files b)) /\ NoDup (keys (updated_files b))
  /\ NoDup (keys (new_files b)).

(** Nothing is uploaded: the two dictionaries of uploads are what they
    were and [skipped_files] keeps its keys. *)
Definition only_skips (b b' : Buckets) : Prop :=
  updated_files b' = updated_files b
  /\ new_files b' = new_files b
  /\ incl (keys (skipped_files b)) (keys (skipped_files b')).

End TreeVocabulary.

Section WorldVocabulary.
Context {R : Type} {F : Figshare R} (env : Env).

(** [m] relates every world it starts in to the world it leaves, whether
    it returns or raises. *)
Definition preserves {A} (rel : World R -> World R -> Prop) (m : M R A) : Prop :=
  forall w, rel w (snd (m w)).

Definition record_skipped (filename url : string) (b : Buckets) : Buckets :=
  {| skipped_files := dict_set filename url (skipped_files b);
     updated_files := updated_files b;
     new_files := new_files b |}.

Definition record_uploaded (existing_files : Dict FileData) (filename url : string)
  (b : Buckets) : Buckets :=
  if dict_has filename existing_files
  then {| skipped_files := skipped_files b;
          updated_files := dict_set filename url (updated_files b);
          new_files := new_files b |}
  else {| skipped_files := skipped_files b;
          updated_files := updated_files b;
          new_files := dict_set filename url (new_files b) |}.

Definition wrote_yaml (path : string) (doc : Yaml) (w : World R) : World R :=
  {| remote := remote w; yaml_files := dict_set path doc (yaml_files w);
     stdout := stdout w; api_calls := api_calls w;
     yaml_writes := yaml_writes w ++ [path] |}.

Definition printed (m : Msg) (w : World R) : World R :=
  {| remote := remote w; yaml_files := yaml_files w; stdout := stdout w ++ [m];
     api_calls := api_calls w; yaml_writes := yaml_writes w |}.

(** Only standard output differs. *)
Definition silent (w w' : World R) : Prop :=
  remote w' = remote w /\ yaml_files w' = yaml_files w
  /\ api_calls w' = api_calls w /\ yaml_writes w' = yaml_writes w.

(** Nothing but reads: the remote service and the metadata files are what
    they were, no metadata file was opened for writing, and the calls
    made to the remote service are queries. *)
Definition quiet (w w' : World R) : Prop :=
  remote w' = remote w
  /\ yaml_files w' = yaml_files w
  /\ yaml_writes w' = yaml_writes w
  /\ exists calls, api_calls w' = (api_calls w ++ calls)%list
                   /\ forallb (fun c => negb (mutating c)) calls = true.

(** [c] is among the calls made between [w] and [w']. *)
Definition called_since (w w' : World R) (c : ApiCall) : Prop :=
  exists calls, api_calls w' = (api_calls w ++ calls)%list /\ In c calls.

(** What a forced step may do to the outcome dictionaries and the record
    of calls: nothing is skipped, [updated_files] keeps its keys,
    [new_files] gains only names that are not in the listing, and the
    remote is not asked to compare hashes. *)
Definition forced (existing_files : Dict FileData) (s s' : Buckets * World R) : Prop :=
  skipped_files (fst s') = skipped_files (fst s)
  /\ incl (keys (updated_files (fst s))) (keys (updated_files (fst s')))
  /\ (forall k, In k (keys (new_files (fst s'))) ->
                In k (keys (new_files (fst s))) \/ dict_has k existing_files = false)
  /\ exists calls, api_calls (snd s') = (api_calls (snd s) ++ calls)%list
                   /\ Forall (fun c => ~ is_hash_check c) calls.

(** What a call of the record does to the remote service: the two calls
    that may change it are applied to it, a query leaves it alone. *)
Definition apply_call (c : ApiCall) (r : R) : R :=
  match c with
  | CallCreateArticle metadata => snd (create_article metadata r)
  | CallUpload article_id file_path file_name force =>
      snd (upload_file_if_needed article_id file_path file_name force r)
  | _ => r
  end.

(** The remote service after the calls [calls], made in this order. *)
Definition replay (calls : list ApiCall) (r : R) : R :=
  fold_left (fun r c => apply_call c r) calls r.

(** Between [w] and [w'] the calls [calls] were made, in this order, and
    the remote service of [w'] is what they made of the one of [w]. *)
Definition ran_calls (calls : list ApiCall) (w w' : World R) : Prop :=
  api_calls w' = (api_calls w ++ calls)%list
  /\ remote w' = replay calls (remote w).

(** A call a forced run may make: no comparison of hashes, and an upload
    only with the force flag set. *)
Definition forced_call (c : ApiCall) : Prop :=
  match c with
  | CallFileExists _ _ _ => False
  | CallUpload _ _ _ force => force = true
  | _ => True
  end.

(** What a forced run does to the remote service, however it ends. *)
Definition forced_run (w w' : World R) : Prop :=
  exists calls, ran_calls calls w w' /\ Forall forced_call calls.

(** [url] is the download URL of the id that a forced upload of
    [file_name] to the article returned, an upload made between [w0] and
    [w] on the remote service as the calls before it had left it. *)
Definition url_of_upload (article_id : Z) (w0 w : World R) (file_name url : string)
  : Prop :=
  exists before after file_id was_uploaded,
    ran_calls
      (before ++ CallUpload article_id (ROOT env ++ "/" ++ file_name) file_name true
              :: after) w0 w
    /\ fst (upload_file_if_needed article_id (ROOT env ++ "/" ++ file_name) file_name
              true (replay before (remote w0)))
       = inr (file_id, was_uploaded)
    /\ url = download_url file_id.

(** Every URL of [updated_files] comes from such an upload. *)
Definition urls_from_uploads (article_id : Z) (w0 : World R) (s : Buckets * World R)
  : Prop :=
  (exists calls, ran_calls calls w0 (snd s))
  /\ forall file_name url,
       dict_get file_name (updated_files (fst s)) = Some url ->
       url_of_upload article_id w0 (snd s) file_name url.

Section SettledVocabulary.
Variables (article_id : Z) (task file_type : string).

(** The remote holds [rel] with the content the local file has, under the
    id [file_id]. *)
Definition matched (r : R) (rel : string) (file_id : Z) : Prop :=
  exists file_hash size,
    get_file_hash_and_size (ROOT env ++ "/" ++ rel) = inr (file_hash, size)
    /\ file_exists_with_same_hash article_id rel file_hash r = inr (true, Some file_id).

(** The hash check leaves the tree alone for [key_path]: the dotted locator
    key is at the top of the tree, or the slot holds the URL of [file_id]. *)
Definition slot_ok (metric_data : Dict Yaml) (key_path : string) (file_id : Z) : Prop :=
  dict_has (key_path ++ "_url") metric_data = true
  \/ get_nested (YDict metric_data) (slot_path key_path)
     = Some (YStr (download_url file_id)).

(** A reference whose file is on disk is on the remote with the same
    content and its locator is in place. *)
Definition settled (metric_data : Dict Yaml) (r : R) (item : string * string) : Prop :=
  isfile env (ROOT env ++ "/" ++ snd item) = true ->
  exists file_id, matched r (snd item) file_id /\ slot_ok metric_data (fst item) file_id.

Definition keeps_matches (r r' : R) : Prop :=
  forall rel file_id, matched r rel file_id -> matched r' rel file_id.

(** The references gone through so far that are still in the tree are
    settled. *)
Definition done_settled (done : list (string * string)) (metric_data : Dict Yaml)
  (r : R) : Prop :=
  forall item, In item done -> In item (file_leaves file_type metric_data "") ->
               settled metric_data r item.

(** The document of a model can be read, and when the entry of the task is
    a mapping every reference the walk finds in it is settled. *)
Definition settled_model (w : World R) (model : Model) : Prop :=
  match dict_get (yaml_path model) (yaml_files w) with
  | None => True
  | Some model_data =>
      exists metrics entry,
        yaml_get model_data "metrics" = inr metrics
        /\ yaml_get metrics task = inr entry
        /\ forall metric_data, entry = YDict metric_data ->
             forall item, In item (find_file_keys file_type metric_data "") ->
                          settled metric_data (remote w) item
  end.

(** The metric data of the model has plain keys. *)
Definition tidy_model (docs : Dict Yaml) (model : Model) : Prop :=
  forall metric_data,
    metric_data_of task docs model = Some metric_data ->
    well_keyed (YDict metric_data) = true.

End SettledVocabulary.
End WorldVocabulary.

(** ** Vocabulary of the further properties *)

(** A leaf the walk keeps: a string under a key that ends in [_file] and
    passes the filter, met with the dotted path [key_path]. *)
Definition file_leaf (file_type : string) (tree : Dict Yaml) (prefix key_path s : string)
  : Prop :=
  exists key, leaf_at tree prefix key_path key (YStr s)
              /\ PyStr.endswith key "_file" = true
              /\ should_process_file key file_type = true.

Section CallVocabulary.
Context {R : Type} {F : Figshare R} (env : Env).

(** The calls made between [w] and [w'] all satisfy [P]. *)
Definition calls_all (P : ApiCall -> Prop) (w w' : World R) : Prop :=
  exists calls, api_calls w' = (api_calls w ++ calls)%list /\ Forall P calls.

(** Standard output is only added to. *)
Definition grows (w w' : World R) : Prop :=
  exists out, stdout w' = (stdout w ++ out)%list.

(** The calls that concern an article as a whole. *)
Definition article_query (c : ApiCall) : Prop :=
  match c with
  | CallArticleExists _ | CallGetExistingFiles _ => True
  | _ => False
  end.

(** A call of the file loop as lines 178-217 make it for the article
    [article_id]: a hash check for a file that is on the local disk, under
    its path relative to [ROOT] and with the hash of the local file, or an
    upload of such a file under that name with the force flag of the run. *)
Definition file_call (article_id : Z) (force_reupload : bool) (c : ApiCall) : Prop :=
  match c with
  | CallFileExists a file_name file_hash =>
      a = article_id
      /\ isfile env (ROOT env ++ "/" ++ file_name) = true
      /\ exists size,
           get_file_hash_and_size (ROOT env ++ "/" ++ file_name) = inr (file_hash, size)
  | CallUpload a file_path file_name force =>
      a = article_id
      /\ file_path = ROOT env ++ "/" ++ file_name
      /\ isfile env file_path = true
      /\ force = force_reupload
  | _ => False
  end.

(** The same without the article: what every call of a run has to be. *)
Definition local_call (force_reupload : bool) (c : ApiCall) : Prop :=
  match c with
  | CallFileExists _ _ _ | CallUpload _ _ _ _ =>
      exists article_id, file_call article_id force_reupload c
  | _ => True
  end.

(** A call that concerns the article [article_id] and does not create
    one. *)
Definition about_article (article_id : Z) (c : ApiCall) : Prop :=
  match c with
  | CallArticleExists a | CallGetExistingFiles a
  | CallFileExists a _ _ | CallUpload a _ _ _ => a = article_id
  | CallCreateArticle _ => False
  end.

(** Line 108 finds no usable article for the task: none is registered, or
    the registered one is reported missing. *)
Definition needs_creation (task : string) (r : R) : Prop :=
  dict_get ("model_preds_" ++ task) ARTICLE_IDS = Some None
  \/ exists old,
       dict_get ("model_preds_" ++ task) ARTICLE_IDS = Some (Some old)
       /\ article_exists old r = inr false.
End CallVocabulary.

Section RunVocabulary.
Context {R : Type}.

(** [m] does not look at standard output: started in two states that
    differ in standard output only, it gives the same result and leaves
    states that differ in standard output only. *)
Definition respects {A} (m : M R A) : Prop :=
  forall w1 w2 : World R,
    silent w1 w2 ->
    fst (m w1) = fst (m w2) /\ silent (snd (m w1)) (snd (m w2)).

(** The same metadata files are there. *)
Definition paths_kept (w w' : World R) : Prop :=
  forall path, dict_has path (yaml_files w') = dict_has path (yaml_files w).

(** The models whose metadata file is there. *)
Definition present_models (w : World R) (models : list Model) : list Model :=
  filter (fun m => dict_has (yaml_path m) (yaml_files w)) models.
End RunVocabulary.

(** ** Documents up to their locators *)

(** The document without the entries whose key ends in [_url], in every
    mapping that is reached through mappings. *)
Fixpoint strip_locators (y : Yaml) : Yaml :=
  match y with
  | YDict d =>
      YDict ((fix each (l : list (string * Yaml)) : list (string * Yaml) :=
                match l with
                | [] => []
                | (k, v) :: l' =>
                    if PyStr.endswith k "_url" then each l'
                    else (k, strip_locators v) :: each l'
                end) d)
  | _ => y
  end.

Definition strip_items (d : Dict Yaml) : Dict Yaml :=
  match strip_locators (YDict d) with
  | YDict d' => d'
  | _ => []
  end.

(** The metadata files of [w'] are those of [w] up to locators. *)
Definition docs_alike {R : Type} (w w' : World R) : Prop :=
  forall path,
    option_map strip_locators (dict_get path (yaml_files w'))
    = option_map strip_locators (dict_get path (yaml_files w)).

(** The document of the model is there and its entry for the task is a
    mapping (a missing entry counts as the empty mapping, line 157). *)
Definition has_task_mapping (task : string) (docs : Dict Yaml) (model : Model) : bool :=
  match metric_data_of task docs model with
  | Some _ => true
  | None => false
  end.

Section BucketVocabulary.
Context (env : Env).

(** The dictionaries against the listing of the article: the re-uploaded
    files are in the listing, the newly added ones are not, and every
    file of the three dictionaries exists under [ROOT]. *)
Definition sorted_by_listing (existing_files : Dict FileData) (b : Buckets) : Prop :=
  (forall file_name, In file_name (keys (updated_files b)) ->
                     dict_has file_name existing_files = true)
  /\ (forall file_name, In file_name (keys (new_files b)) ->
                        dict_has file_name existing_files = false)
  /\ (forall file_name,
         In file_name (keys (skipped_files b)) \/ In file_name (keys (updated_files b))
         \/ In file_name (keys (new_files b)) ->
         isfile env (ROOT env ++ "/" ++ file_name) = true).
End BucketVocabulary.

(** The file name is a key of one of the three dictionaries. *)
Definition reported (b : Buckets) (file_name : string) : Prop :=
  In file_name (keys (skipped_files b)) \/ In file_name (keys (updated_files b))
  \/ In file_name (keys (new_files b)).

(** ** Where the locators are written *)

(** No key on the path ends in [_url]. *)
Definition url_free (path : list string) : bool :=
  forallb (fun part => negb (PyStr.endswith part "_url")) path.

(** No file reference of the tree lies in a mapping that is stored under
    a key ending in [_url], at any depth: the parts of every key-path but
    the last do not end in [_url]. *)
Definition clear_of_locators (file_type : string) (metric_data : Dict Yaml) : bool :=
  forallb (fun item : string * string => url_free (fst (split_path (fst item))))
    (find_file_keys file_type metric_data "").

(** For every reference of [items], the descent of lines 226-229 through
    the tree ends in a mapping and meets no key ending in [_url]. *)
Definition parents_ok (metric_data : Dict Yaml) (items : Dict string) : Prop :=
  forall key_path rel,
    In (key_path, rel) items ->
    url_free (fst (split_path key_path)) = true
    /\ exists d, get_nested (YDict metric_data) (fst (split_path key_path))
                 = Some (YDict d).

Section FailureVocabulary.
Context {R : Type} {F : Figshare R} (env : Env).

(** The exception [e] is what one of the three helpers of the file loop
    raised for the file [rel]: [get_file_hash_and_size] for the local
    file, [file_exists_with_same_hash] for its name and hash, or
    [upload_file_if_needed] for the file with the force flag of the run. *)
Definition helper_raised (article_id : Z) (force_reupload : bool) (rel : string)
  (e : PyErr) : Prop :=
  get_file_hash_and_size (ROOT env ++ "/" ++ rel) = inl e
  \/ (exists file_hash size r,
         get_file_hash_and_size (ROOT env ++ "/" ++ rel) = inr (file_hash, size)
         /\ file_exists_with_same_hash article_id rel file_hash r = inl e)
  \/ (exists r,
         fst (upload_file_if_needed article_id (ROOT env ++ "/" ++ rel) rel
                force_reupload r) = inl e).
End FailureVocabulary.

(** ** Concrete inputs used by the examples *)

Module Scenario.
Import Reference.

(** The metrics of the spec's scenario, with one more reference and a
    plain metric. *)
Definition tree_energy : Dict Yaml :=
  [ ("energy_pred_file", YStr "a/b.csv");
    ("energy_analysis_file", YStr "a/c.csv");
    ("mae", YScalar "0.1") ].

(** A tree whose only file reference is a prediction file. *)
Definition tree_pred_only : Dict Yaml :=
  [ ("energy_pred_file", YStr "a/b.csv") ].

(** Two artifact files on the local disk. *)
Definition disk : Dict (string * Z) :=
  [ ("/repo/a/b.csv", ("h1", 10%Z)); ("/repo/a/c.csv", ("h2", 5%Z)) ].

(** The article of task [discovery] is registered with id 7, the one of
    task [geo_opt] is not registered. *)
Definition article_ids : Dict (option Z) :=
  [ ("model_preds_discovery", Some 7%Z); ("model_preds_geo_opt", None) ].

Definition fs : Figshare Remote := figshare disk article_ids.
Definition ev : Env := env disk.

(** Article 7 without files, and with [a/b.csv] as it is on disk. *)
Definition remote_empty : Remote :=
  {| online := true; articles := [(7%Z, [])]; next_id := 100 |}.

Definition remote_with_b : Remote :=
  {| online := true;
     articles := [(7%Z, [("a/b.csv", {| rf_id := 41; rf_hash := "h1" |})])];
     next_id := 100 |}.

(** No article at all. *)
Definition remote_blank : Remote :=
  {| online := true; articles := []; next_id := 100 |}.

Definition m1 : Model := {| value := "m1"; name := "m1"; yaml_path := "models/m1.yml" |}.
Definition m2 : Model := {| value := "m2"; name := "m2"; yaml_path := "models/m2.yml" |}.

Definition doc_with (task : string) (metric_data : Dict Yaml) : Yaml :=
  YDict [ ("model_name", YStr "M"); ("metrics", YDict [(task, YDict metric_data)]) ].

(** The spec's scenario: one prediction file under task [discovery]. *)
Definition doc_pred : Yaml := doc_with "discovery" tree_pred_only.

(** A nested reference whose locator is already recorded. *)
Definition tree_nested_url : Dict Yaml :=
  [ ("full_test_set",
     YDict [ ("pred_file", YStr "a/b.csv");
             ("pred_file_url", YStr "https://mirror.example/b.csv") ]) ].

(** The same reference and locator at the top of the tree. *)
Definition tree_flat_url : Dict Yaml :=
  [ ("pred_file", YStr "a/b.csv");
    ("pred_file_url", YStr "https://mirror.example/b.csv") ].

(** Metrics without any file reference. *)
Definition tree_plain : Dict Yaml := [ ("mae", YScalar "0.1") ].

(** Two key-paths that reference the same file. *)
Definition tree_shared : Dict Yaml :=
  [ ("energy_pred_file", YStr "a/b.csv"); ("forces_pred_file", YStr "a/b.csv") ].

(** A document whose [metrics] entry is a sequence. *)
Definition doc_bad_metrics : Yaml :=
  YDict [ ("model_name", YStr "M"); ("metrics", YList []) ].

(** A document whose entry for task [discovery] is a scalar. *)
Definition doc_scalar_entry : Yaml :=
  YDict [ ("model_name", YStr "M"); ("metrics", YDict [("discovery", YScalar "null")]) ].

Definition run (task : string) (models : list Model) (dry_run : bool)
  (file_type : string) (force_reupload : bool) (r : Remote) (docs : Dict Yaml)
  : (PyErr + Buckets) * World Remote :=
  @update_one_modeling_task_article Remote fs ev task models dry_run file_type
    force_reupload (world r docs).

(** [main] with the command line already parsed. *)
Definition parsed (models : list Model) (tasks : list string) (dry_run : bool)
  : option (list string) -> Namespace.t :=
  fun _ => {| Namespace.models := models; Namespace.tasks := tasks;
              Namespace.dry_run := dry_run; Namespace.file_type := "all";
              Namespace.force_reupload := false |}.

Definition run_main (models : list Model) (tasks : list string) (dry_run : bool)
  (r : Remote) (docs : Dict Yaml) : (Raised + Z) * World Remote :=
  @main Remote fs ev (parsed models tasks dry_run) None (world r docs).

(** A key with a dot whose locator slot lies inside the slot of another
    reference. *)
Definition tree_dotted : Dict Yaml :=
  [ ("p_file_url.q_file", YStr "a/c.csv");
    ("p_file_url", YDict []);
    ("p_file", YStr "a/b.csv") ].

(** The run of the spec's scenarios and the run that follows it. *)
Definition docs_energy : Dict Yaml := [("models/m1.yml", doc_with "discovery" tree_energy)].

Definition again (first : (PyErr + Buckets) * World Remote) (task : string)
  (models : list Model) : (PyErr + Buckets) * World Remote :=
  @update_one_modeling_task_article Remote fs ev task models false "all" false (snd first).
End Scenario.

(** ** Further concrete inputs *)

Module MoreScenarios.
Import Reference Scenario.

(** An environment whose [MODELING_TASKS] is empty. *)
Definition ev_no_tasks : Env :=
  {| ROOT := "/repo"; MODELING_TASKS := []; keywords := ["materials"];
     script_file := "upload_model_preds_to_figshare.py";
     isfile := fun path => dict_has path disk |}.

(** A document for each of the two models. *)
Definition docs_two : Dict Yaml :=
  [ ("models/m1.yml", doc_with "discovery" tree_energy);
    ("models/m2.yml", doc_bad_metrics) ].

(** Only the document of [m1] is there. *)
Definition docs_m1 : Dict Yaml := [ ("models/m1.yml", doc_pred) ].

(** A reference inside a mapping that is stored where the locator of
    another reference goes. *)
Definition tree_under_url : Dict Yaml :=
  [ ("p_file", YStr "a/b.csv");
    ("p_file_url", YDict [("q_file", YStr "a/c.csv")]) ].
End MoreScenarios.

(** * Properties *)

(** ** Strings *)

Module PyStrFacts.
Import PyStr.

Lemma chars_app (a b : string) : chars (a ++ b) = (chars a ++ chars b)%list.
Proof.
unfold chars. induction a as [|c a IH]; simpl; [reflexivity|].
now rewrite IH.
Qed.

Lemma chars_inj (a b : string) : chars a = chars b -> a = b.
Proof.
unfold chars. intros H.
rewrite <- (string_of_list_ascii_of_string a), <- (string_of_list_ascii_of_string b).
now rewrite H.
Qed.

Lemma is_prefix_spec (p s : list ascii) :
is_prefix p s = true <-> exists r, s = (p ++ r)%list.
Proof.
revert s. induction p as [|c p IH]; intros s; simpl.
- split; [intros _; now exists s | reflexivity].
- destruct s as [|d s].
  + split; [discriminate | intros [r Hr]; discriminate].
  + rewrite andb_true_iff, IH. split.
    * intros [Hc [r ->]]. apply Ascii.eqb_eq in Hc. subst. now exists r.
    * intros [r Hr]. injection Hr as -> ->. split; [apply Ascii.eqb_refl | now exists r].
Qed.

Lemma endswith_spec (s suf : string) :
endswith s suf = true <-> exists p, s = p ++ suf.
Proof.
unfold endswith. rewrite is_prefix_spec. split.
- intros [r Hr]. exists (string_of_list_ascii (rev r)).
  apply chars_inj. rewrite chars_app. unfold chars at 2.
  rewrite list_ascii_of_string_of_list_ascii.
  rewrite <- (rev_involutive (chars s)), Hr, rev_app_distr.
  now rewrite rev_involutive.
- intros [p ->]. exists (rev (chars p)).
  now rewrite chars_app, rev_app_distr.
Qed.


(** Reading from the right, a pattern without the separator is matched
  before the separator is reached or not at all. *)
Lemma is_prefix_before_sep (sep : ascii) (pat l r : list ascii) :
~ In sep pat ->
is_prefix pat (l ++ sep :: r) = is_prefix pat l.
Proof.
revert l. induction pat as [|c pat IH]; intros l Hsep; simpl; [reflexivity|].
destruct l as [|d l]; simpl.
- destruct (Ascii.eqb_spec c sep) as [->|_]; [|reflexivity].
  exfalso. apply Hsep. now left.
- rewrite IH; [reflexivity|]. intros Hin. apply Hsep. now right.
Qed.

Lemma endswith_dotted (prefix key pat : string) :
~ In dot (chars pat) ->
endswith (prefix ++ "." ++ key) pat = endswith key pat.
Proof.
intros Hpat. unfold endswith. rewrite !chars_app. simpl.
rewrite rev_app_distr. simpl. rewrite <- app_assoc. simpl.
apply is_prefix_before_sep. now rewrite <- in_rev.
Qed.

Lemma startswith_app (p s : string) : startswith (p ++ s) p = true.
Proof.
unfold startswith. apply is_prefix_spec. exists (chars s). apply chars_app.
Qed.

Lemma substring_all (s : string) : substring 0 (String.length s) s = s.
Proof. induction s as [|c s IH]; simpl; [reflexivity | now rewrite IH]. Qed.

Lemma substring_skip (p s : string) (n : nat) :
substring (String.length p) n (p ++ s) = substring 0 n s.
Proof. induction p as [|c p IH]; simpl; [reflexivity | exact IH]. Qed.

Lemma length_app (p s : string) :
String.length (p ++ s) = String.length p + String.length s.
Proof. induction p as [|c p IH]; simpl; [reflexivity | now rewrite IH]. Qed.

(** [(p + s).removeprefix(p) == s] *)
Lemma removeprefix_app (p s : string) : removeprefix (p ++ s) p = s.
Proof.
unfold removeprefix. rewrite startswith_app, substring_skip, length_app.
replace (String.length p + String.length s - String.length p)
  with (String.length s) by lia.
apply substring_all.
Qed.

End PyStrFacts.

(** ** Dictionaries *)

Section DictFacts.
Context {V : Type}.
Implicit Types (d : Dict V) (k : string) (v : V).

Lemma dict_get_set_eq k v d : dict_get k (dict_set k v d) = Some v.
Proof.
  induction d as [|[k' v'] d IH]; simpl.
  - now rewrite String.eqb_refl.
  - destruct (String.eqb_spec k k') as [->|Hne]; simpl.
    + now rewrite String.eqb_refl.
    + destruct (String.eqb_spec k k'); [contradiction | exact IH].
Qed.

Lemma dict_get_set_neq k k' v d :
  k <> k' -> dict_get k (dict_set k' v d) = dict_get k d.
Proof.
  intros Hne. induction d as [|[k0 v0] d IH]; simpl.
  - destruct (String.eqb_spec k k'); [contradiction | reflexivity].
  - destruct (String.eqb_spec k' k0) as [->|Hne0]; simpl.
    + destruct (String.eqb_spec k k0); [contradiction | reflexivity].
    + destruct (String.eqb_spec k k0); [reflexivity | exact IH].
Qed.

Lemma dict_get_set k k' v d :
  dict_get k (dict_set k' v d) = if String.eqb k k' then Some v else dict_get k d.
Proof.
  destruct (String.eqb_spec k k') as [->|Hne].
  - apply dict_get_set_eq.
  - now apply dict_get_set_neq.
Qed.

(** Assigning the value a key already has changes nothing. *)
Lemma dict_set_same k v d : dict_get k d = Some v -> dict_set k v d = d.
Proof.
  induction d as [|[k' v'] d IH]; simpl; [discriminate|].
  destruct (String.eqb_spec k k') as [->|Hne].
  - now intros [= ->].
  - intros H. now rewrite IH.
Qed.

Lemma keys_dict_set k v d :
  keys (dict_set k v d) = if dict_has k d then keys d else (keys d ++ [k])%list.
Proof.
  unfold dict_has, keys. induction d as [|[k' v'] d IH]; simpl; [reflexivity|].
  destruct (String.eqb_spec k k') as [->|Hne]; simpl; [reflexivity|].
  rewrite IH. now destruct (dict_get k d).
Qed.

Lemma dict_get_In k v d : dict_get k d = Some v -> In (k, v) d.
Proof.
  induction d as [|[k' v'] d IH]; simpl; [discriminate|].
  destruct (String.eqb_spec k k') as [->|Hne].
  - intros [= ->]. now left.
  - intros H. right. now apply IH.
Qed.

Lemma dict_get_None k d : dict_get k d = None <-> ~ In k (keys d).
Proof.
  unfold keys. induction d as [|[k' v'] d IH]; simpl.
  - tauto.
  - destruct (String.eqb_spec k k') as [->|Hne].
    + split; [discriminate | intros H; exfalso; apply H; now left].
    + rewrite IH. split; [intros H [E|E]; [congruence | tauto] | tauto].
Qed.

Lemma dict_has_In k d : dict_has k d = true <-> In k (keys d).
Proof.
  unfold dict_has. destruct (dict_get k d) eqn:E.
  - split; [intros _ | reflexivity].
    apply dict_get_In in E. apply (in_map fst) in E. exact E.
  - apply dict_get_None in E. split; [discriminate | contradiction].
Qed.

Lemma In_dict_get k v d : NoDup (keys d) -> In (k, v) d -> dict_get k d = Some v.
Proof.
  unfold keys. induction d as [|[k' v'] d IH]; simpl; [contradiction|].
  intros Hnd Hin. inversion Hnd as [|? ? Hnotin Hnd']; subst.
  destruct Hin as [[= -> ->]|Hin].
  - now rewrite String.eqb_refl.
  - destruct (String.eqb_spec k k') as [->|Hne]; [|now apply IH].
    exfalso. apply Hnotin. apply (in_map fst) in Hin. exact Hin.
Qed.

Lemma NoDup_dict_set k v d : NoDup (keys d) -> NoDup (keys (dict_set k v d)).
Proof.
  intros Hnd. rewrite keys_dict_set. destruct (dict_has k d) eqn:E; [exact Hnd|].
  apply NoDup_app; [exact Hnd | repeat constructor; intros [] | ].
  intros x Hx [<-|[]].
  apply dict_has_In in Hx. congruence.
Qed.

Lemma NoDup_dict_update d o : NoDup (keys d) -> NoDup (keys (dict_update d o)).
Proof.
  unfold dict_update. revert d. induction o as [|[k v] o IH]; intros d Hnd; simpl.
  - exact Hnd.
  - apply IH. now apply NoDup_dict_set.
Qed.

(** Looking a key up after [d |= o], for [o] with unique keys. *)
Lemma dict_get_update k d o :
  NoDup (keys o) ->
  dict_get k (dict_update d o)
  = match dict_get k o with Some v => Some v | None => dict_get k d end.
Proof.
  unfold dict_update, keys. revert d.
  induction o as [|[k' v'] o IH]; intros d Hnd; simpl; [reflexivity|].
  inversion Hnd as [|? ? Hnotin Hnd']; subst.
  rewrite IH by exact Hnd'.
  destruct (String.eqb_spec k k') as [->|Hne].
  - replace (dict_get k' o) with (@None V); [apply dict_get_set_eq|].
    symmetry. now apply dict_get_None.
  - destruct (dict_get k o); [reflexivity | now apply dict_get_set_neq].
Qed.

Lemma In_dict_set k v k' v' d :
  In (k, v) (dict_set k' v' d) -> (k, v) = (k', v') \/ In (k, v) d.
Proof.
  induction d as [|[k0 v0] d IH]; simpl.
  - intros [E|[]]. left. now symmetry.
  - destruct (String.eqb_spec k' k0) as [->|Hne]; simpl.
    + intros [E|H]; [left; now symmetry | right; now right].
    + intros [E|H]; [right; now left|].
      destruct (IH H) as [E|H']; [now left | right; now right].
Qed.

Lemma In_dict_update k v d o :
  In (k, v) (dict_update d o) -> In (k, v) o \/ In (k, v) d.
Proof.
  unfold dict_update. revert d.
  induction o as [|[k' v'] o IH]; intros d; simpl; [now right|].
  intros H. destruct (IH _ H) as [H'|H']; [left; now right|].
  apply In_dict_set in H'. destruct H' as [E|H']; [left; left; now symmetry | now right].
Qed.

Lemma keys_set_incl k v d : incl (keys d) (keys (dict_set k v d)).
Proof.
  rewrite keys_dict_set. destruct (dict_has k d); [apply incl_refl|].
  apply incl_appl, incl_refl.
Qed.

Lemma keys_set_in k v d : In k (keys (dict_set k v d)).
Proof.
  rewrite keys_dict_set. destruct (dict_has k d) eqn:E.
  - now apply dict_has_In.
  - apply in_or_app. right. now left.
Qed.

Lemma keys_set_inv k k' v d :
  In k (keys (dict_set k' v d)) -> k = k' \/ In k (keys d).
Proof.
  rewrite keys_dict_set. destruct (dict_has k' d); [now right|].
  rewrite in_app_iff. intros [H|[<-|[]]]; [now right | now left].
Qed.

Lemma keys_set_iff k k' v d :
  In k (keys (dict_set k' v d)) <-> k = k' \/ In k (keys d).
Proof.
  split; [apply keys_set_inv|]. intros [->|H]; [apply keys_set_in | now apply keys_set_incl].
Qed.
End DictFacts.

(** ** The walker *)

Section WalkerFacts.
Import PyStr PyStrFacts.

Lemma find_file_keys_unfold (file_type : string) (data : Dict Yaml) (prefix : string) :
  find_file_keys file_type data prefix
  = find_file_keys_loop file_type prefix data [].
Proof.
  unfold find_file_keys, find_file_keys_loop. simpl.
  generalize (@nil (string * string)) as result.
  induction data as [|[key v] data IH]; intros result; simpl; [reflexivity|].
  rewrite IH. f_equal.
  unfold find_file_keys_step; simpl. now destruct v.
Qed.

#[local] Arguments find_file_keys_val : simpl never.
#[local] Arguments find_file_keys : simpl never.

Lemma find_file_keys_val_leaf ft (data : Yaml) prefix :
  (forall d, data <> YDict d) -> find_file_keys_val ft data prefix = [].
Proof. destruct data; intros H; try reflexivity. now destruct (H d). Qed.


Lemma should_process_all key : should_process_file key "all" = true.
Proof. reflexivity. Qed.

Lemma should_process_pred key :
  should_process_file key "pred" = endswith key "pred_file".
Proof. reflexivity. Qed.


(** A suffix without a dot is a suffix of the dotted path exactly when it
    is one of the last key. *)
Lemma endswith_full_key prefix key pat :
  ~ In dot (chars pat) ->
  endswith (full_key_of prefix key) pat = endswith key pat.
Proof.
  intros Hpat. destruct prefix as [|c prefix]; [reflexivity|].
  unfold full_key_of. now apply endswith_dotted.
Qed.

Lemma no_dot_in_file : ~ In dot (chars "_file").
Proof. simpl. intros H. repeat (destruct H as [H|H]; [discriminate H|]). exact H. Qed.

Lemma no_dot_in_pred_file : ~ In dot (chars "pred_file").
Proof. simpl. intros H. repeat (destruct H as [H|H]; [discriminate H|]). exact H. Qed.

(** The result of a walk has every key once. *)
Lemma NoDup_find_file_keys_val ft (data : Yaml) :
  forall prefix, NoDup (keys (find_file_keys_val ft data prefix)).
Proof.
  induction data as [x|s|l|d IH] using Yaml_dict_ind; intros prefix;
    try (rewrite find_file_keys_val_leaf by discriminate; constructor).
  change (NoDup (keys (find_file_keys ft d prefix))).
  rewrite find_file_keys_unfold. unfold find_file_keys_loop.
  assert (Hnil : NoDup (keys (@nil (string * string)))) by constructor.
  revert Hnil. generalize (@nil (string * string)) as result.
  induction IH as [|[key v] d Hv _ IHd]; intros result Hres; simpl; [exact Hres|].
  apply IHd. unfold find_file_keys_step; simpl.
  destruct v; try exact Hres.
  - destruct (_ && _); [now apply NoDup_dict_set | exact Hres].
  - now apply NoDup_dict_update.
Qed.

Lemma NoDup_find_file_keys ft data prefix :
  NoDup (keys (find_file_keys ft data prefix)).
Proof. apply NoDup_find_file_keys_val. Qed.


Lemma restricts_pred_all_val (data : Yaml) :
  forall prefix,
    restricts (fun k => endswith k "pred_file")
      (find_file_keys_val "pred" data prefix) (find_file_keys_val "all" data prefix).
Proof.
  induction data as [x|s|l|d IH] using Yaml_dict_ind; intros prefix;
    try (intros k; rewrite !find_file_keys_val_leaf by discriminate; simpl;
         now destruct (endswith k "pred_file")).
  change (restricts (fun k => endswith k "pred_file")
            (find_file_keys "pred" d prefix) (find_file_keys "all" d prefix)).
  rewrite !find_file_keys_unfold. unfold find_file_keys_loop.
  assert (Hnil : restricts (fun k => endswith k "pred_file") [] []).
  { intros k. simpl. now destruct (endswith k "pred_file"). }
  revert Hnil. generalize (@nil (string * string)) at 1 3 as small.
  generalize (@nil (string * string)) as big.
  induction IH as [|[key v] d Hv _ IHd]; intros big small Hres; simpl; [exact Hres|].
  apply IHd. unfold find_file_keys_step; simpl.
  destruct v as [x|s|l|sub]; try exact Hres.
  - (* a string leaf *)
    rewrite should_process_all, should_process_pred, andb_true_r.
    destruct (endswith key "_file") eqn:Efile; simpl; [|exact Hres].
    intros k. rewrite dict_get_set.
    destruct (endswith key "pred_file") eqn:Epred.
    + rewrite dict_get_set. destruct (String.eqb_spec k (full_key_of prefix key)) as [->|Hne].
      * now rewrite endswith_full_key, Epred by apply no_dot_in_pred_file.
      * apply Hres.
    + destruct (String.eqb_spec k (full_key_of prefix key)) as [->|Hne].
      * rewrite Hres, endswith_full_key, Epred by apply no_dot_in_pred_file.
        reflexivity.
      * apply Hres.
  - (* a nested mapping *)
    intros k.
    rewrite !dict_get_update by apply NoDup_find_file_keys.
    simpl in Hv. specialize (Hv (full_key_of prefix key) k).
    change (find_file_keys_val "pred" (YDict sub)) with (find_file_keys "pred" sub) in Hv.
    change (find_file_keys_val "all" (YDict sub)) with (find_file_keys "all" sub) in Hv.
    rewrite Hv, (Hres k).
    destruct (endswith k "pred_file"); reflexivity.
Qed.

Lemma pred_subset_all (tree : Dict Yaml) (prefix : string) :
  pairs_subset (find_file_keys "pred" tree prefix) (find_file_keys "all" tree prefix).
Proof.
  intros k v Hin.
  apply In_dict_get in Hin; [|apply NoDup_find_file_keys].
  apply dict_get_In.
  pose proof (restricts_pred_all_val (YDict tree) prefix k) as H.
  change (find_file_keys_val "pred" (YDict tree)) with (find_file_keys "pred" tree) in H.
  change (find_file_keys_val "all" (YDict tree)) with (find_file_keys "all" tree) in H.
  rewrite Hin in H. destruct (endswith k "pred_file"); [now symmetry | discriminate].
Qed.

(** Every key-path of a result ends in [_file]. *)
Lemma find_file_keys_val_suffix ft (data : Yaml) :
  forall prefix k, In k (keys (find_file_keys_val ft data prefix)) ->
                   endswith k "_file" = true.
Proof.
  induction data as [x|s|l|d IH] using Yaml_dict_ind; intros prefix k;
    try (rewrite find_file_keys_val_leaf by discriminate; simpl; contradiction).
  change (find_file_keys_val ft (YDict d) prefix) with (find_file_keys ft d prefix).
  rewrite find_file_keys_unfold. unfold find_file_keys_loop.
  assert (Hnil : forall k, In k (keys (@nil (string * string))) -> endswith k "_file" = true)
    by (simpl; contradiction).
  revert Hnil k. generalize (@nil (string * string)) as result.
  induction IH as [|[key v] d Hv _ IHd]; intros result Hres; simpl; [exact Hres|].
  apply IHd. unfold find_file_keys_step; simpl.
  destruct v as [x|s|l|sub]; try exact Hres.
  - destruct (endswith key "_file") eqn:Efile; simpl; [|exact Hres].
    destruct (should_process_file key ft); [|exact Hres].
    intros k. rewrite keys_dict_set.
    destruct (dict_has _ _); [apply Hres|].
    rewrite in_app_iff. intros [H|[<-|[]]]; [now apply Hres|].
    now rewrite endswith_full_key by apply no_dot_in_file.
  - intros k Hk. unfold keys in Hk. apply in_map_iff in Hk.
    destruct Hk as [[k' v'] [<- Hin]]. simpl.
    apply In_dict_update in Hin. destruct Hin as [Hin|Hin].
    + apply (Hv (full_key_of prefix key)).
      apply (in_map fst) in Hin. exact Hin.
    + apply Hres. apply (in_map fst) in Hin. exact Hin.
Qed.

(** Suffixes without a dot are shared by a leaf's key and its path. *)
Lemma leaf_at_suffix data prefix key_path key v pat :
  ~ In dot (chars pat) ->
  leaf_at data prefix key_path key v ->
  endswith key_path pat = endswith key pat.
Proof.
  intros Hpat Hleaf. induction Hleaf as [data prefix key v _ _|? ? ? ? ? ? ? _ _ IH].
  - now apply endswith_full_key.
  - exact IH.
Qed.
End WalkerFacts.

(** ** Reasoning about computations *)

Section Hoare.
Context {R : Type} {F : Figshare R}.


Section Preserves.
Variable rel : World R -> World R -> Prop.
Hypothesis rel_refl : forall w, rel w w.
Hypothesis rel_trans : forall w1 w2 w3, rel w1 w2 -> rel w2 w3 -> rel w1 w3.

Lemma preserves_ret {A} (a : A) : preserves rel (ret a).
Proof. intros w. apply rel_refl. Qed.

Lemma preserves_raise {A} (e : PyErr) : preserves rel (@raise R A e).
Proof. intros w. apply rel_refl. Qed.

Lemma preserves_lift {A} (r : PyErr + A) : preserves rel (lift r).
Proof. destruct r; [apply preserves_raise | apply preserves_ret]. Qed.

Lemma preserves_bind {A B} (m : M R A) (k : A -> M R B) :
  preserves rel m -> (forall a, preserves rel (k a)) -> preserves rel (bind m k).
Proof.
  intros Hm Hk w. unfold bind. specialize (Hm w).
  destruct (m w) as [[e|a] w1]; simpl in *; [exact Hm|].
  eapply rel_trans; [exact Hm | apply Hk].
Qed.

Lemma preserves_for_each {A B} (f : A -> B -> M R A) (l : list B) :
  (forall a x, In x l -> preserves rel (f a x)) ->
  forall a, preserves rel (for_each f l a).
Proof.
  induction l as [|x l IH]; intros Hf a; simpl.
  - apply preserves_ret.
  - apply preserves_bind; [apply Hf; now left|].
    intros a'. apply IH. intros a0 y Hy. apply Hf. now right.
Qed.

Lemma preserves_load_yaml path : preserves rel (load_yaml path).
Proof.
  intros w. unfold load_yaml. destruct (dict_get path (yaml_files w)); apply rel_refl.
Qed.

Lemma preserves_yaml_isfile path : preserves rel (yaml_isfile path).
Proof. intros w. apply rel_refl. Qed.
End Preserves.


End Hoare.

(** ** Loops that return *)

Section Loops.
Context {R : Type}.

Lemma bind_ok {A B} (m : M R A) (k : A -> M R B) w b w' :
  bind m k w = (inr b, w') ->
  exists a w1, m w = (inr a, w1) /\ k a w1 = (inr b, w').
Proof.
  unfold bind. destruct (m w) as [[e|a] w1]; [discriminate|].
  intros H. now exists a, w1.
Qed.

Lemma for_each_cons_ok {A B} (f : A -> B -> M R A) x l a w a' w' :
  for_each f (x :: l) a w = (inr a', w') ->
  exists a1 w1, f a x w = (inr a1, w1) /\ for_each f l a1 w1 = (inr a', w').
Proof. simpl. apply bind_ok. Qed.

(** A loop that returns went through every element: the part before it
    returned, the element's turn returned, and so did the rest. *)
Lemma for_each_app_ok {A B} (f : A -> B -> M R A) l1 x l2 :
  forall a w a' w',
    for_each f (l1 ++ x :: l2) a w = (inr a', w') ->
    exists a0 w0 a1 w1,
      for_each f l1 a w = (inr a0, w0)
      /\ f a0 x w0 = (inr a1, w1)
      /\ for_each f l2 a1 w1 = (inr a', w').
Proof.
  induction l1 as [|y l1 IH]; intros a w a' w' H.
  - apply for_each_cons_ok in H. destruct H as (a1 & w1 & Hx & Hrest).
    now exists a, w, a1, w1.
  - simpl app in H. apply for_each_cons_ok in H. destruct H as (ay & wy & Hy & Hrest).
    destruct (IH _ _ _ _ Hrest) as (a0 & w0 & a1 & w1 & H1 & Hx & H2).
    exists a0, w0, a1, w1. repeat split; try assumption.
    simpl. unfold bind. now rewrite Hy.
Qed.

(** A reflexive and transitive relation that holds across every turn
    holds across the loop. *)
Lemma for_each_ok_rel {A B} (rel : A * World R -> A * World R -> Prop)
  (f : A -> B -> M R A) (l : list B) :
  (forall s, rel s s) ->
  (forall s1 s2 s3, rel s1 s2 -> rel s2 s3 -> rel s1 s3) ->
  (forall a x w a1 w1, In x l -> f a x w = (inr a1, w1) -> rel (a, w) (a1, w1)) ->
  forall a w a' w',
    for_each f l a w = (inr a', w') -> rel (a, w) (a', w').
Proof.
  intros Hrefl Htrans. induction l as [|x l IH]; intros Hf a w a' w' H.
  - simpl in H. injection H as <- <-. apply Hrefl.
  - apply for_each_cons_ok in H. destruct H as (a1 & w1 & Hx & Hrest).
    eapply Htrans; [eapply Hf; [now left | exact Hx]|].
    apply IH; [|exact Hrest].
    intros a0 y w0 a2 w2 Hy Hfy. eapply Hf; [right; exact Hy | exact Hfy].
Qed.
End Loops.

(** ** The steps of the engine, read backwards from their results *)

Section EngineFacts.
Context {R : Type} {F : Figshare R} (env : Env).
Import PyStr PyStrFacts.


Lemma string_app_assoc (a b c : string) : (a ++ b) ++ c = a ++ b ++ c.
Proof. induction a as [|x a IH]; simpl; [reflexivity | now rewrite IH]. Qed.

(** [filename] is the relative path the walk found. *)
Lemma filename_of_rel (rel : string) :
  removeprefix (ROOT env ++ "/" ++ rel) (ROOT env ++ "/") = rel.
Proof. rewrite <- string_app_assoc. apply removeprefix_app. Qed.

Lemma ret_ok {A} (a a' : A) (w w' : World R) :
  ret a w = (inr a', w') -> a' = a /\ w' = w.
Proof. now intros [= <- <-]. Qed.

Lemma lift_ok {A} (r : PyErr + A) a (w w' : World R) :
  lift r w = (inr a, w') -> r = inr a /\ w' = w.
Proof. destruct r; [discriminate | now intros [= <- <-]]. Qed.

Lemma query_ok {A} c (q : R -> PyErr + A) a (w w' : World R) :
  query c q w = (inr a, w') -> q (remote w) = inr a /\ w' = log_call c w.
Proof. unfold query. now intros [= -> <-]. Qed.

Lemma command_ok {A} c (f : R -> (PyErr + A) * R) a (w w' : World R) :
  command c f w = (inr a, w') ->
  exists r', f (remote w) = (inr a, r') /\ w' = set_remote r' (log_call c w).
Proof.
  unfold command. destruct (f (remote w)) as [res r'].
  intros [= -> <-]. now exists r'.
Qed.

#[local] Arguments split_path : simpl never.
#[local] Arguments set_nested_dict : simpl never.
#[local] Arguments download_url : simpl never.

Lemma try_skip_ok article_id key_path file_path filename b metric_data w res w' :
  try_skip article_id key_path file_path filename b metric_data w = (inr res, w') ->
  exists file_hash size found,
    get_file_hash_and_size file_path = inr (file_hash, size)
    /\ file_exists_with_same_hash article_id filename file_hash (remote w) = inr found
    /\ w' = log_call (CallFileExists article_id filename file_hash) w
    /\ match found with
       | (true, Some file_id) =>
           exists metric_data',
             res = Some (record_skipped filename (download_url file_id) b, metric_data')
             /\ if dict_has (key_path ++ "_url") metric_data
                then metric_data' = metric_data
                else set_nested_dict metric_data
                       (fst (split_path (key_path ++ "_url")))
                       (snd (split_path (key_path ++ "_url")))
                       (YStr (download_url file_id)) = inr metric_data'
       | _ => res = None
       end.
Proof.
  unfold try_skip. destruct (split_path (key_path ++ "_url")) as [parts last].
  cbn [fst snd]. intros H.
  apply bind_ok in H. destruct H as ([file_hash size] & w1 & Hhash & H).
  apply lift_ok in Hhash. destruct Hhash as [Hhash ->].
  apply bind_ok in H. destruct H as (found & w1 & Hfound & H).
  apply query_ok in Hfound. destruct Hfound as [Hfound ->]. cbn [fst] in *.
  exists file_hash, size, found. repeat (split; [assumption || reflexivity|]).
  destruct found as [[] [file_id|]];
    try (apply ret_ok in H; destruct H as [-> ->]; now split).
  destruct (dict_has (key_path ++ "_url") metric_data); cbn [negb] in H.
  - apply ret_ok in H. destruct H as [-> ->]. split; [reflexivity|].
    now exists metric_data.
  - apply bind_ok in H. destruct H as (md' & w2 & Hset & H).
    apply lift_ok in Hset. destruct Hset as [Hset ->].
    apply ret_ok in H. destruct H as [-> ->]. split; [reflexivity|].
    now exists md'.
Qed.

Lemma upload_ok article_id existing_files force_reupload key_path file_path filename
  b metric_data w b' metric_data' w' :
  upload article_id existing_files force_reupload key_path file_path filename
    b metric_data w = (inr (b', metric_data'), w') ->
  exists file_id was_uploaded r',
    upload_file_if_needed article_id file_path filename force_reupload (remote w)
    = (inr (file_id, was_uploaded), r')
    /\ w' = set_remote r'
              (log_call (CallUpload article_id file_path filename force_reupload) w)
    /\ b' = record_uploaded existing_files filename (download_url file_id) b
    /\ set_nested_dict metric_data (fst (split_path key_path))
         (snd (split_path key_path) ++ "_url") (YStr (download_url file_id))
       = inr metric_data'.
Proof.
  unfold upload. destruct (split_path key_path) as [parts last].
  cbn [fst snd]. intros H.
  apply bind_ok in H. destruct H as ([file_id was_uploaded] & w1 & Hup & H).
  apply command_ok in Hup. destruct Hup as (r' & Hup & ->). cbn [fst] in *.
  apply bind_ok in H. destruct H as (md' & w2 & Hset & H).
  apply lift_ok in Hset. destruct Hset as [Hset ->].
  apply ret_ok in H. destruct H as [H ->]. injection H as -> ->.
  exists file_id, was_uploaded, r'. repeat split; assumption.
Qed.

(** The three ways in which the body of the file loop returns when the
    run is not a dry run: the file is missing; it is skipped; it is
    uploaded (with the hash check before it unless forced). *)
Lemma process_file_ok task model article_id existing_files force_reupload
  b metric_data key_path rel w b' metric_data' w' :
  let file_path := ROOT env ++ "/" ++ rel in
  process_file env task model article_id existing_files false force_reupload
    (b, metric_data) (key_path, rel) w = (inr (b', metric_data'), w') ->
  (isfile env file_path = false
   /\ b' = b /\ metric_data' = metric_data
   /\ w' = printed (MMissingFile task (name model) file_path) w)
  \/ (isfile env file_path = true /\ force_reupload = false
      /\ try_skip article_id key_path file_path rel b metric_data w
         = (inr (Some (b', metric_data')), w'))
  \/ (isfile env file_path = true
      /\ exists w1,
           (if force_reupload then w1 = w
            else try_skip article_id key_path file_path rel b metric_data w
                 = (inr None, w1))
           /\ upload article_id existing_files force_reupload key_path file_path rel
                b metric_data w1 = (inr (b', metric_data'), w')).
Proof.
  intros file_path. unfold process_file. rewrite filename_of_rel. fold file_path.
  destruct (isfile env file_path); simpl.
  - rewrite andb_true_r.
    destruct force_reupload; simpl.
    + intros H. right. right. split; [reflexivity|]. now exists w.
    + unfold bind at 1.
      destruct (try_skip _ _ _ _ _ _ _) as [[e|[st'|]] w1] eqn:Eskip; [discriminate| |].
      * intros [= <- <-]. right. left. auto.
      * intros H. right. right. split; [reflexivity|]. now exists w1.
  - intros [= <- <- <-]. now left.
Qed.

(** How the body of the model loop returns when the run is not a dry
    run: the metadata file is missing; the entry of the task is not a
    mapping; or the files are gone through and the metadata is written. *)
Lemma process_model_ok task article_id existing_files file_type force_reupload
  b model w b' w' :
  process_model env task article_id existing_files false file_type force_reupload
    b model w = (inr b', w') ->
  (dict_get (yaml_path model) (yaml_files w) = None
   /\ b' = b /\ w' = printed (MMissingYaml (yaml_path model)) w)
  \/ exists model_data metrics entry,
       dict_get (yaml_path model) (yaml_files w) = Some model_data
       /\ yaml_get model_data "metrics" = inr metrics
       /\ yaml_get metrics task = inr entry
       /\ ((forall d, entry <> YDict d) /\ b' = b /\ w' = w
           \/ exists metric_data metric_data' w1,
                entry = YDict metric_data
                /\ for_each
                     (process_file env task model article_id existing_files false
                        force_reupload)
                     (find_file_keys file_type metric_data "") (b, metric_data) w
                   = (inr (b', metric_data'), w1)
                /\ w' = wrote_yaml (yaml_path model)
                          (with_metric_data model_data task metric_data') w1).
Proof.
  unfold process_model. intros H.
  apply bind_ok in H. destruct H as (present & w0 & Hpresent & H).
  apply ret_ok in Hpresent. destruct Hpresent as [-> ->]. unfold dict_has in H.
  destruct (dict_get (yaml_path model) (yaml_files w)) as [model_data|] eqn:Edoc;
    cbn [negb] in H.
  - right.
    apply bind_ok in H. destruct H as (doc & w0 & Hload & H).
    unfold load_yaml in Hload. rewrite Edoc in Hload. injection Hload as <- <-.
    apply bind_ok in H. destruct H as (metrics & w0 & Hm & H).
    apply lift_ok in Hm. destruct Hm as [Hm ->].
    apply bind_ok in H. destruct H as (entry & w0 & He & H).
    apply lift_ok in He. destruct He as [He ->].
    exists model_data, metrics, entry.
    split; [reflexivity|]. split; [exact Hm|]. split; [exact He|].
    destruct entry as [x|s|l|metric_data];
      try (apply ret_ok in H; destruct H as [-> ->]; left; repeat split; discriminate).
    right.
    apply bind_ok in H. destruct H as ([b1 md1] & w1 & Hloop & H).
    apply bind_ok in H. destruct H as ([] & w2 & Hdump & H).
    apply ret_ok in H. destruct H as [-> ->].
    injection Hdump as <-.
    now exists metric_data, md1, w1.
  - left. apply bind_ok in H. destruct H as ([] & w1 & Hp & H).
    apply ret_ok in H. destruct H as [-> ->]. injection Hp as <-. now repeat split.
Qed.

(** The article a task is registered with, when it exists. *)
Lemma resolve_registered task dry_run article_id (w : World R) :
  dict_get ("model_preds_" ++ task) ARTICLE_IDS = Some (Some article_id) ->
  article_exists article_id (remote w) = inr true ->
  resolve_article env task dry_run w
  = (inr article_id,
     printed (MFoundArticle task article_id) (log_call (CallArticleExists article_id) w)).
Proof.
  intros Hid Hex. unfold resolve_article, bind, query, ret. rewrite Hid. simpl.
  rewrite Hex. reflexivity.
Qed.
End EngineFacts.

(** ** A whole run, read backwards from its result *)

Section RunFacts.
Context {R : Type} {F : Figshare R} (env : Env).
#[local] Abbreviation silent := (@silent R).


Lemma silent_refl (w : World R) : silent w w.
Proof. now repeat split. Qed.

Lemma silent_trans (w1 w2 w3 : World R) : silent w1 w2 -> silent w2 w3 -> silent w1 w3.
Proof. unfold silent. intuition congruence. Qed.

Lemma print_ok m (w : World R) : print m w = (inr tt, printed m w).
Proof. reflexivity. Qed.

Lemma silent_printed m (w : World R) : silent w (printed m w).
Proof. now repeat split. Qed.

Lemma print_enumerated_ok {V} (line : nat -> string -> V -> Msg) d :
  forall idx (w : World R),
  exists w', print_enumerated line idx d w = (inr tt, w') /\ silent w w'.
Proof.
  induction d as [|[k v] d IH]; intros idx w; simpl.
  - exists w. split; [reflexivity | apply silent_refl].
  - unfold bind. rewrite print_ok.
    destruct (IH (S idx) (printed (line idx k v) w)) as (w' & Hrun & Hs).
    exists w'. split; [exact Hrun|].
    eapply silent_trans; [apply silent_printed | exact Hs].
Qed.

Lemma print_summary_ok b (w : World R) :
  exists w', print_summary b w = (inr tt, w') /\ silent w w'.
Proof.
  assert (Hsect : forall (hdr : Msg) (d : Dict string) (w0 : World R),
             exists w', (if nonempty d
                         then bind (print hdr) (fun _ => print_enumerated MFileLine 1 d)
                         else ret tt) w0 = (inr tt, w') /\ silent w0 w').
  { intros hdr d w0. destruct (nonempty d).
    - unfold bind. rewrite print_ok.
      destruct (print_enumerated_ok MFileLine d 1 (printed hdr w0)) as (w' & Hrun & Hs).
      exists w'. split; [exact Hrun|].
      eapply silent_trans; [apply silent_printed | exact Hs].
    - exists w0. split; [reflexivity | apply silent_refl]. }
  unfold print_summary. unfold bind at 1 2 3. rewrite !print_ok.
  set (w3 := printed _ (printed _ (printed _ w))).
  assert (H3 : silent w w3) by now repeat split.
  destruct (_ || _).
  - destruct (Hsect MNewHeader (new_files b) w3) as (w4 & H4 & S4).
    destruct (Hsect MUpdatedHeader (updated_files b) w4) as (w5 & H5 & S5).
    destruct (Hsect MSkippedHeader (skipped_files b) w5) as (w6 & H6 & S6).
    exists w6. split.
    + unfold bind at 1. rewrite H4. unfold bind at 1. rewrite H5. exact H6.
    + eauto using silent_trans.
  - exists (printed MNothingDone w3). split; [reflexivity|].
    eapply silent_trans; [exact H3 | apply silent_printed].
Qed.

(** The parts of a run that returns: the article is resolved, its files
    are listed, the models are gone through, the summary is printed. *)
Lemma update_one_ok task models dry_run file_type force_reupload (w : World R) b w' :
  update_one_modeling_task_article env task models dry_run file_type force_reupload w
  = (inr b, w') ->
  exists article_id w0 existing_files w1 w2,
    resolve_article env task dry_run w = (inr article_id, w0)
    /\ get_existing_files article_id (remote w0) = inr existing_files
    /\ remote w1 = remote w0 /\ yaml_files w1 = yaml_files w0
    /\ yaml_writes w1 = yaml_writes w0
    /\ api_calls w1 = (api_calls w0 ++ [CallGetExistingFiles article_id])%list
    /\ for_each
         (process_model env task article_id existing_files dry_run file_type
            force_reupload) models no_files w1 = (inr b, w2)
    /\ silent w2 w'.
Proof.
  unfold update_one_modeling_task_article. intros H.
  apply bind_ok in H. destruct H as (article_id & w0 & Hres & H).
  apply bind_ok in H. destruct H as ([] & wa & Hp1 & H).
  rewrite print_ok in Hp1. injection Hp1 as <-.
  apply bind_ok in H. destruct H as ([] & wb & Hp2 & H).
  apply bind_ok in H. destruct H as (existing_files & wc & Hq & H).
  apply query_ok in Hq. destruct Hq as [Hq ->].
  apply bind_ok in H. destruct H as ([] & wd & Hp3 & H).
  rewrite print_ok in Hp3. injection Hp3 as <-.
  apply bind_ok in H. destruct H as ([] & we & Hp4 & H).
  apply bind_ok in H. destruct H as (b1 & w2 & Hloop & H).
  apply bind_ok in H. destruct H as ([] & wf & Hp5 & H).
  destruct (print_summary_ok b1 w2) as (wf' & Hf & Sf).
  rewrite Hf in Hp5. injection Hp5 as <-.
  apply ret_ok in H. destruct H as [-> ->].
  assert (Sb : silent (printed (MNowUpdating
              (ARTICLE_URL_PREFIX ++ "/" ++ PyStr.of_Z article_id)) w0) wb).
  { destruct dry_run.
    - rewrite print_ok in Hp2. injection Hp2 as <-. apply silent_printed.
    - injection Hp2 as <-. apply silent_refl. }
  destruct (print_enumerated_ok
              (fun idx file_name file_data => MExistingFile idx file_name (fd_id file_data))
              existing_files 1
              (printed (MFoundExisting (length existing_files))
                 (log_call (CallGetExistingFiles article_id) wb))) as (we' & He & Se).
  rewrite He in Hp4. injection Hp4 as <-.
  destruct Sb as (Sb1 & Sb2 & Sb3 & Sb4). destruct Se as (Se1 & Se2 & Se3 & Se4).
  simpl in *.
  exists article_id, w0, existing_files, we', w2.
  split; [exact Hres|]. split; [now rewrite <- Sb1|].
  repeat split; try congruence; try assumption; apply Sf.
Qed.

(** Going through the files of a model leaves the metadata files and the
    record of writes alone. *)
Lemma process_file_yaml task model article_id existing_files force_reupload
  st item (w : World R) st' w' :
  process_file env task model article_id existing_files false force_reupload st item w
  = (inr st', w') ->
  yaml_files w' = yaml_files w /\ yaml_writes w' = yaml_writes w.
Proof.
  destruct st as [b md], item as [kp rel], st' as [b' md']. intros H.
  apply process_file_ok in H.
  destruct H as [(_ & _ & _ & ->)|[(_ & _ & H)|(_ & w1 & H1 & H)]].
  - now split.
  - apply try_skip_ok in H. destruct H as (h & sz & found & _ & _ & -> & _). now split.
  - apply upload_ok in H. destruct H as (fid & up & r' & _ & -> & _).
    destruct force_reupload.
    + subst w1. now split.
    + apply try_skip_ok in H1. destruct H1 as (h & sz & found & _ & _ & -> & _).
      now split.
Qed.

Lemma process_files_yaml task model article_id existing_files force_reupload
  items st (w : World R) st' w' :
  for_each (process_file env task model article_id existing_files false force_reupload)
    items st w = (inr st', w') ->
  yaml_files w' = yaml_files w /\ yaml_writes w' = yaml_writes w.
Proof.
  intros H.
  apply (for_each_ok_rel
           (fun s s' => yaml_files (snd s') = yaml_files (snd s)
                        /\ yaml_writes (snd s') = yaml_writes (snd s))) in H;
    [exact H | now split | intros ? ? ? [] []; split; congruence |].
  intros a x w0 a1 w1 _ Hx. simpl. eapply process_file_yaml. exact Hx.
Qed.

(** A model's turn does not touch the metadata file of another path. *)
Lemma process_model_frame task article_id existing_files file_type force_reupload
  b model (w : World R) b' w' path :
  process_model env task article_id existing_files false file_type force_reupload
    b model w = (inr b', w') ->
  yaml_path model <> path ->
  dict_get path (yaml_files w') = dict_get path (yaml_files w).
Proof.
  intros H Hne. apply process_model_ok in H.
  destruct H as [(_ & _ & ->)|(doc & metrics & entry & _ & _ & _ & H)]; [reflexivity|].
  destruct H as [(_ & _ & ->)|(md & md' & w1 & _ & Hloop & ->)]; [reflexivity|].
  apply process_files_yaml in Hloop. destruct Hloop as [Hy _].
  simpl. rewrite dict_get_set_neq by congruence. now rewrite Hy.
Qed.

Lemma process_models_frame task article_id existing_files file_type force_reupload
  models b (w : World R) b' w' path :
  for_each (process_model env task article_id existing_files false file_type
              force_reupload) models b w = (inr b', w') ->
  (forall m, In m models -> yaml_path m <> path) ->
  dict_get path (yaml_files w') = dict_get path (yaml_files w).
Proof.
  intros H Hne.
  apply (for_each_ok_rel
           (fun s s' => dict_get path (yaml_files (snd s'))
                        = dict_get path (yaml_files (snd s)))) in H;
    [exact H | reflexivity | intros ? ? ? ? ?; congruence |].
  intros a x w0 a1 w1 Hin Hx. simpl. eapply process_model_frame; eauto.
Qed.

(** The first model of a list that has a given metadata path. *)
Lemma first_with_path (models : list Model) (m : Model) :
  In m models ->
  exists l1 m' l2,
    models = (l1 ++ m' :: l2)%list
    /\ yaml_path m' = yaml_path m
    /\ forall x, In x l1 -> yaml_path x <> yaml_path m.
Proof.
  induction models as [|x models IH]; intros Hin; [contradiction|].
  destruct (string_dec (yaml_path x) (yaml_path m)) as [E|Hne].
  - exists [], x, models. repeat split; [exact E | contradiction].
  - destruct Hin as [->|Hin]; [contradiction|].
    destruct (IH Hin) as (l1 & m' & l2 & -> & E & Hl1).
    exists (x :: l1), m', l2. repeat split; [exact E|].
    intros y [<-|Hy]; [exact Hne | now apply Hl1].
Qed.
End RunFacts.

(** ** Key-paths and the places they name *)

Section PathFacts.
Import PyStr PyStrFacts.


Lemma append_inj_r (x y a : string) : x ++ a = y ++ a -> x = y.
Proof.
  intros H. apply chars_inj. apply (f_equal chars) in H.
  rewrite !chars_app in H. now apply app_inv_tail in H.
Qed.


Lemma key_ok_spec k : key_ok k = true <-> k <> "" /\ dot_free k = true.
Proof.
  unfold key_ok, dot_free. rewrite andb_true_iff, negb_true_iff.
  destruct (String.eqb_spec k ""); intuition congruence.
Qed.

Lemma dot_free_app a b : dot_free (a ++ b) = dot_free a && dot_free b.
Proof. unfold dot_free. now rewrite chars_app, forallb_app. Qed.

Lemma split_nonempty sep s : split sep s <> [].
Proof.
  destruct s as [|c s]; simpl; [discriminate|].
  destruct (Ascii.eqb c sep); [discriminate|]. destruct (split sep s); discriminate.
Qed.

Lemma split_dot_free k : dot_free k = true -> split dot k = [k].
Proof.
  unfold dot_free. induction k as [|c k IH]; simpl; [reflexivity|].
  rewrite andb_true_iff, negb_true_iff. intros [Hc Hk].
  rewrite Hc, IH by exact Hk. reflexivity.
Qed.

(** Splitting at dots distributes over a dot. *)
Lemma split_app_dot a b : split dot (a ++ "." ++ b) = (split dot a ++ split dot b)%list.
Proof.
  change ("." ++ b) with (String dot b).
  induction a as [|c a IH].
  - reflexivity.
  - cbn [append split]. rewrite IH. destruct (Ascii.eqb c dot); [reflexivity|].
    pose proof (split_nonempty dot a) as Hne.
    destruct (split dot a) as [|seg segs]; [contradiction | reflexivity].
Qed.

(** Appending a suffix without a dot extends the last segment. *)
Lemma split_app_dot_free s t :
  dot_free t = true ->
  split dot (s ++ t)
  = (removelast (split dot s) ++ [(List.last (split dot s) "" ++ t)%string])%list.
Proof.
  intros Ht. induction s as [|c s IH]; simpl.
  - now rewrite split_dot_free.
  - rewrite IH. pose proof (split_nonempty dot s) as Hne.
    destruct (Ascii.eqb c dot).
    + destruct (split dot s) as [|seg segs]; [contradiction | reflexivity].
    + destruct (split dot s) as [|seg [|seg' segs]]; [contradiction | reflexivity |].
      reflexivity.
Qed.

Lemma split_path_url key_path :
  split_path (key_path ++ "_url")
  = (fst (split_path key_path), snd (split_path key_path) ++ "_url").
Proof.
  unfold split_path. rewrite split_app_dot_free by reflexivity. simpl.
  rewrite removelast_last, last_last. reflexivity.
Qed.

Lemma join_split s : join "." (split dot s) = s.
Proof.
  induction s as [|c s IH]; simpl; [reflexivity|].
  pose proof (split_nonempty dot s) as Hne.
  destruct (Ascii.eqb_spec c dot) as [->|Hc].
  - destruct (split dot s) as [|seg segs]; [contradiction|].
    change (join "." ("" :: seg :: segs)) with ("." ++ join "." (seg :: segs)).
    now rewrite IH.
  - destruct (split dot s) as [|seg [|seg' segs]]; [contradiction | |].
    + simpl in *. now rewrite IH.
    + change (join "." (String c seg :: seg' :: segs))
        with (String c (seg ++ "." ++ join "." (seg' :: segs))).
      change (join "." (seg :: seg' :: segs))
        with (seg ++ "." ++ join "." (seg' :: segs)) in IH.
      now rewrite IH.
Qed.

Lemma split_inj a b : split dot a = split dot b -> a = b.
Proof. intros H. rewrite <- (join_split a), <- (join_split b). now rewrite H. Qed.

Lemma split_path_eq s :
  split dot s = (fst (split_path s) ++ [snd (split_path s)])%list.
Proof.
  unfold split_path. simpl. apply app_removelast_last. apply split_nonempty.
Qed.

(** Different key-paths have different locator slots. *)
Lemma slot_path_inj a b : slot_path a = slot_path b -> a = b.
Proof.
  unfold slot_path. intros H. apply app_inj_tail in H. destruct H as [Hp Hl].
  apply append_inj_r in Hl. apply split_inj. rewrite !split_path_eq. congruence.
Qed.


Lemma split_full_key prefix key :
  key_ok key = true ->
  split dot (full_key_of prefix key) = (prefix_segments prefix ++ [key])%list.
Proof.
  intros Hk. apply key_ok_spec in Hk. destruct Hk as [_ Hk].
  destruct prefix as [|c prefix]; simpl prefix_segments.
  - simpl. now apply split_dot_free.
  - unfold full_key_of. rewrite split_app_dot. now rewrite (split_dot_free key).
Qed.

Lemma prefix_segments_full_key prefix key :
  key_ok key = true ->
  prefix_segments (full_key_of prefix key) = (prefix_segments prefix ++ [key])%list.
Proof.
  intros Hk. rewrite <- split_full_key by exact Hk.
  apply key_ok_spec in Hk. destruct Hk as [Hne _].
  unfold prefix_segments at 1.
  destruct (full_key_of prefix key) eqn:E; [|reflexivity].
  destruct prefix; simpl in E; [contradiction | discriminate].
Qed.
End PathFacts.

Section TreeFacts.
Import PyStr PyStrFacts.

Lemma nodupb_spec l : nodupb l = true <-> NoDup l.
Proof.
  induction l as [|x l IH]; simpl.
  - split; [constructor | reflexivity].
  - rewrite andb_true_iff, negb_true_iff, IH. split.
    + intros [Hx Hl]. constructor; [|exact Hl]. intros Hin.
      assert (existsb (String.eqb x) l = true); [|congruence].
      apply existsb_exists. exists x. split; [exact Hin | apply String.eqb_refl].
    + intros H. inversion H as [|? ? Hx Hl]; subst. split; [|exact Hl].
      destruct (existsb (String.eqb x) l) eqn:E; [|reflexivity].
      apply existsb_exists in E. destruct E as (y & Hy & Exy).
      apply String.eqb_eq in Exy. subst. contradiction.
Qed.

Lemma well_keyed_dict d :
  well_keyed (YDict d) = true
  <-> NoDup (keys d)
      /\ forall k v, In (k, v) d -> key_ok k = true /\ well_keyed v = true.
Proof.
  simpl. rewrite andb_true_iff, nodupb_spec.
  apply and_iff_compat_l.
  induction d as [|[k v] d IH]; simpl.
  - split; [intros _ ? ? [] | reflexivity].
  - rewrite !andb_true_iff, IH. split.
    + intros [[Hk Hv] Hd] k' v' [[= <- <-]|Hin]; [now split | now apply Hd].
    + intros H. split; [apply H; now left|]. intros k' v' Hin. apply H. now right.
Qed.

Lemma get_nested_app t p q :
  get_nested t (p ++ q)
  = match get_nested t p with Some t' => get_nested t' q | None => None end.
Proof.
  revert t. induction p as [|part p IH]; intros t; simpl; [reflexivity|].
  destruct t as [x|s|l|items]; try reflexivity.
  destruct (dict_get part items); [apply IH | reflexivity].
Qed.

Lemma get_nested_leaf t path :
  (forall d, t <> YDict d) -> path <> [] -> get_nested t path = None.
Proof.
  intros Ht Hp. destruct path as [|part path]; [contradiction|].
  destruct t; try reflexivity. now destruct (Ht d).
Qed.

(** After an assignment the slot holds the value. *)
Lemma set_get_same t parts last v t' :
  set_nested t parts last v = inr t' -> get_nested t' (parts ++ [last]) = Some v.
Proof.
  revert t t'. induction parts as [|part parts IH]; intros t t'; simpl;
    destruct t as [x|s|l|items]; try discriminate.
  - intros [= <-]. simpl. now rewrite dict_get_set_eq.
  - destruct (dict_get part items) as [child|] eqn:E; [|discriminate].
    destruct (set_nested child parts last v) as [e|child'] eqn:Ec; [discriminate|].
    intros [= <-]. rewrite dict_get_set_eq. now apply (IH child).
Qed.

(** An assignment does not change the leaf read along a path that does not
    go through the slot. *)
Lemma set_get_other t parts last v t' path u :
  set_nested t parts last v = inr t' ->
  get_nested t path = Some u ->
  (forall d, u <> YDict d) ->
  (forall rest, path <> ((parts ++ [last]) ++ rest)%list) ->
  get_nested t' path = Some u.
Proof.
  revert t t' path. induction parts as [|part parts IH]; intros t t' path; simpl;
    destruct t as [x|s|l|items]; try discriminate.
  - intros [= <-] Hget Hu Hpath. destruct path as [|p path].
    + injection Hget as <-. now destruct (Hu items).
    + simpl in *. destruct (String.eqb_spec p last) as [->|Hne].
      * now destruct (Hpath path).
      * now rewrite dict_get_set_neq.
  - destruct (dict_get part items) as [child|] eqn:E; [|discriminate].
    destruct (set_nested child parts last v) as [e|child'] eqn:Ec; [discriminate|].
    intros [= <-] Hget Hu Hpath. destruct path as [|p path].
    + injection Hget as <-. now destruct (Hu items).
    + simpl in *. destruct (String.eqb_spec p part) as [->|Hne].
      * rewrite dict_get_set_eq. rewrite E in Hget.
        eapply IH; [exact Ec | exact Hget | exact Hu |].
        intros rest ->. now apply (Hpath rest).
      * now rewrite dict_get_set_neq.
Qed.

(** Assigning to a slot the value it holds changes nothing. *)
Lemma set_noop t parts last v :
  get_nested t (parts ++ [last]) = Some v -> set_nested t parts last v = inr t.
Proof.
  revert t. induction parts as [|part parts IH]; intros t; simpl;
    destruct t as [x|s|l|items]; try discriminate.
  - destruct (dict_get last items) as [v'|] eqn:E; [|discriminate].
    intros [= ->]. now rewrite dict_set_same.
  - destruct (dict_get part items) as [child|] eqn:E; [|discriminate].
    intros H. rewrite (IH _ H). now rewrite dict_set_same.
Qed.

Lemma set_nested_dict_ok metric_data parts last v metric_data' :
  set_nested_dict metric_data parts last v = inr metric_data' <->
  set_nested (YDict metric_data) parts last v = inr (YDict metric_data').
Proof.
  unfold set_nested_dict.
  destruct (set_nested (YDict metric_data) parts last v) as [e|t] eqn:E.
  - split; discriminate.
  - assert (exists d, t = YDict d) as [d ->].
    { destruct parts; simpl in E.
      - injection E as <-. eauto.
      - destruct (dict_get s metric_data); [|discriminate].
        destruct (set_nested y parts last v); [discriminate|].
        injection E as <-. eauto. }
    split; intros [= ->]; reflexivity.
Qed.

(** The keys of the mapping an assignment starts from stay. *)
Lemma set_nested_dict_keys metric_data parts last v metric_data' k :
  set_nested_dict metric_data parts last v = inr metric_data' ->
  dict_has k metric_data = true -> dict_has k metric_data' = true.
Proof.
  rewrite set_nested_dict_ok. intros H Hk.
  apply dict_has_In. apply dict_has_In in Hk.
  destruct parts as [|part parts]; simpl in H.
  - injection H as <-. now apply keys_set_incl.
  - destruct (dict_get part metric_data); [|discriminate].
    destruct (set_nested y parts last v); [discriminate|].
    injection H as <-. now apply keys_set_incl.
Qed.


(** Plain keys stay plain under an assignment of a string to a plain key. *)
Lemma set_well_keyed t parts last s t' :
  well_keyed t = true -> key_ok last = true ->
  set_nested t parts last (YStr s) = inr t' ->
  well_keyed t' = true.
Proof.
  revert t t'. induction parts as [|part parts IH]; intros t t' Hwk Hlast; simpl;
    destruct t as [x|s0|l|items]; try discriminate.
  - intros [= <-]. apply well_keyed_dict in Hwk. destruct Hwk as [Hnd Hall].
    apply well_keyed_dict. split; [now apply NoDup_dict_set|].
    intros k v Hin. apply In_dict_set in Hin.
    destruct Hin as [[= -> ->]|Hin]; [now split | now apply Hall].
  - destruct (dict_get part items) as [child|] eqn:E; [|discriminate].
    destruct (set_nested child parts last (YStr s)) as [e|child'] eqn:Ec; [discriminate|].
    intros [= <-]. apply well_keyed_dict in Hwk. destruct Hwk as [Hnd Hall].
    apply dict_get_In in E. destruct (Hall _ _ E) as [Hpart Hchild].
    apply well_keyed_dict. split; [now apply NoDup_dict_set|].
    intros k v Hin. apply In_dict_set in Hin.
    destruct Hin as [[= -> ->]|Hin]; [|now apply Hall].
    split; [exact Hpart|]. eapply IH; eassumption.
Qed.
End TreeFacts.

Section LeavesFacts.
Import PyStr PyStrFacts.
#[local] Arguments find_file_keys_val : simpl never.
#[local] Arguments find_file_keys : simpl never.


Lemma file_leaves_unfold file_type data prefix :
  file_leaves file_type data prefix = flat_map (leaf_piece file_type prefix) data.
Proof.
  unfold file_leaves. simpl.
  induction data as [|[key v] data IH]; simpl; [reflexivity|].
  rewrite IH. f_equal. unfold leaf_piece; simpl. now destruct v.
Qed.

#[local] Arguments file_leaves_val : simpl never.
#[local] Arguments file_leaves : simpl never.

Lemma dict_get_unique {V} k (v : V) d :
  NoDup (keys d) -> In (k, v) d -> dict_get k d = Some v.
Proof. apply In_dict_get. Qed.

(** In a tree with plain keys every file reference is read along the
    segments of its key-path. *)
Lemma leaves_paths file_type (data : Yaml) :
  well_keyed data = true ->
  forall prefix key_path rel,
    In (key_path, rel) (file_leaves_val file_type data prefix) ->
    exists path,
      path <> []
      /\ get_nested data path = Some (YStr rel)
      /\ split dot key_path = (prefix_segments prefix ++ path)%list.
Proof.
  induction data as [x|s|l|d IH] using Yaml_dict_ind; intros Hwk prefix kp rel Hin;
    try (now destruct Hin).
  apply well_keyed_dict in Hwk. destruct Hwk as [Hnd Hall].
  change (file_leaves_val file_type (YDict d) prefix)
    with (file_leaves file_type d prefix) in Hin.
  rewrite file_leaves_unfold in Hin. apply in_flat_map in Hin.
  destruct Hin as ([key v] & Hitem & Hpiece).
  destruct (Hall _ _ Hitem) as [Hkey Hv].
  rewrite Forall_forall in IH. specialize (IH _ Hitem). simpl in IH.
  unfold leaf_piece in Hpiece. simpl in Hpiece.
  destruct v as [x|s|l|sub]; try (now destruct Hpiece).
  - destruct (_ && _); [|now destruct Hpiece].
    destruct Hpiece as [[= <- <-]|[]].
    exists [key]. split; [discriminate|]. split.
    + simpl. now rewrite (dict_get_unique _ _ _ Hnd Hitem).
    + now apply split_full_key.
  - destruct (IH Hv _ _ _ Hpiece) as (path & Hne & Hget & Hsplit).
    exists (key :: path). split; [discriminate|]. split.
    + simpl. now rewrite (dict_get_unique _ _ _ Hnd Hitem).
    + rewrite Hsplit, prefix_segments_full_key by exact Hkey.
      now rewrite <- app_assoc.
Qed.

(** The first segment after the prefix is the key of the item a reference
    comes from. *)
Lemma piece_head file_type prefix key v key_path rel :
  key_ok key = true -> well_keyed v = true ->
  In (key_path, rel) (leaf_piece file_type prefix (key, v)) ->
  exists rest, split dot key_path = (prefix_segments prefix ++ key :: rest)%list.
Proof.
  intros Hkey Hv Hpiece. unfold leaf_piece in Hpiece. simpl in Hpiece.
  destruct v as [x|s|l|sub]; try (now destruct Hpiece).
  - destruct (_ && _); [|now destruct Hpiece].
    destruct Hpiece as [[= <- <-]|[]]. exists []. now apply split_full_key.
  - apply (leaves_paths file_type (YDict sub) Hv) in Hpiece.
    destruct Hpiece as (path & _ & _ & Hsplit). exists path.
    rewrite Hsplit, prefix_segments_full_key by exact Hkey. now rewrite <- app_assoc.
Qed.

(** In a tree with plain keys no two file references have the same
    key-path. *)
Lemma NoDup_file_leaves file_type (data : Yaml) :
  well_keyed data = true ->
  forall prefix, NoDup (keys (file_leaves_val file_type data prefix)).
Proof.
  induction data as [x|s|l|d IH] using Yaml_dict_ind; intros Hwk prefix;
    try constructor.
  apply well_keyed_dict in Hwk. destruct Hwk as [Hnd Hall].
  change (file_leaves_val file_type (YDict d) prefix)
    with (file_leaves file_type d prefix).
  rewrite file_leaves_unfold.
  induction d as [|[key v] d IHd]; simpl; [constructor|].
  inversion IH as [|? ? IHv IHrest]; subst.
  inversion Hnd as [|? ? Hfresh Hnd']; subst.
  destruct (Hall key v (or_introl eq_refl)) as [Hkey Hv].
  unfold keys. rewrite map_app. apply NoDup_app.
  - unfold leaf_piece; simpl. destruct v as [x|s|l|sub]; try constructor.
    + destruct (_ && _); repeat constructor. intros [].
    + apply (IHv Hv).
  - apply IHd; [exact IHrest | exact Hnd' |]. intros k' v' Hin. apply Hall. now right.
  - intros kp Hhere Hthere.
    apply in_map_iff in Hhere. destruct Hhere as ([kp1 rel1] & <- & Hhere).
    apply in_map_iff in Hthere. destruct Hthere as ([kp2 rel2] & E & Hthere).
    simpl in E. subst kp2.
    apply in_flat_map in Hthere. destruct Hthere as ([key' v'] & Hitem & Hpiece).
    destruct (Hall key' v' (or_intror Hitem)) as [Hkey' Hv'].
    apply piece_head in Hhere; [|assumption..]. destruct Hhere as (rest & Hs).
    apply piece_head in Hpiece; [|assumption..]. destruct Hpiece as (rest' & Hs').
    rewrite Hs in Hs'. apply app_inv_head in Hs'. injection Hs' as -> _.
    apply Hfresh. apply (in_map fst) in Hitem. exact Hitem.
Qed.

Lemma dict_set_fresh {V} k (v : V) d :
  ~ In k (keys d) -> dict_set k v d = (d ++ [(k, v)])%list.
Proof.
  induction d as [|[k' v'] d IH]; simpl; [reflexivity|].
  intros H. destruct (String.eqb_spec k k') as [->|Hne]; [tauto|].
  rewrite IH; [reflexivity | tauto].
Qed.

Lemma dict_update_fresh {V} (d o : Dict V) :
  NoDup (keys (d ++ o)%list) -> dict_update d o = (d ++ o)%list.
Proof.
  unfold dict_update. revert d. induction o as [|[k v] o IH]; intros d Hnd; simpl.
  - now rewrite app_nil_r.
  - assert (Hfresh : ~ In k (keys d)).
    { unfold keys in *. rewrite map_app in Hnd. simpl in Hnd.
      apply NoDup_remove_2 in Hnd. intros H. apply Hnd. apply in_or_app. now left. }
    rewrite dict_set_fresh by exact Hfresh.
    rewrite IH; rewrite <- app_assoc; [reflexivity | exact Hnd].
Qed.

(** On a tree with plain keys the walk returns the file references one by
    one. *)
Lemma walk_is_leaves file_type (data : Yaml) :
  well_keyed data = true ->
  forall prefix,
    find_file_keys_val file_type data prefix = file_leaves_val file_type data prefix.
Proof.
  induction data as [x|s|l|d IH] using Yaml_dict_ind; intros Hwk prefix;
    try reflexivity.
  pose proof (NoDup_file_leaves file_type (YDict d) Hwk prefix) as Hnd.
  apply well_keyed_dict in Hwk. destruct Hwk as [_ Hall].
  change (find_file_keys file_type d prefix = file_leaves file_type d prefix).
  change (NoDup (keys (file_leaves file_type d prefix))) in Hnd.
  rewrite find_file_keys_unfold, file_leaves_unfold in *.
  unfold find_file_keys_loop.
  change (flat_map (leaf_piece file_type prefix) d)
    with ([] ++ flat_map (leaf_piece file_type prefix) d)%list in Hnd |- *.
  revert Hnd. generalize (@nil (string * string)) as acc.
  induction d as [|[key v] d IHd]; intros acc Hnd; simpl.
  - now rewrite app_nil_r.
  - inversion IH as [|? ? IHv IHrest]; subst.
    destruct (Hall key v (or_introl eq_refl)) as [_ Hv].
    assert (Hstep : find_file_keys_step file_type prefix acc (key, v)
                    = (acc ++ leaf_piece file_type prefix (key, v))%list).
    { simpl in Hnd. rewrite app_assoc in Hnd.
      unfold keys in Hnd. rewrite map_app in Hnd. apply NoDup_app_remove_r in Hnd.
      unfold find_file_keys_step, leaf_piece in *. simpl in *.
      destruct v as [x|s|l|sub]; try (now rewrite app_nil_r).
      - destruct (_ && _); [|now rewrite app_nil_r].
        apply dict_set_fresh. rewrite map_app in Hnd. simpl in Hnd.
        apply NoDup_remove_2 in Hnd. now rewrite app_nil_r in Hnd.
      - change (find_file_keys file_type sub) with (find_file_keys_val file_type (YDict sub)).
        rewrite (IHv Hv). apply dict_update_fresh. unfold keys. exact Hnd. }
    rewrite Hstep. rewrite IHd.
    + now rewrite <- app_assoc.
    + exact IHrest.
    + intros k' v' Hin. apply Hall. now right.
    + simpl in Hnd. now rewrite <- app_assoc.
Qed.

Lemma find_file_keys_leaves file_type metric_data prefix :
  well_keyed (YDict metric_data) = true ->
  find_file_keys file_type metric_data prefix = file_leaves file_type metric_data prefix.
Proof. intros H. now apply (walk_is_leaves file_type (YDict metric_data)). Qed.
End LeavesFacts.

Section SlotFacts.
Import PyStr PyStrFacts.
#[local] Arguments file_leaves_val : simpl never.
#[local] Arguments file_leaves : simpl never.

Lemma url_key_is_no_file (s : string) : endswith (s ++ "_url") "_file" = false.
Proof. unfold endswith. rewrite chars_app, rev_app_distr. reflexivity. Qed.

Lemma split_segments_dot_free s seg :
  In seg (split dot s) -> dot_free seg = true.
Proof.
  revert seg. induction s as [|c s IH]; intros seg; simpl.
  - intros [<-|[]]. reflexivity.
  - destruct (Ascii.eqb c dot) eqn:Ec.
    + intros [<-|H]; [reflexivity | now apply IH].
    + pose proof (split_nonempty dot s) as Hne.
      destruct (split dot s) as [|seg0 segs]; [contradiction|].
      intros [<-|H].
      * unfold dot_free. simpl. rewrite Ec. simpl. apply (IH seg0). now left.
      * apply IH. now right.
Qed.

(** The key a locator is written under is a plain key. *)
Lemma slot_key_ok key_path : key_ok (snd (split_path key_path) ++ "_url") = true.
Proof.
  apply key_ok_spec. split.
  - destruct (snd (split_path key_path)); discriminate.
  - rewrite dot_free_app, andb_true_r. apply (split_segments_dot_free key_path).
    unfold split_path. simpl. pose proof (split_nonempty dot key_path) as Hne.
    destruct (split dot key_path) as [|seg segs]; [contradiction|].
    apply (@exists_last _ (seg :: segs)) in Hne. destruct Hne as (l' & a & E).
    rewrite E, last_last. apply in_or_app. right. now left.
Qed.

(** Writing a locator adds no file reference. *)
Lemma leaves_after_set file_type parts :
  forall t t' last u prefix x,
    set_nested t parts last (YStr u) = inr t' ->
    endswith last "_file" = false ->
    In x (file_leaves_val file_type t' prefix) ->
    In x (file_leaves_val file_type t prefix).
Proof.
  induction parts as [|part parts IH]; intros t t' last u prefix x; simpl;
    destruct t as [lexeme|s|l|d]; try discriminate.
  - intros [= <-] Hlast.
    change (In x (file_leaves file_type (dict_set last (YStr u) d) prefix)
            -> In x (file_leaves file_type d prefix)).
    rewrite !file_leaves_unfold, !in_flat_map.
    intros ([k v] & Hitem & Hpiece). apply In_dict_set in Hitem.
    destruct Hitem as [[= -> ->]|Hitem].
    + unfold leaf_piece in Hpiece. simpl in Hpiece. rewrite Hlast in Hpiece.
      now destruct Hpiece.
    + now exists (k, v).
  - destruct (dict_get part d) as [child|] eqn:E; [|discriminate].
    destruct (set_nested child parts last (YStr u)) as [e|child'] eqn:Ec; [discriminate|].
    intros [= <-] Hlast.
    change (In x (file_leaves file_type (dict_set part child' d) prefix)
            -> In x (file_leaves file_type d prefix)).
    rewrite !file_leaves_unfold, !in_flat_map.
    intros ([k v] & Hitem & Hpiece). apply In_dict_set in Hitem.
    destruct Hitem as [[= -> ->]|Hitem]; [|now exists (k, v)].
    exists (part, child). split; [now apply dict_get_In|].
    unfold leaf_piece in *. simpl in *.
    assert (Hchild : exists c c', child = YDict c /\ child' = YDict c').
    { destruct child as [lexeme|s|l|c]; try (destruct parts; discriminate).
      destruct parts; simpl in Ec.
      - injection Ec as <-. eauto.
      - destruct (dict_get s c); [|discriminate].
        destruct (set_nested y parts last (YStr u)); [discriminate|].
        injection Ec as <-. eauto. }
    destruct Hchild as (c & c' & -> & ->).
    eapply (IH (YDict c) (YDict c')); eassumption.
Qed.
End SlotFacts.

(** ** The two scenarios of the spec *)

Section SpecScenarios.
Import Reference Scenario.

(** The remote has no file [a/b.csv]: the file is uploaded, reported as
    newly added, and the tree gains the locator next to the reference. *)
Example scenario_created :
  let result := run "discovery" [m1] false "all" false remote_empty
                  [("models/m1.yml", doc_pred)] in
  fst result
  = inr {| skipped_files := []; updated_files := [];
           new_files := [("a/b.csv", "https://figshare.com/files/100")] |}
  /\ yaml_files (snd result)
     = [("models/m1.yml",
         doc_with "discovery"
           [ ("energy_pred_file", YStr "a/b.csv");
             ("energy_pred_file_url", YStr "https://figshare.com/files/100") ])].
Proof. vm_compute. split; reflexivity. Qed.

(** The remote has [a/b.csv] with the same hash: the file is skipped and
    the tree gains the locator, which was absent. *)
Example scenario_skipped :
  let result := run "discovery" [m1] false "all" false remote_with_b
                  [("models/m1.yml", doc_pred)] in
  fst result
  = inr {| skipped_files := [("a/b.csv", "https://figshare.com/files/41")];
           updated_files := []; new_files := [] |}
  /\ remote (snd result) = remote_with_b
  /\ yaml_files (snd result)
     = [("models/m1.yml",
         doc_with "discovery"
           [ ("energy_pred_file", YStr "a/b.csv");
             ("energy_pred_file_url", YStr "https://figshare.com/files/41") ])].
Proof. vm_compute. repeat split; reflexivity. Qed.
End SpecScenarios.

(** ** Filtering by file type *)

Section FilterCorrectness.
Import PyStr PyStrFacts.
#[local] Arguments find_file_keys : simpl never.

Lemma pred_lookup tree prefix k :
  dict_get k (find_file_keys "pred" tree prefix)
  = if endswith k "pred_file" then dict_get k (find_file_keys "all" tree prefix) else None.
Proof. exact (restricts_pred_all_val (YDict tree) prefix k). Qed.

Lemma pred_strict_iff tree prefix :
  pairs_strict_subset (find_file_keys "pred" tree prefix) (find_file_keys "all" tree prefix)
  <-> exists k v, In (k, v) (find_file_keys "all" tree prefix)
                  /\ endswith k "pred_file" = false.
Proof.
  split.
  - intros [_ [k [v [Hall Hpred]]]]. exists k, v. split; [exact Hall|].
    destruct (endswith k "pred_file") eqn:E; [|reflexivity].
    exfalso. apply Hpred. apply dict_get_In.
    rewrite pred_lookup, E. now apply In_dict_get; [apply NoDup_find_file_keys|].
  - intros [k [v [Hall E]]]. split; [apply pred_subset_all|].
    exists k, v. split; [exact Hall|]. intros Hpred.
    apply In_dict_get in Hpred; [|apply NoDup_find_file_keys].
    rewrite pred_lookup, E in Hpred. discriminate.
Qed.

(** C7, as amended: for every metadata tree the key-path/value pairs
    returned with type-filter "pred" are a subset of those returned with
    "all"; the subset is strict exactly when "all" returns a key-path that
    does not end in "pred_file"; and for every filter value the key-path
    of a leaf whose key does not end in "_file" is not in the result. *)
Theorem find_file_keys_filter_correct (tree : Dict Yaml) :
  pairs_subset (find_file_keys "pred" tree "") (find_file_keys "all" tree "")
  /\ (pairs_strict_subset (find_file_keys "pred" tree "") (find_file_keys "all" tree "")
      <-> exists k v, In (k, v) (find_file_keys "all" tree "")
                      /\ endswith k "pred_file" = false)
  /\ forall file_type key_path key v,
       leaf_at tree "" key_path key v ->
       endswith key "_file" = false ->
       ~ In key_path (keys (find_file_keys file_type tree "")).
Proof.
  split; [apply pred_subset_all|]. split; [apply pred_strict_iff|].
  intros file_type key_path key v Hleaf Hkey Hin.
  apply (find_file_keys_val_suffix file_type (YDict tree)) in Hin.
  rewrite (leaf_at_suffix _ _ _ _ _ "_file" no_dot_in_file Hleaf) in Hin.
  congruence.
Qed.

Lemma find_file_keys_filter_correct_witness :
  In ("energy_pred_file", "a/b.csv") (find_file_keys "all" Scenario.tree_energy "")
  /\ pairs_strict_subset (find_file_keys "pred" Scenario.tree_energy "")
                         (find_file_keys "all" Scenario.tree_energy "")
  /\ ~ In "mae" (keys (find_file_keys "analysis" Scenario.tree_energy "")).
Proof.
  destruct (find_file_keys_filter_correct Scenario.tree_energy) as [Hsub [Hstrict Hleaf]].
  split; [|split].
  - apply Hsub. vm_compute. left. reflexivity.
  - apply Hstrict. exists "energy_analysis_file", "a/c.csv".
    split; [vm_compute; right; left; reflexivity | reflexivity].
  - apply (Hleaf "analysis" "mae" "mae" (YScalar "0.1")); [|reflexivity].
    apply (leaf_here Scenario.tree_energy "" "mae" (YScalar "0.1")).
    + right. right. left. reflexivity.
    + discriminate.
Defined.

(** C7 as stated fails: on a tree whose only file reference is a
    prediction file both filters return the same pairs. *)
Lemma find_file_keys_pred_not_strict :
  ~ pairs_strict_subset (find_file_keys "pred" Scenario.tree_pred_only "")
                        (find_file_keys "all" Scenario.tree_pred_only "").
Proof.
  intros [_ [k [v [Hall Hpred]]]]. apply Hpred. exact Hall.
Qed.
End FilterCorrectness.

(** ** Dry runs *)

Ltac preserves_step Hrefl Htrans :=
  match goal with
  | |- preserves _ (bind _ _) => apply (preserves_bind _ Htrans)
  | |- preserves _ (ret _) => apply (preserves_ret _ Hrefl)
  | |- preserves _ (raise _) => apply (preserves_raise _ Hrefl)
  | |- preserves _ (lift _) => apply (preserves_lift _ Hrefl)
  | |- preserves _ (load_yaml _) => apply (preserves_load_yaml _ Hrefl)
  | |- preserves _ (yaml_isfile _) => apply (preserves_yaml_isfile _ Hrefl)
  | |- preserves _ (for_each _ _ _) => apply (preserves_for_each _ Hrefl Htrans)
  | |- preserves _ (if ?b then _ else _) => destruct b
  | |- preserves _ (match ?x with _ => _ end) => destruct x
  | |- forall _, _ => intro
  end.

Section DryRun.
Context {R : Type} {F : Figshare R} (env : Env).
#[local] Abbreviation quiet := (@quiet R).


Lemma quiet_refl (w : World R) : quiet w w.
Proof.
  repeat split. exists []. now rewrite app_nil_r.
Qed.

Lemma quiet_trans (w1 w2 w3 : World R) : quiet w1 w2 -> quiet w2 w3 -> quiet w1 w3.
Proof.
  intros (Hr & Hy & Hw & c & Hc & Hq) (Hr' & Hy' & Hw' & c' & Hc' & Hq').
  repeat split; try congruence.
  exists (c ++ c')%list. split.
  - now rewrite Hc', Hc, app_assoc.
  - now rewrite forallb_app, Hq, Hq'.
Qed.

Lemma quiet_print m : preserves quiet (print m).
Proof. intros w. simpl. repeat split. exists []. now rewrite app_nil_r. Qed.

Lemma quiet_query {A} c (q : R -> PyErr + A) :
  mutating c = false -> preserves quiet (query c q).
Proof.
  intros Hc w. simpl. repeat split. exists [c]. split; [reflexivity|].
  simpl. now rewrite Hc.
Qed.

Lemma quiet_print_enumerated {V} (line : nat -> string -> V -> Msg) d :
  forall idx, preserves quiet (print_enumerated line idx d).
Proof.
  induction d as [|[k v] d IH]; intros idx; simpl.
  - apply (preserves_ret _ quiet_refl).
  - apply (preserves_bind _ quiet_trans); [apply quiet_print | intros _; apply IH].
Qed.

Ltac quiet_tac :=
  repeat first
    [ preserves_step quiet_refl quiet_trans
    | apply quiet_print
    | apply quiet_print_enumerated
    | apply quiet_query; reflexivity ].

Lemma quiet_print_summary b : preserves quiet (print_summary b).
Proof. unfold print_summary. quiet_tac. Qed.


(** In a dry run the loop body hands back the dictionaries it was given. *)
Lemma process_file_dry_run task model article_id existing_files force_reupload st item w :
  fst (process_file env task model article_id existing_files true force_reupload
         st item w) = inr st.
Proof.
  unfold process_file. destruct st as [b metric_data], item as [key_path rel].
  destruct (negb (isfile env _)); [reflexivity|].
  rewrite andb_false_r. reflexivity.
Qed.

Lemma quiet_process_file task model article_id existing_files force_reupload st item :
  preserves quiet
    (process_file env task model article_id existing_files true force_reupload st item).
Proof.
  unfold process_file. destruct st as [b metric_data], item as [key_path rel].
  rewrite andb_false_r. simpl negb. cbv iota. quiet_tac.
Qed.

Lemma quiet_process_model task article_id existing_files file_type force_reupload b model :
  preserves quiet
    (process_model env task article_id existing_files true file_type force_reupload
       b model).
Proof.
  unfold process_model. simpl negb. cbv iota.
  quiet_tac; apply quiet_process_file.
Qed.

Lemma quiet_resolve_article task : preserves quiet (resolve_article env task true).
Proof. unfold resolve_article. quiet_tac. Qed.

Lemma quiet_update_one task models file_type force_reupload :
  preserves quiet
    (update_one_modeling_task_article env task models true file_type force_reupload).
Proof.
  unfold update_one_modeling_task_article.
  quiet_tac; first [apply quiet_resolve_article | apply quiet_process_model
                   | apply quiet_print_summary].
Qed.

(** The loop over the tasks of a dry run, and [main] in a dry run. *)
Lemma quiet_run_tasks args parsed_args todo (w : World R) :
  Namespace.dry_run parsed_args = true ->
  quiet w (snd (run_tasks env args parsed_args todo w)).
Proof.
  intros Hdry. revert w. induction todo as [|task todo IH]; intros w; simpl.
  - apply quiet_refl.
  - rewrite Hdry.
    pose proof (quiet_update_one task (Namespace.models parsed_args)
                  (Namespace.file_type parsed_args)
                  (Namespace.force_reupload parsed_args) w) as Hq.
    destruct (update_one_modeling_task_article _ _ _ _ _ _ _) as [[e|b] w1];
      simpl in *; [exact Hq|].
    eapply quiet_trans; [exact Hq | apply IH].
Qed.

Lemma quiet_main parse_args args (w : World R) :
  Namespace.dry_run (parse_args args) = true ->
  quiet w (snd (main env parse_args args w)).
Proof.
  intros Hdry. unfold main.
  match goal with
  | |- context [run_tasks env args (parse_args args) ?todo ?w1] =>
      pose proof (quiet_run_tasks args (parse_args args) todo w1 Hdry) as Hq;
      assert (H1 : quiet w w1)
        by (repeat split; exists []; now rewrite app_nil_r);
      destruct (run_tasks env args (parse_args args) todo w1) as [[r|u] w2]
  end; simpl in *; eapply quiet_trans; eassumption.
Qed.

(** C2: a dry run of [update_one_modeling_task_article] changes nothing,
    whatever the task, the models, the file-type filter and the force
    flag: the remote service is in the state it was in and was only
    queried (no article created, no file uploaded), the metadata files
    hold what they held, none of them was opened for writing, and the
    loop body returns the outcome dictionaries and the metadata tree it
    was given. *)
Theorem dry_run_never_mutates (task : string) (models : list Model)
  (file_type : string) (force_reupload : bool) (w : World R) :
  quiet w (snd (update_one_modeling_task_article env task models true file_type
                  force_reupload w))
  /\ forall model article_id existing_files b metric_data item w0,
       fst (process_file env task model article_id existing_files true force_reupload
              (b, metric_data) item w0) = inr (b, metric_data).
Proof.
  split.
  - apply quiet_update_one.
  - intros. apply process_file_dry_run.
Qed.
End DryRun.

(** ** Where the script departs from its own comments *)

Section ModelLoop.
Context {R : Type} {F : Figshare R} (env : Env).

(** Line 201 looks the dotted [url_key] up in [metric_data] itself: when
    it is found there the tree is left alone. *)
Lemma try_skip_keeps_top_level_locator article_id key_path file_path filename b
  metric_data w res w' :
  dict_has (key_path ++ "_url") metric_data = true ->
  try_skip article_id key_path file_path filename b metric_data w = (inr (Some res), w') ->
  snd res = metric_data.
Proof.
  intros Hhas. unfold try_skip, bind, lift, query.
  destruct (get_file_hash_and_size file_path) as [e|hs]; simpl; [discriminate|].
  destruct (file_exists_with_same_hash _ _ _ _) as [e|[[] [file_id|]]]; simpl;
    try discriminate.
  rewrite Hhas. simpl. now intros [= <- _].
Qed.

(** A model whose entry for the task is not a mapping is passed over:
    nothing is printed, asked, changed or written. *)
Lemma process_model_skips_non_mapping task article_id existing_files dry_run
  file_type force_reupload b model model_data metrics entry (w : World R) :
  dict_get (yaml_path model) (yaml_files w) = Some model_data ->
  yaml_get model_data "metrics" = inr metrics ->
  yaml_get metrics task = inr entry ->
  (forall d, entry <> YDict d) ->
  process_model env task article_id existing_files dry_run file_type force_reupload
    b model w = (inr b, w).
Proof.
  intros Hdoc Hm He Hnd. unfold process_model, bind, yaml_isfile, load_yaml, dict_has.
  rewrite Hdoc. simpl. rewrite Hdoc, Hm. simpl. rewrite He. simpl.
  destruct entry; try reflexivity. now destruct (Hnd d).
Qed.

(** Outside a dry run a model whose metrics hold no file reference of the
    requested type still has its metadata file written. *)
Lemma process_model_writes_unchanged task article_id existing_files file_type
  force_reupload b model model_data metrics metric_data (w : World R) :
  dict_get (yaml_path model) (yaml_files w) = Some model_data ->
  yaml_get model_data "metrics" = inr metrics ->
  yaml_get metrics task = inr (YDict metric_data) ->
  find_file_keys file_type metric_data "" = [] ->
  process_model env task article_id existing_files false file_type force_reupload
    b model w
  = (inr b,
     {| remote := remote w;
        yaml_files := dict_set (yaml_path model)
                        (with_metric_data model_data task metric_data) (yaml_files w);
        stdout := stdout w; api_calls := api_calls w;
        yaml_writes := yaml_writes w ++ [yaml_path model] |}).
Proof.
  intros Hdoc Hm He Hnone. unfold process_model, bind, yaml_isfile, load_yaml, dict_has.
  rewrite Hdoc. simpl. rewrite Hdoc, Hm. simpl. rewrite He. simpl.
  rewrite Hnone. reflexivity.
Qed.
End ModelLoop.

Section MainLoop.
Context {R : Type} {F : Figshare R} (env : Env).

(** The entry [model_name] of the state attached to a failure is [None]
    whatever failed: [main] has no variable of that name. *)
Lemma failure_state_shape args parsed_args task e :
  failure_state (main_locals args parsed_args task e)
  = [ ("task", VStr task); ("model_name", VNone);
      ("models_to_update", VModels (Namespace.models parsed_args));
      ("tasks_to_update", VStrs (Namespace.tasks parsed_args)) ].
Proof. reflexivity. Qed.

(** A failure of [run_tasks] is the failure of one task: the tasks before
    it were completed, none after it was started, the exception is the
    one the task raised and it carries one note. *)
Lemma run_tasks_failure args parsed_args todo (w w' : World R) r :
  run_tasks env args parsed_args todo w = (inl r, w') ->
  exists done task rest w0,
    todo = (done ++ task :: rest)%list
    /\ update_one_modeling_task_article env task (Namespace.models parsed_args)
         (Namespace.dry_run parsed_args) (Namespace.file_type parsed_args)
         (Namespace.force_reupload parsed_args) w0 = (inl (exc r), w')
    /\ notes r
       = [UploadFailed [ ("task", VStr task); ("model_name", VNone);
                         ("models_to_update", VModels (Namespace.models parsed_args));
                         ("tasks_to_update", VStrs (Namespace.tasks parsed_args)) ]].
Proof.
  revert w. induction todo as [|task todo IH]; intros w; simpl; [discriminate|].
  destruct (update_one_modeling_task_article _ _ _ _ _ _ _) as [[e|b] w1] eqn:E.
  - intros [= <- <-]. exists [], task, todo, w. simpl. repeat split. exact E.
  - intros H. destruct (IH _ H) as (done & t & rest & w0 & -> & Hrun & Hnotes).
    exists (task :: done), t, rest, w0. repeat split; assumption.
Qed.
End MainLoop.

Section Defects.
Import Reference Scenario.

(** C1 (defect of the code): the match is found for the nested key-path
    [full_test_set.pred_file] whose locator slot already holds a URL, the
    file is skipped, and the slot is overwritten with the URL computed
    from the remote file id: line 201 tests the dotted key against the
    top of the tree, where it never is. *)
Theorem backfill_overwrites_nested_locator :
  let result :=
    run "discovery" [m1] false "all" false remote_with_b
      [("models/m1.yml", doc_with "discovery" tree_nested_url)] in
  fst result
  = inr {| skipped_files := [("a/b.csv", "https://figshare.com/files/41")];
           updated_files := []; new_files := [] |}
  /\ yaml_files (snd result)
     = [("models/m1.yml",
         doc_with "discovery"
           [("full_test_set",
             YDict [ ("pred_file", YStr "a/b.csv");
                     ("pred_file_url", YStr "https://figshare.com/files/41") ])])].
Proof. vm_compute. split; reflexivity. Qed.

(** The same reference at the top of the tree keeps its locator. *)
Example backfill_keeps_top_level_locator :
  yaml_files (snd (run "discovery" [m1] false "all" false remote_with_b
                     [("models/m1.yml", doc_with "discovery" tree_flat_url)]))
  = [("models/m1.yml", doc_with "discovery" tree_flat_url)].
Proof. vm_compute. reflexivity. Qed.

(** C5 (defect of the code): a dry run over a model with one discovered
    file that exists on disk and is not on the remote records nothing for
    it: the three dictionaries are empty and the output names no file,
    though the help text of [--dry-run] promises to print what would be
    uploaded.  The remote is asked for the article and its listing only. *)
Theorem dry_run_reports_no_file :
  let result :=
    run "discovery" [m1] true "all" false remote_empty [("models/m1.yml", doc_pred)] in
  find_file_keys "all" tree_pred_only "" = [("energy_pred_file", "a/b.csv")]
  /\ isfile ev "/repo/a/b.csv" = true
  /\ fst result = inr no_files
  /\ stdout (snd result)
     = [ MFoundArticle "discovery" 7; MNowUpdating "https://figshare.com/articles/7";
         MDryRun; MFoundExisting 0; MNewlyAdded 0; MUpdated 0; MSkipped 0;
         MNothingDone ]
  /\ api_calls (snd result) = [CallArticleExists 7; CallGetExistingFiles 7].
Proof. vm_compute. repeat split; reflexivity. Qed.

(** C8 (defect of the code): outside a dry run the metadata file of a
    model whose metrics hold no file reference is opened for writing,
    although nothing in its tree changed; the comment above line 233 says
    the file is saved if changed. *)
Theorem unchanged_metadata_is_rewritten :
  let docs := [("models/m1.yml", doc_with "discovery" tree_plain)] in
  let result := run "discovery" [m1] false "all" false remote_empty docs in
  fst result = inr no_files
  /\ yaml_files (snd result) = docs
  /\ yaml_writes (snd result) = ["models/m1.yml"].
Proof. vm_compute. repeat split; reflexivity. Qed.

(** C10 (defect of the code): a model without a metrics entry for the
    task has no file discovered and no outcome recorded, but outside a
    dry run its metadata file is opened for writing all the same: the
    missing entry is replaced by an empty mapping, which passes the test
    of line 158. *)
Theorem missing_entry_is_rewritten :
  let docs := [("models/m1.yml", doc_with "geo_opt" tree_pred_only)] in
  let result := run "discovery" [m1] false "all" false remote_empty docs in
  fst result = inr no_files
  /\ yaml_files (snd result) = docs
  /\ yaml_writes (snd result) = ["models/m1.yml"].
Proof. vm_compute. repeat split; reflexivity. Qed.

(** An entry that is not a mapping: the model is passed over and its
    file is not written. *)
Example scalar_entry_is_skipped :
  let docs := [("models/m1.yml", doc_scalar_entry)] in
  let result := run "discovery" [m1] false "all" false remote_empty docs in
  fst result = inr no_files
  /\ yaml_files (snd result) = docs
  /\ yaml_writes (snd result) = [].
Proof. vm_compute. repeat split; reflexivity. Qed.

(** C9 (defect of the code): the first task fails while the metadata of
    model [m1] is read.  The exception leaves [main] (no exit status),
    the second task is not started, the note names the task and the
    requested models and tasks, but its [model_name] is [None]. *)
Theorem failure_note_lacks_model :
  let result :=
    run_main [m1] ["discovery"; "geo_opt"] false remote_empty
      [("models/m1.yml", doc_bad_metrics)] in
  fst result
  = inl {| exc := AttributeError;
           notes := [UploadFailed
                       [ ("task", VStr "discovery"); ("model_name", VNone);
                         ("models_to_update", VModels [m1]);
                         ("tasks_to_update", VStrs ["discovery"; "geo_opt"]) ]] |}
  /\ api_calls (snd result) = [CallArticleExists 7; CallGetExistingFiles 7].
Proof. vm_compute. split; reflexivity. Qed.
End Defects.

(** ** Forced re-upload *)

Section Force.
Context {R : Type} {F : Figshare R} (env : Env).
Variable existing_files : Dict FileData.
#[local] Abbreviation forced := (@forced R existing_files).
#[local] Abbreviation called_since := (@called_since R).


Lemma called_since_later (w w1 w2 : World R) c :
  called_since w w1 c ->
  (exists cs, api_calls w2 = (api_calls w1 ++ cs)%list) ->
  called_since w w2 c.
Proof.
  intros (calls & Hc & Hin) (cs & Hcs). exists (calls ++ cs)%list.
  split; [now rewrite Hcs, Hc, app_assoc | apply in_or_app; now left].
Qed.

Lemma called_since_earlier (w0 w w' : World R) c :
  (exists cs, api_calls w = (api_calls w0 ++ cs)%list) ->
  called_since w w' c ->
  called_since w0 w' c.
Proof.
  intros (cs & Hcs) (calls & Hc & Hin). exists (cs ++ calls)%list.
  split; [now rewrite Hc, Hcs, app_assoc | apply in_or_app; now right].
Qed.

Lemma forced_refl (s : Buckets * World R) : forced s s.
Proof.
  repeat split; [apply incl_refl | now left |].
  exists []. split; [now rewrite app_nil_r | constructor].
Qed.

Lemma forced_trans (s1 s2 s3 : Buckets * World R) : forced s1 s2 -> forced s2 s3 -> forced s1 s3.
Proof.
  intros (Hs & Hu & Hn & c & Hc & Hq) (Hs' & Hu' & Hn' & c' & Hc' & Hq').
  repeat split.
  - congruence.
  - eapply incl_tran; eassumption.
  - intros k Hk. destruct (Hn' k Hk) as [H|H]; [now apply Hn | now right].
  - exists (c ++ c')%list. split; [now rewrite Hc', Hc, app_assoc|].
    apply Forall_app. now split.
Qed.

Lemma forced_same_buckets b (w w' : World R) :
  api_calls w' = api_calls w -> forced (b, w) (b, w').
Proof.
  intros H. repeat split; [apply incl_refl | now left |].
  exists []. split; [now rewrite app_nil_r | constructor].
Qed.

(** One forced turn of the file loop. *)
Lemma process_file_forced task model article_id b metric_data key_path rel
  (w : World R) b' metric_data' w' :
  process_file env task model article_id existing_files false true
    (b, metric_data) (key_path, rel) w = (inr (b', metric_data'), w') ->
  forced (b, w) (b', w')
  /\ (isfile env (ROOT env ++ "/" ++ rel) = true ->
      dict_has rel existing_files = true ->
      In rel (keys (updated_files b'))
      /\ called_since w w' (CallUpload article_id (ROOT env ++ "/" ++ rel) rel true)).
Proof.
  intros H. apply process_file_ok in H.
  destruct H as [(Hmiss & -> & _ & ->)|[(_ & Hf & _)|(_ & w1 & -> & H)]];
    [|discriminate|].
  - split; [now apply forced_same_buckets|]. congruence.
  - apply upload_ok in H. destruct H as (fid & up & r' & _ & -> & -> & _). split.
    + unfold forced, record_uploaded. simpl.
      destruct (dict_has rel existing_files) eqn:E; simpl; repeat split.
      * apply keys_set_incl.
      * now left.
      * eexists. split; [reflexivity|]. repeat constructor. intros [].
      * apply incl_refl.
      * intros k Hk. apply keys_set_inv in Hk. destruct Hk as [->|Hk]; [now right | now left].
      * eexists. split; [reflexivity|]. repeat constructor. intros [].
    + intros _ Hin. unfold record_uploaded. rewrite Hin. simpl. split.
      * apply keys_set_in.
      * eexists. split; [reflexivity | now left].
Qed.

Lemma process_files_forced task model article_id items :
  forall b metric_data (w : World R) b' metric_data' w',
    for_each (process_file env task model article_id existing_files false true) items
      (b, metric_data) w = (inr (b', metric_data'), w') ->
    forced (b, w) (b', w').
Proof.
  intros b md w b' md' w' H.
  apply (for_each_ok_rel (fun s s' => forced (fst (fst s), snd s) (fst (fst s'), snd s')))
    in H; [exact H | intros; apply forced_refl | intros; eapply forced_trans; eassumption |].
  intros [b0 md0] [kp rel] w0 [b1 md1] w1 _ Hx. simpl.
  now apply process_file_forced in Hx.
Qed.

Lemma forced_keeps (w0 : World R) (s s' : Buckets * World R) rel c :
  forced s s' ->
  In rel (keys (updated_files (fst s))) /\ called_since w0 (snd s) c ->
  In rel (keys (updated_files (fst s'))) /\ called_since w0 (snd s') c.
Proof.
  intros (_ & Hu & _ & cs & Hc & _) [H1 H2]. split; [now apply Hu|].
  eapply called_since_later; [exact H2 | now exists cs].
Qed.

(** One forced turn of the model loop. *)
Lemma process_model_forced task article_id file_type b model (w : World R) b' w' :
  process_model env task article_id existing_files false file_type true b model w
  = (inr b', w') ->
  forced (b, w) (b', w')
  /\ forall model_data metrics metric_data key_path rel,
       dict_get (yaml_path model) (yaml_files w) = Some model_data ->
       yaml_get model_data "metrics" = inr metrics ->
       yaml_get metrics task = inr (YDict metric_data) ->
       In (key_path, rel) (find_file_keys file_type metric_data "") ->
       isfile env (ROOT env ++ "/" ++ rel) = true ->
       dict_has rel existing_files = true ->
       In rel (keys (updated_files b'))
       /\ called_since w w' (CallUpload article_id (ROOT env ++ "/" ++ rel) rel true).
Proof.
  intros H. apply process_model_ok in H.
  destruct H as [(Hnone & -> & ->)|(doc & metrics & entry & Hdoc & Hm & He & H)].
  - split; [now apply forced_same_buckets|]. intros; congruence.
  - destruct H as [(Hnd & -> & ->)|(md & md' & w1 & -> & Hloop & ->)].
    + split; [apply forced_refl|].
      intros doc' metrics' md' kp rel Hdoc' Hm' He'. exfalso.
      rewrite Hdoc in Hdoc'. injection Hdoc' as <-.
      rewrite Hm in Hm'. injection Hm' as <-.
      rewrite He in He'. injection He' as He'. now apply (Hnd md').
    + split.
      * apply process_files_forced in Hloop.
        eapply forced_trans; [exact Hloop|]. now apply forced_same_buckets.
      * intros doc' metrics' md0 kp rel Hdoc' Hm' He' Hin Hfile Hlisted.
        rewrite Hdoc in Hdoc'. injection Hdoc' as <-.
        rewrite Hm in Hm'. injection Hm' as <-.
        rewrite He in He'. injection He' as <-.
        apply in_split in Hin. destruct Hin as (l1 & l2 & Hsplit).
        rewrite Hsplit in Hloop. apply for_each_app_ok in Hloop.
        destruct Hloop as ([b0 md0] & w0 & [b1 md1] & w2 & Hpre & Hx & Hrest).
        apply process_file_forced in Hx. destruct Hx as [_ Hx].
        specialize (Hx Hfile Hlisted).
        apply process_files_forced in Hrest.
        destruct (forced_keeps w0 (b1, w2) (b', w1) _ _ Hrest Hx) as [Hu Hc].
        split; [exact Hu|]. simpl in Hc.
        eapply called_since_earlier; [|exact Hc].
        apply process_files_forced in Hpre.
        destruct Hpre as (_ & _ & _ & cs & Hcs & _). now exists cs.
Qed.

Lemma process_models_forced task article_id file_type models :
  forall b (w : World R) b' w',
    for_each (process_model env task article_id existing_files false file_type true)
      models b w = (inr b', w') ->
    forced (b, w) (b', w').
Proof.
  intros b w b' w' H.
  apply (for_each_ok_rel forced) in H;
    [exact H | apply forced_refl | intros; eapply forced_trans; eassumption |].
  intros b0 x w0 b1 w1 _ Hx. now apply process_model_forced in Hx.
Qed.
End Force.

Section Replay.
Context {R : Type} {F : Figshare R} (env : Env).
#[local] Abbreviation ran_calls := (@ran_calls R F).
#[local] Abbreviation forced_run := (@forced_run R F).

Lemma replay_app c1 c2 (r : R) : replay (c1 ++ c2) r = replay c2 (replay c1 r).
Proof. apply fold_left_app. Qed.

Lemma ran_same (w w' : World R) :
  api_calls w' = api_calls w -> remote w' = remote w -> ran_calls [] w w'.
Proof. intros Hc Hr. split; [now rewrite app_nil_r | exact Hr]. Qed.

Lemma ran_trans c1 c2 (w1 w2 w3 : World R) :
  ran_calls c1 w1 w2 -> ran_calls c2 w2 w3 -> ran_calls (c1 ++ c2) w1 w3.
Proof.
  intros [Hc Hr] [Hc' Hr']. split.
  - now rewrite Hc', Hc, app_assoc.
  - now rewrite Hr', Hr, replay_app.
Qed.

Lemma ran_silent calls (w0 w w' : World R) :
  ran_calls calls w0 w -> api_calls w' = api_calls w -> remote w' = remote w ->
  ran_calls calls w0 w'.
Proof. intros [Hc Hr] Hc' Hr'. split; congruence. Qed.

Lemma forced_run_same (w w' : World R) :
  api_calls w' = api_calls w -> remote w' = remote w -> forced_run w w'.
Proof. intros Hc Hr. exists []. split; [now apply ran_same | constructor]. Qed.

Lemma forced_run_refl (w : World R) : forced_run w w.
Proof. now apply forced_run_same. Qed.

Lemma forced_run_trans (w1 w2 w3 : World R) :
  forced_run w1 w2 -> forced_run w2 w3 -> forced_run w1 w3.
Proof.
  intros (c & Hc & Hf) (c' & Hc' & Hf'). exists (c ++ c')%list.
  split; [eapply ran_trans; eassumption | apply Forall_app; now split].
Qed.

Lemma forced_run_print m : preserves forced_run (print m).
Proof. intros w. now apply forced_run_same. Qed.

Lemma forced_run_dump_yaml path doc : preserves forced_run (dump_yaml path doc).
Proof. intros w. now apply forced_run_same. Qed.

Lemma forced_run_print_enumerated {V} (line : nat -> string -> V -> Msg) d :
  forall idx, preserves forced_run (print_enumerated line idx d).
Proof.
  induction d as [|[k v] d IH]; intros idx; simpl.
  - apply (preserves_ret _ forced_run_refl).
  - apply (preserves_bind _ forced_run_trans); [apply forced_run_print | intros _; apply IH].
Qed.

Lemma forced_run_query {A} c (q : R -> PyErr + A) :
  mutating c = false -> forced_call c -> preserves forced_run (query c q).
Proof.
  intros Hm Hf w. exists [c]. split; [|now repeat constructor].
  split; [reflexivity|]. now destruct c.
Qed.

Lemma forced_run_create metadata :
  preserves forced_run (command (CallCreateArticle metadata) (create_article metadata)).
Proof.
  intros w. unfold command.
  destruct (create_article metadata (remote w)) as [res r'] eqn:E.
  exists [CallCreateArticle metadata]. split; [|now repeat constructor].
  split; [reflexivity|]. cbn. now rewrite E.
Qed.

Lemma forced_run_upload article_id file_path file_name :
  preserves forced_run
    (command (CallUpload article_id file_path file_name true)
       (upload_file_if_needed article_id file_path file_name true)).
Proof.
  intros w. unfold command.
  destruct (upload_file_if_needed article_id file_path file_name true (remote w))
    as [res r'] eqn:E.
  exists [CallUpload article_id file_path file_name true].
  split; [|now repeat constructor].
  split; [reflexivity|]. cbn. now rewrite E.
Qed.
End Replay.

Ltac forced_run_tac R F :=
  repeat first
    [ preserves_step (@forced_run_refl R F) (@forced_run_trans R F)
    | apply forced_run_print
    | apply forced_run_dump_yaml
    | apply forced_run_print_enumerated
    | apply forced_run_query; [reflexivity | exact I]
    | apply forced_run_create
    | apply forced_run_upload ].

Section ForcedUrls.
Context {R : Type} {F : Figshare R} (env : Env).
#[local] Abbreviation ran_calls := (@ran_calls R F).
#[local] Abbreviation forced_run := (@forced_run R F).
#[local] Arguments split_path : simpl never.
#[local] Arguments set_nested_dict : simpl never.
#[local] Arguments download_url : simpl never.

(** A forced run compares no hashes and uploads with the force flag only,
    however it ends; the remote service is what its calls made of it. *)
Lemma forced_run_update_one task models file_type :
  preserves forced_run
    (update_one_modeling_task_article env task models false file_type true).
Proof.
  unfold update_one_modeling_task_article, resolve_article, print_summary,
    process_model, process_file, upload.
  cbn [negb andb]. forced_run_tac R F.
Qed.

Lemma for_each_ok_inv {A B} (Inv : A * World R -> Prop) (f : A -> B -> M R A)
  (l : list B) :
  (forall a x w a1 w1, In x l -> f a x w = (inr a1, w1) -> Inv (a, w) -> Inv (a1, w1)) ->
  forall a w a' w', for_each f l a w = (inr a', w') -> Inv (a, w) -> Inv (a', w').
Proof.
  intros Hf a w a' w' H.
  exact (for_each_ok_rel (fun s s' => Inv s -> Inv s') f l
           (fun _ h => h) (fun _ _ _ h1 h2 h => h2 (h1 h)) Hf a w a' w' H).
Qed.

Lemma url_of_upload_later article_id (w0 w w' : World R) cs file_name url :
  url_of_upload env article_id w0 w file_name url ->
  ran_calls cs w w' ->
  url_of_upload env article_id w0 w' file_name url.
Proof.
  intros (before & after & fid & up & Hran & Hup & ->) Hcs.
  exists before, (after ++ cs)%list, fid, up. split; [|now split].
  pose proof (ran_trans _ _ _ _ _ Hran Hcs) as H.
  now rewrite <- app_assoc in H.
Qed.

Lemma urls_later article_id (w0 w w' : World R) cs b :
  urls_from_uploads env article_id w0 (b, w) ->
  ran_calls cs w w' ->
  urls_from_uploads env article_id w0 (b, w').
Proof.
  intros [(calls & Hcalls) Hurls] Hcs. split.
  - exists (calls ++ cs)%list. eapply ran_trans; eassumption.
  - intros file_name url Hget. eapply url_of_upload_later; [|exact Hcs].
    now apply Hurls.
Qed.

(** One forced turn of the file loop keeps the origin of the URLs. *)
Lemma process_file_urls task model article_id existing_files (w0 : World R)
  b metric_data key_path rel (w : World R) b' metric_data' w' :
  process_file env task model article_id existing_files false true
    (b, metric_data) (key_path, rel) w = (inr (b', metric_data'), w') ->
  urls_from_uploads env article_id w0 (b, w) ->
  urls_from_uploads env article_id w0 (b', w').
Proof.
  intros H Hinv. apply process_file_ok in H.
  destruct H as [(_ & -> & _ & ->)|[(_ & Hf & _)|(_ & w1 & -> & H)]];
    [|discriminate|].
  - apply (urls_later _ _ _ _ [] _ Hinv). now apply ran_same.
  - apply upload_ok in H. destruct H as (fid & up & r' & Hup & -> & -> & _).
    set (c := CallUpload article_id (ROOT env ++ "/" ++ rel) rel true).
    assert (Hstep : ran_calls [c] w (set_remote r' (log_call c w))).
    { split; [reflexivity|].
      change (r' = snd (upload_file_if_needed article_id (ROOT env ++ "/" ++ rel) rel true
                          (remote w))).
      now rewrite Hup. }
    destruct (urls_later _ _ _ _ [c] _ Hinv Hstep) as [Hcalls Hurls].
    split; [exact Hcalls|]. cbn [fst snd] in *.
    intros file_name url. unfold record_uploaded.
    destruct (dict_has rel existing_files); cbn [updated_files]; [|apply Hurls].
    rewrite dict_get_set. destruct (String.eqb file_name rel) eqn:E; [|apply Hurls].
    apply String.eqb_eq in E. subst file_name. intros [= <-].
    destruct Hinv as [(calls & Hran) _]. cbn [snd] in Hran.
    exists calls, [], fid, up. split; [eapply ran_trans; eassumption|].
    split; [|reflexivity].
    destruct Hran as [_ <-]. now rewrite Hup.
Qed.

Lemma process_model_urls task article_id existing_files file_type (w0 : World R)
  b model (w : World R) b' w' :
  process_model env task article_id existing_files false file_type true b model w
  = (inr b', w') ->
  urls_from_uploads env article_id w0 (b, w) ->
  urls_from_uploads env article_id w0 (b', w').
Proof.
  intros H Hinv. apply process_model_ok in H.
  destruct H as [(_ & -> & ->)|(doc & metrics & entry & _ & _ & _ & H)].
  - apply (urls_later _ _ _ _ [] _ Hinv). now apply ran_same.
  - destruct H as [(_ & -> & ->)|(md & md' & w1 & _ & Hloop & ->)]; [exact Hinv|].
    assert (Hend : urls_from_uploads env article_id w0 (b', w1)).
    { refine (for_each_ok_inv
                (fun s => urls_from_uploads env article_id w0 (fst (fst s), snd s))
                _ _ _ _ _ _ _ Hloop Hinv).
      intros [b0 md0] [kp rel] wa [b1 md1] wb _ Hx Hi. cbn [fst snd] in *.
      eapply process_file_urls; eassumption. }
    apply (urls_later _ _ _ _ [] _ Hend). now apply ran_same.
Qed.

Lemma process_models_urls task article_id existing_files file_type (w0 : World R) models :
  forall b (w : World R) b' w',
    for_each (process_model env task article_id existing_files false file_type true)
      models b w = (inr b', w') ->
    urls_from_uploads env article_id w0 (b, w) ->
    urls_from_uploads env article_id w0 (b', w').
Proof.
  intros b w b' w'.
  apply (for_each_ok_inv (urls_from_uploads env article_id w0)).
  intros b0 model wa b1 wb _ Hx Hi. eapply process_model_urls; eassumption.
Qed.
End ForcedUrls.

Section ForceRun.
Context {R : Type} {F : Figshare R} (env : Env).
#[local] Arguments split_path : simpl never.
#[local] Arguments set_nested_dict : simpl never.
#[local] Arguments download_url : simpl never.

(** C6: a run outside dry-run mode with [force_reupload].

    However the run ends, it never asks the remote service to compare
    hashes, every upload it calls has the force flag set, and the remote
    service is left as these calls, applied in their order, make it.

    When the run returns: a discovered file that is on disk and whose name
    is in the listing of the task's article when the run starts (whatever
    its hash there, so also when the content is the same) ends in
    [updated_files] and in neither [skipped_files], which stays empty, nor
    [new_files]; among the calls of the run is a forced upload of the
    file, [upload_file_if_needed] applied to the remote service as the
    calls before it left it returned an id, and the URL recorded for the
    file in [updated_files] is the download URL of that id.

    And for one turn of the file loop: when the body returns for a file
    that is on disk and in the listing, its only call is the forced
    upload, the remote service is the one [upload_file_if_needed] left,
    the file is recorded in [updated_files] with the download URL of the
    returned id, the other two dictionaries are as they were, and the
    same URL is in the tree beside the reference, under the last key of
    the key-path with [_url] appended. *)
Theorem force_reupload_updates (task : string) (models : list Model)
  (file_type : string) (w : World R) :
  (exists calls,
      ran_calls calls w
        (snd (update_one_modeling_task_article env task models false file_type true w))
      /\ Forall forced_call calls)
  /\ (forall (b : Buckets) (w' : World R) (article_id : Z)
        (existing_files : Dict FileData) (model : Model) (model_data metrics : Yaml)
        (metric_data : Dict Yaml) (key_path rel : string),
        dict_get ("model_preds_" ++ task) ARTICLE_IDS = Some (Some article_id) ->
        article_exists article_id (remote w) = inr true ->
        get_existing_files article_id (remote w) = inr existing_files ->
        dict_has rel existing_files = true ->
        In model models ->
        dict_get (yaml_path model) (yaml_files w) = Some model_data ->
        yaml_get model_data "metrics" = inr metrics ->
        yaml_get metrics task = inr (YDict metric_data) ->
        dict_get key_path (find_file_keys file_type metric_data "") = Some rel ->
        isfile env (ROOT env ++ "/" ++ rel) = true ->
        update_one_modeling_task_article env task models false file_type true w
        = (inr b, w') ->
        skipped_files b = []
        /\ In rel (keys (updated_files b))
        /\ ~ In rel (keys (new_files b))
        /\ exists before after file_id was_uploaded,
             ran_calls
               (before ++ CallUpload article_id (ROOT env ++ "/" ++ rel) rel true
                       :: after) w w'
             /\ Forall forced_call (before ++ after)
             /\ fst (upload_file_if_needed article_id (ROOT env ++ "/" ++ rel) rel true
                       (replay before (remote w)))
                = inr (file_id, was_uploaded)
             /\ dict_get rel (updated_files b) = Some (download_url file_id))
  /\ (forall (model : Model) (article_id : Z) (existing_files : Dict FileData)
        (b : Buckets) (metric_data : Dict Yaml) (key_path rel : string)
        (w0 : World R) (b' : Buckets) (metric_data' : Dict Yaml) (w' : World R),
        isfile env (ROOT env ++ "/" ++ rel) = true ->
        dict_has rel existing_files = true ->
        process_file env task model article_id existing_files false true
          (b, metric_data) (key_path, rel) w0 = (inr (b', metric_data'), w') ->
        exists file_id was_uploaded,
          upload_file_if_needed article_id (ROOT env ++ "/" ++ rel) rel true (remote w0)
          = (inr (file_id, was_uploaded), remote w')
          /\ api_calls w'
             = (api_calls w0
                  ++ [CallUpload article_id (ROOT env ++ "/" ++ rel) rel true])%list
          /\ updated_files b' = dict_set rel (download_url file_id) (updated_files b)
          /\ skipped_files b' = skipped_files b
          /\ new_files b' = new_files b
          /\ get_nested (YDict metric_data') (slot_path key_path)
             = Some (YStr (download_url file_id))).
Proof.
  pose proof (forced_run_update_one env task models file_type w) as Hany.
  split; [exact Hany|]. split.
  - intros b w' article_id existing_files model model_data metrics metric_data
      key_path rel Hid Hex Hlist Hlisted Hmodel Hdoc Hm He Hkey Hfile Hrun.
    rewrite Hrun in Hany. cbn [snd] in Hany.
    apply update_one_ok in Hrun.
    destruct Hrun as (aid & w0 & listing & w1 & w2 & Hres & Hq & Hr1 & Hy1 & _ & Hc1
                      & Hloop & Hsilent).
    rewrite (resolve_registered env task false article_id w Hid Hex) in Hres.
    injection Hres as <- <-. simpl in Hq, Hr1, Hy1, Hc1.
    rewrite Hlist in Hq. injection Hq as <-.
    assert (Hurls : urls_from_uploads env article_id w (b, w2)).
    { apply (process_models_urls env _ _ _ _ _ _ _ _ _ _ Hloop). split.
      - exists [CallArticleExists article_id; CallGetExistingFiles article_id].
        split; [cbn [snd]; now rewrite Hc1, <- app_assoc | exact Hr1].
      - intros file_name url Hget. discriminate Hget. }
    destruct (first_with_path models model Hmodel) as (l1 & m' & l2 & -> & Hpath & Hl1).
    apply for_each_app_ok in Hloop.
    destruct Hloop as (b0 & wa & b1 & wb & Hbefore & Hturn & Hafter).
    pose proof (process_models_frame env _ _ _ _ _ _ _ _ _ _ (yaml_path model) Hbefore)
      as Hframe.
    specialize (Hframe Hl1).
    apply process_models_forced in Hbefore, Hafter.
    apply process_model_forced in Hturn. destruct Hturn as [Hturn Hfound].
    rewrite Hpath, Hframe, Hy1 in Hfound.
    specialize (Hfound _ _ _ key_path rel Hdoc Hm He (dict_get_In _ _ _ Hkey) Hfile Hlisted).
    pose proof (forced_trans _ _ _ _ Hbefore (forced_trans _ _ _ _ Hturn Hafter)) as Hall.
    destruct Hall as (Hs & _ & Hn & _). simpl in Hs, Hn.
    destruct (forced_keeps _ wa (b1, wb) (b, w2) _ _ Hafter Hfound) as [Hupd _].
    simpl in Hupd.
    split; [exact Hs|]. split; [exact Hupd|]. split.
    { intros Hnew. destruct (Hn rel Hnew) as [[]|Hno']. congruence. }
    destruct (dict_get rel (updated_files b)) as [url|] eqn:Eurl;
      [|apply dict_get_None in Eurl; contradiction].
    destruct Hurls as [_ Hurls]. cbn [fst snd] in Hurls.
    destruct (Hurls rel url Eurl) as (before & after & fid & up & Hran & Hup & ->).
    destruct Hsilent as (Hr' & _ & Hc' & _).
    exists before, after, fid, up.
    assert (Hran' : ran_calls
                      (before ++ CallUpload article_id (ROOT env ++ "/" ++ rel) rel true
                              :: after) w w')
      by (apply (ran_silent _ _ _ _ Hran); assumption).
    split; [exact Hran'|]. split; [|now split].
    destruct Hany as (calls & [Hcalls _] & Hforced). destruct Hran' as [Hcalls' _].
    rewrite Hcalls in Hcalls'. apply app_inv_head in Hcalls'. subst calls.
    apply Forall_app in Hforced. destruct Hforced as [Hb Ha].
    apply Forall_app. split; [exact Hb | now inversion Ha].
  - intros model article_id existing_files b metric_data key_path rel w0 b' metric_data'
      w' Hfile Hlisted H.
    apply process_file_ok in H.
    destruct H as [(Hno & _)|[(_ & Hforce & _)|(_ & w1 & -> & H)]];
      [congruence | discriminate |].
    apply upload_ok in H.
    destruct H as (file_id & was_uploaded & r' & Hup & -> & -> & Hset).
    exists file_id, was_uploaded. unfold record_uploaded. rewrite Hlisted.
    cbn [remote set_remote log_call api_calls updated_files skipped_files new_files].
    repeat (split; [first [exact Hup | reflexivity]|]).
    apply set_nested_dict_ok in Hset. apply set_get_same in Hset. exact Hset.
Qed.
End ForceRun.

Section ForceWitness.
Import Reference Scenario.

Lemma force_reupload_updates_witness :
  exists b w',
    run "discovery" [m1] false "all" true remote_with_b [("models/m1.yml", doc_pred)]
    = (inr b, w')
    /\ skipped_files b = []
    /\ In "a/b.csv" (keys (updated_files b))
    /\ ~ In "a/b.csv" (keys (new_files b))
    /\ exists file_id,
         dict_get "a/b.csv" (updated_files b) = Some (@download_url Remote fs file_id).
Proof.
  eexists. eexists. split; [vm_compute; reflexivity|].
  destruct (proj1 (proj2
              (@force_reupload_updates Remote fs ev "discovery" [m1] "all"
                 (world remote_with_b [("models/m1.yml", doc_pred)])))
              {| skipped_files := [];
                 updated_files := [("a/b.csv", "https://figshare.com/files/100")];
                 new_files := [] |}
              (snd (run "discovery" [m1] false "all" true remote_with_b
                      [("models/m1.yml", doc_pred)]))
              7%Z [("a/b.csv", {| fd_id := Some 41%Z |})] m1 doc_pred
              (YDict [("discovery", YDict tree_pred_only)]) tree_pred_only
              "energy_pred_file" "a/b.csv"
              eq_refl eq_refl eq_refl eq_refl (or_introl eq_refl)
              eq_refl eq_refl eq_refl eq_refl eq_refl
              ltac:(vm_compute; reflexivity))
    as (Hs & Hu & Hn & _ & _ & file_id & _ & _ & _ & _ & Hurl).
  repeat split; try assumption. now exists file_id.
Defined.
End ForceWitness.

(** ** One bucket per relative path *)

Section Buckets.
Context {R : Type} {F : Figshare R} (env : Env).


Lemma sorted_out_no_files seen : sorted_out seen no_files.
Proof.
  unfold sorted_out, buckets_disjoint. simpl.
  repeat split; try constructor; try tauto.
Qed.

Lemma sorted_out_more seen seen' b :
  sorted_out seen b -> incl seen seen' -> sorted_out seen' b.
Proof.
  intros (Hd & Hin & Hn) Hincl. split; [exact Hd|]. split; [|exact Hn].
  intros k Hk. apply Hincl. now apply Hin.
Qed.

(** A path that was not seen is in no dictionary. *)
Lemma sorted_out_fresh seen b rel :
  sorted_out seen b -> ~ In rel seen ->
  ~ In rel (keys (skipped_files b)) /\ ~ In rel (keys (updated_files b))
  /\ ~ In rel (keys (new_files b)).
Proof.
  intros (_ & Hin & _) Hnew. repeat split; intros H; apply Hnew, Hin; tauto.
Qed.

Lemma sorted_out_skipped seen b rel url :
  sorted_out seen b -> ~ In rel seen ->
  sorted_out (rel :: seen) (record_skipped rel url b).
Proof.
  intros Hs Hnew. destruct (sorted_out_fresh _ _ _ Hs Hnew) as (F1 & F2 & F3).
  destruct Hs as (Hd & Hin & Hn1 & Hn2 & Hn3).
  unfold sorted_out, record_skipped, buckets_disjoint; simpl.
  split; [|split; [|split; [now apply NoDup_dict_set | now split]]].
  - intros k. specialize (Hd k). rewrite keys_set_iff. intuition (subst; tauto).
  - intros k. specialize (Hin k). rewrite keys_set_iff. intuition.
Qed.

Lemma sorted_out_uploaded existing_files seen b rel url :
  sorted_out seen b -> ~ In rel seen ->
  sorted_out (rel :: seen) (record_uploaded existing_files rel url b).
Proof.
  intros Hs Hnew. destruct (sorted_out_fresh _ _ _ Hs Hnew) as (F1 & F2 & F3).
  destruct Hs as (Hd & Hin & Hn1 & Hn2 & Hn3).
  unfold sorted_out, record_uploaded, buckets_disjoint.
  destruct (dict_has rel existing_files); simpl.
  - split; [|split; [|split; [exact Hn1 | split; [now apply NoDup_dict_set | exact Hn3]]]].
    + intros k. specialize (Hd k). rewrite keys_set_iff. intuition (subst; tauto).
    + intros k. specialize (Hin k). rewrite keys_set_iff. intuition.
  - split; [|split; [|split; [exact Hn1 | split; [exact Hn2 | now apply NoDup_dict_set]]]].
    + intros k. specialize (Hd k). rewrite keys_set_iff. intuition (subst; tauto).
    + intros k. specialize (Hin k). rewrite keys_set_iff. intuition.
Qed.

(** One turn of the file loop puts the path of its file into at most one
    dictionary. *)
Lemma process_file_sorted task model article_id existing_files force_reupload
  b metric_data key_path rel (w : World R) b' metric_data' w' seen :
  process_file env task model article_id existing_files false force_reupload
    (b, metric_data) (key_path, rel) w = (inr (b', metric_data'), w') ->
  sorted_out seen b -> ~ In rel seen ->
  sorted_out (rel :: seen) b'.
Proof.
  intros H Hs Hnew. apply process_file_ok in H.
  destruct H as [(_ & -> & _)|[(_ & _ & H)|(_ & w1 & _ & H)]].
  - eapply sorted_out_more; [exact Hs | now apply incl_tl, incl_refl].
  - apply try_skip_ok in H. destruct H as (h & sz & found & _ & _ & _ & H).
    destruct found as [[] [fid|]]; try discriminate.
    destruct H as (md & [= -> _] & _). now apply sorted_out_skipped.
  - apply upload_ok in H. destruct H as (fid & up & r' & _ & _ & -> & _).
    now apply sorted_out_uploaded.
Qed.

Lemma NoDup_app_not_both {A} (l l' : list A) k :
  NoDup (l ++ l') -> In k l -> In k l' -> False.
Proof.
  induction l as [|x l IH]; simpl; [contradiction|].
  intros Hnd [->|Hk] Hk'; inversion Hnd as [|? ? Hnotin Hnd']; subst.
  - apply Hnotin. apply in_or_app. now right.
  - now apply IH.
Qed.

Lemma process_files_sorted task model article_id existing_files force_reupload items :
  forall b metric_data (w : World R) b' metric_data' w' seen,
    for_each (process_file env task model article_id existing_files false force_reupload)
      items (b, metric_data) w = (inr (b', metric_data'), w') ->
    sorted_out seen b ->
    NoDup (values items ++ seen) ->
    sorted_out (values items ++ seen) b'.
Proof.
  induction items as [|[kp rel] items IH]; intros b md w b' md' w' seen H Hs Hnd.
  - simpl in H. injection H as <- <- <-. exact Hs.
  - apply for_each_cons_ok in H. destruct H as ([b1 md1] & w1 & Hx & Hrest).
    simpl in Hnd. inversion Hnd as [|? ? Hnotin Hnd']; subst.
    eapply process_file_sorted in Hx; [|exact Hs|].
    + eapply IH in Hrest; [|exact Hx|].
      * eapply sorted_out_more; [exact Hrest|].
        intros k Hk. simpl. rewrite in_app_iff in *. simpl in Hk. tauto.
      * apply NoDup_app_remove_l in Hnd' as Hseen.
        apply NoDup_app; [eapply NoDup_app_remove_r; exact Hnd' | |].
        -- constructor; [|exact Hseen]. intros Hin. apply Hnotin.
           apply in_or_app. now right.
        -- intros k Hk [<-|Hk'].
           ++ apply Hnotin. apply in_or_app. now left.
           ++ exact (NoDup_app_not_both _ _ k Hnd' Hk Hk').
    + intros Hin. apply Hnotin. apply in_or_app. now right.
Qed.

Lemma discovered_entry task file_type docs model model_data metrics entry :
  dict_get (yaml_path model) docs = Some model_data ->
  yaml_get model_data "metrics" = inr metrics ->
  yaml_get metrics task = inr entry ->
  discovered task file_type docs model
  = match entry with YDict metric_data => find_file_keys file_type metric_data "" | _ => [] end.
Proof. intros Hdoc Hm He. unfold discovered. now rewrite Hdoc, Hm, He. Qed.


Lemma discovered_frame task file_type docs docs' model :
  dict_get (yaml_path model) docs' = dict_get (yaml_path model) docs ->
  discovered task file_type docs' model = discovered task file_type docs model.
Proof. intros H. unfold discovered. now rewrite H. Qed.

(** One turn of the model loop. *)
Lemma process_model_sorted task article_id existing_files file_type force_reupload
  b model (w : World R) b' w' seen :
  process_model env task article_id existing_files false file_type force_reupload
    b model w = (inr b', w') ->
  sorted_out seen b ->
  NoDup (values (discovered task file_type (yaml_files w) model) ++ seen) ->
  sorted_out (values (discovered task file_type (yaml_files w) model) ++ seen) b'.
Proof.
  intros H Hs Hnd. apply process_model_ok in H.
  destruct H as [(Hnone & -> & _)|(doc & metrics & entry & Hdoc & Hm & He & H)].
  - eapply sorted_out_more; [exact Hs | apply incl_appr, incl_refl].
  - rewrite (discovered_entry _ _ _ _ _ _ _ Hdoc Hm He) in *.
    destruct H as [(_ & -> & _)|(md & md' & w1 & -> & Hloop & _)].
    + eapply sorted_out_more; [exact Hs | apply incl_appr, incl_refl].
    + eapply process_files_sorted; eassumption.
Qed.

Lemma referenced_paths_frame task file_type docs docs' models :
  (forall m, In m models ->
             dict_get (yaml_path m) docs' = dict_get (yaml_path m) docs) ->
  referenced_paths task file_type docs' models = referenced_paths task file_type docs models.
Proof.
  unfold referenced_paths. induction models as [|m models IH]; intros H; simpl;
    [reflexivity|].
  rewrite (discovered_frame _ _ docs docs' m) by (apply H; now left).
  rewrite IH; [reflexivity|]. intros x Hx. apply H. now right.
Qed.

Lemma process_models_sorted task article_id existing_files file_type force_reupload models :
  forall b (w : World R) b' w' seen,
    for_each (process_model env task article_id existing_files false file_type
                force_reupload) models b w = (inr b', w') ->
    sorted_out seen b ->
    NoDup (map yaml_path models) ->
    NoDup (referenced_paths task file_type (yaml_files w) models ++ seen) ->
    sorted_out (referenced_paths task file_type (yaml_files w) models ++ seen) b'.
Proof.
  induction models as [|m models IH]; intros b w b' w' seen H Hs Hpaths Hnd.
  - simpl in H. injection H as <- <-. exact Hs.
  - apply for_each_cons_ok in H. destruct H as (b1 & w1 & Hm & Hrest).
    inversion Hpaths as [|? ? Hfirst Hpaths']; subst.
    assert (Hframe : referenced_paths task file_type (yaml_files w1) models
                     = referenced_paths task file_type (yaml_files w) models).
    { apply referenced_paths_frame. intros x Hx.
      eapply process_model_frame; [exact Hm|].
      intros E. apply Hfirst. rewrite E. now apply in_map. }
    change (referenced_paths task file_type (yaml_files w) (m :: models))
      with (values (discovered task file_type (yaml_files w) m)
            ++ referenced_paths task file_type (yaml_files w) models)%list in *.
    set (mine := values (discovered task file_type (yaml_files w) m)) in *.
    set (rest := referenced_paths task file_type (yaml_files w) models) in *.
    assert (Hperm : Permutation ((mine ++ rest) ++ seen) (rest ++ mine ++ seen)).
    { rewrite <- app_assoc, !app_assoc.
      apply Permutation_app_tail, Permutation_app_comm. }
    eapply process_model_sorted in Hm; [|exact Hs|].
    + fold mine in Hm. eapply IH in Hrest; [|exact Hm|exact Hpaths'|].
      * rewrite Hframe in Hrest. eapply sorted_out_more; [exact Hrest|].
        intros k Hk. eapply Permutation_in; [symmetry; exact Hperm | exact Hk].
      * rewrite Hframe. eapply Permutation_NoDup; [exact Hperm | exact Hnd].
    + fold mine. rewrite <- app_assoc in Hnd.
      apply NoDup_app_remove_l in Hnd as Htail.
      apply NoDup_app; [eapply NoDup_app_remove_r; exact Hnd | |].
      * eapply NoDup_app_remove_l. exact Htail.
      * intros k Hk Hk'. apply (NoDup_app_not_both _ _ k Hnd Hk).
        apply in_or_app. now right.
Qed.

(** A dry run hands the dictionaries on unchanged. *)
Lemma process_model_dry_buckets task article_id existing_files file_type force_reupload
  b model (w : World R) b' w' :
  process_model env task article_id existing_files true file_type force_reupload
    b model w = (inr b', w') -> b' = b.
Proof.
  unfold process_model. intros H.
  apply bind_ok in H. destruct H as (present & w0 & _ & H).
  destruct (negb present).
  - apply bind_ok in H. destruct H as (? & ? & _ & H). apply ret_ok in H. tauto.
  - apply bind_ok in H. destruct H as (doc & w1 & _ & H).
    apply bind_ok in H. destruct H as (metrics & w2 & _ & H).
    apply bind_ok in H. destruct H as (entry & w3 & _ & H).
    destruct entry as [lexeme|s|l|md]; try (apply ret_ok in H; tauto).
    apply bind_ok in H. destruct H as (st & w4 & Hloop & H).
    apply bind_ok in H. destruct H as (? & ? & _ & H). apply ret_ok in H.
    destruct H as [-> _].
    apply (for_each_ok_rel (fun s s' => fst s' = fst s)) in Hloop;
      [simpl in Hloop; now rewrite Hloop | reflexivity | intros ? ? ? ? ?; congruence |].
    intros a item w5 a1 w6 _ Hx. simpl.
    pose proof (process_file_dry_run env task model article_id existing_files
                  force_reupload a item w5) as Hdry.
    rewrite Hx in Hdry. simpl in Hdry. now injection Hdry as ->.
Qed.

(** Resolving the article leaves the metadata files alone. *)
Lemma resolve_article_yaml task dry_run (w : World R) :
  yaml_files (snd (resolve_article env task dry_run w)) = yaml_files w.
Proof.
  revert w.
  change (preserves (fun w w' => yaml_files w' = yaml_files w)
            (resolve_article env task dry_run)).
  assert (Hrefl : forall w : World R, yaml_files w = yaml_files w) by reflexivity.
  assert (Htrans : forall w1 w2 w3 : World R,
             yaml_files w2 = yaml_files w1 -> yaml_files w3 = yaml_files w2 ->
             yaml_files w3 = yaml_files w1) by (intros; congruence).
  unfold resolve_article.
  repeat first
    [ preserves_step Hrefl Htrans
    | match goal with
      | |- preserves _ (print _) => intros w; reflexivity
      | |- preserves _ (query _ _) => intros w; reflexivity
      | |- preserves _ (command _ _) =>
          intros w; unfold command; simpl;
          match goal with |- context [create_article ?m ?r] =>
            destruct (create_article m r) end; reflexivity
      end ].
Qed.
End Buckets.

Section BucketsRun.
Context {R : Type} {F : Figshare R} (env : Env).

(** C4, as amended: when every model is listed once and no two file
    references discovered for the listed models (for different key-paths
    or different models) name the same relative path, then in a run that
    returns no relative path is a key of more than one of the three
    dictionaries, and none is twice in one. *)
Theorem distinct_paths_one_bucket (task : string) (models : list Model)
  (dry_run : bool) (file_type : string) (force_reupload : bool)
  (w : World R) (b : Buckets) (w' : World R) :
  NoDup (map yaml_path models) ->
  NoDup (referenced_paths task file_type (yaml_files w) models) ->
  update_one_modeling_task_article env task models dry_run file_type force_reupload w
  = (inr b, w') ->
  buckets_disjoint b
  /\ NoDup (keys (skipped_files b)) /\ NoDup (keys (updated_files b))
  /\ NoDup (keys (new_files b)).
Proof.
  intros Hmodels Hpaths Hrun. apply update_one_ok in Hrun.
  destruct Hrun as (aid & w0 & listing & w1 & w2 & Hres & _ & _ & Hy1 & _ & _ & Hloop & _).
  assert (Hy0 : yaml_files w0 = yaml_files w).
  { pose proof (resolve_article_yaml env task dry_run w) as H. now rewrite Hres in H. }
  destruct dry_run.
  - assert (b = no_files) as ->.
    { apply (for_each_ok_rel (fun s s' => fst s' = fst s)) in Hloop;
        [exact Hloop | reflexivity | intros ? ? ? ? ?; congruence |].
      intros a x wa a1 wb _ Hx. simpl. eapply process_model_dry_buckets. exact Hx. }
    destruct (sorted_out_no_files []) as (Hd & _ & Hn). now split.
  - eapply process_models_sorted in Hloop;
      [ | apply (sorted_out_no_files []) | exact Hmodels
        | rewrite app_nil_r, Hy1, Hy0; exact Hpaths ].
    destruct Hloop as (Hd & _ & Hn). now split.
Qed.
End BucketsRun.

Section BucketsExamples.
Import Reference Scenario.

Lemma distinct_paths_one_bucket_witness :
  exists b w',
    run "discovery" [m1] false "all" false remote_with_b
      [("models/m1.yml", doc_with "discovery" tree_energy)] = (inr b, w')
    /\ buckets_disjoint b.
Proof.
  eexists. eexists. split; [vm_compute; reflexivity|].
  apply (@distinct_paths_one_bucket Remote fs ev "discovery" [m1] false "all" false
           (world remote_with_b [("models/m1.yml", doc_with "discovery" tree_energy)])
           _ (snd (run "discovery" [m1] false "all" false remote_with_b
                     [("models/m1.yml", doc_with "discovery" tree_energy)]))).
  - repeat constructor. intros [].
  - vm_compute. repeat constructor; simpl; intuition discriminate.
  - vm_compute. reflexivity.
Defined.

(** C4 as stated fails: two key-paths of one model reference [a/b.csv],
    which is not on the remote.  The first reference uploads it (new), the
    second finds it there with the same hash (skipped). *)
Lemma shared_path_in_two_buckets :
  let result :=
    run "discovery" [m1] false "all" false remote_empty
      [("models/m1.yml", doc_with "discovery" tree_shared)] in
  exists b, fst result = inr b
            /\ In "a/b.csv" (keys (skipped_files b))
            /\ In "a/b.csv" (keys (new_files b))
            /\ ~ buckets_disjoint b.
Proof.
  eexists. split; [vm_compute; reflexivity|]. simpl.
  split; [now left|]. split; [now left|].
  intros H. destruct (H "a/b.csv") as [Hs _]. simpl in Hs.
  destruct Hs as [_ Hn]; [now left|]. apply Hn. now left.
Qed.
End BucketsExamples.

(** ** A second run *)

Section Settled.
Context {R : Type} {F : Figshare R} {L : FigshareLaws F} (env : Env).
Variables (article_id : Z) (task file_type : string).
#[local] Abbreviation matched := (matched env article_id).
#[local] Abbreviation settled := (settled env article_id).
#[local] Abbreviation keeps_matches := (keeps_matches env article_id).
#[local] Abbreviation done_settled := (done_settled env article_id file_type).
#[local] Abbreviation settled_model := (settled_model env article_id task file_type).
#[local] Abbreviation tidy_model := (tidy_model task).
Import PyStr PyStrFacts.
#[local] Arguments file_leaves_val : simpl never.
#[local] Arguments file_leaves : simpl never.
#[local] Arguments find_file_keys : simpl never.
#[local] Arguments split_path : simpl never.
#[local] Arguments download_url : simpl never.


Lemma keeps_matches_refl r : keeps_matches r r.
Proof. intros rel fid H. exact H. Qed.

Lemma keeps_matches_trans r1 r2 r3 :
  keeps_matches r1 r2 -> keeps_matches r2 r3 -> keeps_matches r1 r3.
Proof. intros H12 H23 rel fid H. apply H23, H12, H. Qed.

Lemma settled_keeps metric_data r r' item :
  keeps_matches r r' -> settled metric_data r item -> settled metric_data r' item.
Proof.
  intros Hk Hs Hfile. destruct (Hs Hfile) as (fid & Hm & Hslot).
  exists fid. split; [now apply Hk | exact Hslot].
Qed.

(** What writing the locator of [key_path] does to a tree with plain
    keys. *)
Lemma write_locator metric_data key_path u metric_data' :
  well_keyed (YDict metric_data) = true ->
  set_nested_dict metric_data (fst (split_path key_path))
    (snd (split_path key_path) ++ "_url") (YStr u) = inr metric_data' ->
  well_keyed (YDict metric_data') = true
  /\ (forall x, In x (file_leaves file_type metric_data' "") ->
                In x (file_leaves file_type metric_data ""))
  /\ get_nested (YDict metric_data') (slot_path key_path) = Some (YStr u)
  /\ forall key_path0 rel0 file_id0,
       key_path0 <> key_path ->
       In (key_path0, rel0) (file_leaves file_type metric_data' "") ->
       slot_ok metric_data key_path0 file_id0 ->
       slot_ok metric_data' key_path0 file_id0.
Proof.
  intros Hwk Hset. pose proof Hset as Hset'. apply set_nested_dict_ok in Hset'.
  assert (Hwk' : well_keyed (YDict metric_data') = true).
  { eapply set_well_keyed; [exact Hwk | apply slot_key_ok | exact Hset']. }
  assert (Hslot : get_nested (YDict metric_data') (slot_path key_path) = Some (YStr u)).
  { unfold slot_path. eapply set_get_same. exact Hset'. }
  split; [exact Hwk'|]. split; [|split; [exact Hslot|]].
  - intros x. apply (leaves_after_set file_type _ _ _ _ _ "" x Hset').
    apply url_key_is_no_file.
  - intros kp0 rel0 fid0 Hne Hleaf [Htop|Hget].
    + left. eapply set_nested_dict_keys; eassumption.
    + right. eapply set_get_other; [exact Hset' | exact Hget | discriminate |].
      fold (slot_path key_path). intros rest Hrest.
      destruct rest as [|z rest].
      * rewrite app_nil_r in Hrest. now apply slot_path_inj in Hrest.
      * apply (leaves_paths file_type (YDict metric_data') Hwk') in Hleaf.
        destruct Hleaf as (path & Hpath & Hread & Hsplit). simpl in Hsplit.
        assert (Hne' : z :: rest <> []) by discriminate.
        apply exists_last in Hne'. destruct Hne' as (rest' & z' & Erest).
        rewrite Erest in Hrest. unfold slot_path at 1 in Hrest.
        rewrite app_assoc in Hrest. apply app_inj_tail in Hrest.
        destruct Hrest as [Hparts _].
        rewrite <- Hsplit, split_path_eq, Hparts, <- !app_assoc in Hread.
        rewrite get_nested_app, Hslot in Hread.
        rewrite get_nested_leaf in Hread; [discriminate | discriminate |].
        now destruct rest'.
Qed.

(** *** The first run *)


Lemma done_settled_step done metric_data r metric_data' r' key_path rel :
  done_settled done metric_data r ->
  keeps_matches r r' ->
  (forall x, In x (file_leaves file_type metric_data' "") ->
             In x (file_leaves file_type metric_data "")) ->
  (forall key_path0 rel0 file_id0,
      key_path0 <> key_path ->
      In (key_path0, rel0) (file_leaves file_type metric_data' "") ->
      slot_ok metric_data key_path0 file_id0 ->
      slot_ok metric_data' key_path0 file_id0) ->
  ~ In key_path (keys done) ->
  settled metric_data' r' (key_path, rel) ->
  done_settled (done ++ [(key_path, rel)]) metric_data' r'.
Proof.
  intros Hdone Hkeep Hmono Hslots Hfresh Hnew [kp0 rel0] Hin Hleaf.
  apply in_app_or in Hin. destruct Hin as [Hin|[[= <- <-]|[]]]; [|exact Hnew].
  intros Hfile. destruct (Hdone _ Hin (Hmono _ Hleaf) Hfile) as (fid & Hm & Hslot).
  exists fid. split; [now apply Hkeep|].
  apply (Hslots kp0 rel0 fid); [|exact Hleaf | exact Hslot].
  intros ->. apply Hfresh. apply (in_map fst) in Hin. exact Hin.
Qed.

(** One turn of the file loop in the first run. *)
Lemma first_run_file model existing_files b metric_data key_path rel (w : World R)
  b' metric_data' w' done :
  process_file env task model article_id existing_files false false
    (b, metric_data) (key_path, rel) w = (inr (b', metric_data'), w') ->
  well_keyed (YDict metric_data) = true ->
  done_settled done metric_data (remote w) ->
  ~ In key_path (keys done) ->
  well_keyed (YDict metric_data') = true
  /\ keeps_matches (remote w) (remote w')
  /\ (forall x, In x (file_leaves file_type metric_data' "") ->
                In x (file_leaves file_type metric_data ""))
  /\ done_settled (done ++ [(key_path, rel)]) metric_data' (remote w').
Proof.
  intros H Hwk Hdone Hfresh. apply process_file_ok in H.
  destruct H as [(Hmiss & _ & -> & ->)|[(Hfile & _ & H)|(Hfile & w1 & Hskip & H)]].
  - (* the file is missing *)
    split; [exact Hwk|]. split; [apply keeps_matches_refl|]. split; [auto|].
    eapply done_settled_step; eauto using keeps_matches_refl.
    intros Hfile. cbn [snd] in Hfile. congruence.
  - (* the file is skipped *)
    apply try_skip_ok in H. destruct H as (h & sz & found & Hhash & Hfound & -> & H).
    destruct found as [[] [fid|]]; try discriminate.
    destruct H as (md' & [= _ <-] & Hmd).
    assert (Hm : matched (remote w) rel fid) by (exists h, sz; now split).
    destruct (dict_has (key_path ++ "_url") metric_data) eqn:Etop.
    + subst metric_data'. split; [exact Hwk|]. split; [apply keeps_matches_refl|].
      split; [auto|].
      eapply done_settled_step; eauto using keeps_matches_refl.
      intros _. exists fid. split; [exact Hm | now left].
    + rewrite split_path_url in Hmd. simpl in Hmd.
      destruct (write_locator _ _ _ _ Hwk Hmd) as (Hwk' & Hmono & Hslot & Hslots).
      split; [exact Hwk'|]. split; [apply keeps_matches_refl|]. split; [exact Hmono|].
      eapply done_settled_step; eauto using keeps_matches_refl.
      intros _. exists fid. split; [exact Hm | now right].
  - (* the file is uploaded *)
    apply try_skip_ok in Hskip.
    destruct Hskip as (h & sz & found & Hhash & Hfound & -> & Hnone).
    apply upload_ok in H. destruct H as (fid & up & r' & Hup & -> & _ & Hmd).
    cbn [remote set_remote log_call] in *.
    destruct (write_locator _ _ _ _ Hwk Hmd) as (Hwk' & Hmono & Hslot & Hslots).
    assert (Hkeep : keeps_matches (remote w) r').
    { intros rel0 fid0 (h0 & sz0 & Hhash0 & Hfound0).
      exists h0, sz0. split; [exact Hhash0|].
      destruct (string_dec rel0 rel) as [->|Hne].
      - rewrite Hhash in Hhash0. injection Hhash0 as <- <-.
        rewrite Hfound0 in Hfound. injection Hfound as <-.
        destruct Hnone as (? & Hbad & _). discriminate.
      - rewrite (upload_keeps_others _ _ _ _ _ _ _ rel0 h0 Hup Hne). exact Hfound0. }
    split; [exact Hwk'|]. split; [exact Hkeep|]. split; [exact Hmono|].
    eapply done_settled_step; eauto.
    intros _. exists fid. split; [|now right].
    exists h, sz. split; [exact Hhash|].
    eapply upload_then_match; eassumption.
Qed.

(** The file loop of the first run. *)
Lemma first_run_files model existing_files items :
  forall b metric_data (w : World R) b' metric_data' w' done,
    for_each (process_file env task model article_id existing_files false false)
      items (b, metric_data) w = (inr (b', metric_data'), w') ->
    well_keyed (YDict metric_data) = true ->
    done_settled done metric_data (remote w) ->
    NoDup (keys (done ++ items)%list) ->
    well_keyed (YDict metric_data') = true
    /\ keeps_matches (remote w) (remote w')
    /\ (forall x, In x (file_leaves file_type metric_data' "") ->
                  In x (file_leaves file_type metric_data ""))
    /\ done_settled (done ++ items) metric_data' (remote w').
Proof.
  induction items as [|[kp rel] items IH];
    intros b md w b' md' w' done H Hwk Hdone Hnd.
  - simpl in H. injection H as <- <- <-. rewrite app_nil_r.
    split; [exact Hwk|]. split; [apply keeps_matches_refl|]. now split.
  - apply for_each_cons_ok in H. destruct H as ([b1 md1] & w1 & Hx & Hrest).
    assert (Hfresh : ~ In kp (keys done)).
    { unfold keys in Hnd. rewrite map_app in Hnd. simpl in Hnd.
      apply NoDup_remove_2 in Hnd. intros Hin. apply Hnd. apply in_or_app. now left. }
    destruct (first_run_file _ _ _ _ _ _ _ _ _ _ done Hx Hwk Hdone Hfresh)
      as (Hwk1 & Hk1 & Hmono1 & Hdone1).
    replace (done ++ (kp, rel) :: items)%list
      with ((done ++ [(kp, rel)]) ++ items)%list in * by now rewrite <- app_assoc.
    destruct (IH _ _ _ _ _ _ _ Hrest Hwk1 Hdone1 Hnd) as (Hwk2 & Hk2 & Hmono2 & Hdone2).
    split; [exact Hwk2|]. split; [eapply keeps_matches_trans; eassumption|].
    split; [auto | exact Hdone2].
Qed.


Lemma settled_model_frame (w w' : World R) model :
  dict_get (yaml_path model) (yaml_files w') = dict_get (yaml_path model) (yaml_files w) ->
  keeps_matches (remote w) (remote w') ->
  settled_model w model -> settled_model w' model.
Proof.
  unfold settled_model. intros -> Hk.
  destruct (dict_get (yaml_path model) (yaml_files w)); [|trivial].
  intros (metrics & entry & Hm & He & Hs). exists metrics, entry.
  split; [exact Hm|]. split; [exact He|].
  intros md Hmd item Hin. eapply settled_keeps; [exact Hk | now apply Hs].
Qed.

Lemma settled_model_path (w : World R) model model' :
  yaml_path model' = yaml_path model -> settled_model w model -> settled_model w model'.
Proof. unfold settled_model. now intros ->. Qed.

Lemma tidy_model_frame docs docs' model :
  dict_get (yaml_path model) docs' = dict_get (yaml_path model) docs ->
  tidy_model docs model -> tidy_model docs' model.
Proof. unfold tidy_model, metric_data_of. now intros ->. Qed.

Lemma tidy_model_path docs model model' :
  yaml_path model' = yaml_path model -> tidy_model docs model -> tidy_model docs model'.
Proof. unfold tidy_model, metric_data_of. now intros ->. Qed.

(** The entry of the task after the changed metric data went back into the
    document. *)
Lemma with_metric_data_get model_data metrics metric_data metric_data' :
  yaml_get model_data "metrics" = inr metrics ->
  yaml_get metrics task = inr (YDict metric_data) ->
  (metric_data = [] -> metric_data' = []) ->
  exists metrics',
    yaml_get (with_metric_data model_data task metric_data') "metrics" = inr metrics'
    /\ yaml_get metrics' task = inr (YDict metric_data').
Proof.
  intros Hm He Hempty. unfold with_metric_data.
  destruct model_data as [x|s|l|top]; try discriminate. simpl in Hm.
  destruct (dict_get "metrics" top) as [m|] eqn:Etop.
  - injection Hm as ->. destruct metrics as [x|s|l|ms]; try discriminate.
    simpl in He. unfold dict_has. destruct (dict_get task ms) as [e|] eqn:Etask.
    + injection He as ->. eexists. split.
      * simpl. rewrite dict_get_set_eq. reflexivity.
      * simpl. now rewrite dict_get_set_eq.
    + injection He as <-. rewrite Hempty by reflexivity.
      exists (YDict ms). split; [simpl; now rewrite Etop|]. simpl. now rewrite Etask.
  - injection Hm as <-. simpl in He. injection He as <-.
    rewrite Hempty by reflexivity. exists (YDict []). split; [|reflexivity].
    simpl. now rewrite Etop.
Qed.

(** Putting back the metric data the document holds gives the document. *)
Lemma with_metric_data_same model_data metrics metric_data :
  yaml_get model_data "metrics" = inr metrics ->
  yaml_get metrics task = inr (YDict metric_data) ->
  with_metric_data model_data task metric_data = model_data.
Proof.
  intros Hm He. unfold with_metric_data.
  destruct model_data as [x|s|l|top]; try discriminate. simpl in Hm.
  destruct (dict_get "metrics" top) as [m|] eqn:Etop; [|reflexivity].
  injection Hm as ->. destruct metrics as [x|s|l|ms]; try discriminate.
  simpl in He. unfold dict_has. destruct (dict_get task ms) as [e|] eqn:Etask;
    [|reflexivity].
  injection He as ->. rewrite (dict_set_same task (YDict metric_data) ms Etask).
  now rewrite (dict_set_same "metrics" (YDict ms) top Etop).
Qed.

(** One turn of the model loop in the first run. *)
Lemma first_run_model existing_files b model (w : World R) b' w' :
  process_model env task article_id existing_files false file_type false b model w
  = (inr b', w') ->
  tidy_model (yaml_files w) model ->
  keeps_matches (remote w) (remote w')
  /\ settled_model w' model
  /\ tidy_model (yaml_files w') model.
Proof.
  intros H Htidy. apply process_model_ok in H.
  destruct H as [(Hnone & _ & ->)|(doc & metrics & entry & Hdoc & Hm & He & H)].
  - split; [apply keeps_matches_refl|]. split; [|exact Htidy].
    unfold settled_model. simpl. now rewrite Hnone.
  - destruct H as [(Hnd & _ & ->)|(md & md' & w1 & -> & Hloop & ->)].
    + split; [apply keeps_matches_refl|]. split; [|exact Htidy].
      unfold settled_model. rewrite Hdoc. exists metrics, entry.
      split; [exact Hm|]. split; [exact He|]. intros md' ->. now destruct (Hnd md').
    + assert (Hwk : well_keyed (YDict md) = true).
      { apply Htidy. unfold metric_data_of. now rewrite Hdoc, Hm, He. }
      destruct (process_files_yaml env _ _ _ _ _ _ _ _ _ _ Hloop) as [Hy _].
      rewrite (find_file_keys_leaves file_type md "" Hwk) in Hloop.
      pose proof (NoDup_file_leaves file_type (YDict md) Hwk "") as Hnd.
      destruct (first_run_files _ _ _ _ _ _ _ _ _ [] Hloop Hwk) as (Hwk' & Hk & Hmono & Hdone).
      { intros item []. }
      { exact Hnd. }
      assert (Hempty : md = [] -> md' = []).
      { intros ->. simpl in Hloop. now injection Hloop as _ <- _. }
      destruct (with_metric_data_get doc metrics md md' Hm He Hempty)
        as (metrics' & Hm' & He').
      split; [exact Hk|]. split.
      * unfold settled_model. simpl. rewrite dict_get_set_eq.
        exists metrics', (YDict md'). split; [exact Hm'|]. split; [exact He'|].
        intros md0 [= <-] item Hin.
        rewrite (find_file_keys_leaves file_type md' "" Hwk') in Hin.
        apply Hdone; [apply Hmono, Hin | exact Hin].
      * intros md0. unfold metric_data_of. simpl. rewrite dict_get_set_eq, Hm', He'.
        now intros [= <-].
Qed.

(** The model loop of the first run. *)
Lemma first_run_models existing_files models :
  forall b (w : World R) b' w',
    for_each (process_model env task article_id existing_files false file_type false)
      models b w = (inr b', w') ->
    (forall m, In m models -> tidy_model (yaml_files w) m) ->
    keeps_matches (remote w) (remote w')
    /\ (forall m, In m models -> settled_model w' m)
    /\ (forall m, settled_model w m -> settled_model w' m).
Proof.
  induction models as [|x models IH]; intros b w b' w' H Htidy.
  - simpl in H. injection H as <- <-.
    split; [apply keeps_matches_refl|]. split; [intros m []|auto].
  - apply for_each_cons_ok in H. destruct H as (b1 & w1 & Hx & Hrest).
    destruct (first_run_model _ _ _ _ _ _ Hx (Htidy x (or_introl eq_refl)))
      as (Hk1 & Hsx & Htx).
    assert (Hframe : forall m, yaml_path m <> yaml_path x ->
               dict_get (yaml_path m) (yaml_files w1) = dict_get (yaml_path m) (yaml_files w)).
    { intros m Hne. eapply process_model_frame; [exact Hx | congruence]. }
    assert (Hkeep1 : forall m, settled_model w m -> settled_model w1 m).
    { intros m Hs. destruct (string_dec (yaml_path m) (yaml_path x)) as [E|Hne].
      - now apply (settled_model_path w1 x m E).
      - apply (settled_model_frame w w1 m); auto. }
    destruct (IH _ _ _ _ Hrest) as (Hk2 & Hs2 & Hkeep2).
    { intros m Hin. destruct (string_dec (yaml_path m) (yaml_path x)) as [E|Hne].
      - now apply (tidy_model_path _ x m E).
      - apply (tidy_model_frame (yaml_files w)); [now apply Hframe|].
        apply Htidy. now right. }
    split; [eapply keeps_matches_trans; eassumption|]. split.
    + intros m [<-|Hin]; [now apply Hkeep2 | now apply Hs2].
    + intros m Hs. now apply Hkeep2, Hkeep1.
Qed.

(** *** The second run *)


Lemma only_skips_refl b : only_skips b b.
Proof. repeat split. apply incl_refl. Qed.

Lemma only_skips_trans b1 b2 b3 : only_skips b1 b2 -> only_skips b2 b3 -> only_skips b1 b3.
Proof.
  intros (Hu & Hn & Hs) (Hu' & Hn' & Hs').
  repeat split; try congruence. eapply incl_tran; eassumption.
Qed.

(** The hash check on a settled reference. *)
Lemma try_skip_settled key_path rel b metric_data (w : World R) file_hash size file_id :
  get_file_hash_and_size (ROOT env ++ "/" ++ rel) = inr (file_hash, size) ->
  file_exists_with_same_hash article_id rel file_hash (remote w)
  = inr (true, Some file_id) ->
  slot_ok metric_data key_path file_id ->
  try_skip article_id key_path (ROOT env ++ "/" ++ rel) rel b metric_data w
  = (inr (Some (record_skipped rel (download_url file_id) b, metric_data)),
     log_call (CallFileExists article_id rel file_hash) w).
Proof.
  intros Hhash Hfound Hslot. unfold try_skip, bind at 1, lift. rewrite Hhash.
  unfold ret at 1, bind at 1, query. cbn [fst]. rewrite Hfound.
  destruct (dict_has (key_path ++ "_url") metric_data) eqn:Etop; [reflexivity|].
  destruct Hslot as [Htop|Hget]; [congruence|].
  cbn [negb]. rewrite split_path_url.
  unfold bind, set_nested_dict. unfold slot_path in Hget.
  now rewrite (set_noop _ _ _ _ Hget).
Qed.

(** One turn of the file loop on a settled reference. *)
Lemma second_run_file model existing_files b metric_data key_path rel (w : World R) :
  settled metric_data (remote w) (key_path, rel) ->
  exists b' w',
    process_file env task model article_id existing_files false false
      (b, metric_data) (key_path, rel) w = (inr (b', metric_data), w')
    /\ remote w' = remote w /\ yaml_files w' = yaml_files w
    /\ only_skips b b'
    /\ (isfile env (ROOT env ++ "/" ++ rel) = true -> In rel (keys (skipped_files b'))).
Proof.
  intros Hs. unfold process_file. rewrite filename_of_rel.
  destruct (isfile env (ROOT env ++ "/" ++ rel)) eqn:Hfile; cbn [negb andb].
  - destruct (Hs Hfile) as (fid & (h & sz & Hhash & Hfound) & Hslot).
    unfold bind. rewrite (try_skip_settled _ _ _ _ _ _ _ _ Hhash Hfound Hslot).
    eexists. eexists. split; [reflexivity|]. split; [reflexivity|].
    split; [reflexivity|]. split.
    + repeat split. simpl. apply keys_set_incl.
    + intros _. simpl. apply keys_set_in.
  - eexists. eexists. split; [reflexivity|]. split; [reflexivity|].
    split; [reflexivity|]. split; [apply only_skips_refl | discriminate].
Qed.

Lemma second_run_files model existing_files metric_data items :
  forall b (w : World R),
    (forall item, In item items -> settled metric_data (remote w) item) ->
    exists b' w',
      for_each (process_file env task model article_id existing_files false false)
        items (b, metric_data) w = (inr (b', metric_data), w')
      /\ remote w' = remote w /\ yaml_files w' = yaml_files w
      /\ only_skips b b'
      /\ forall key_path rel,
           In (key_path, rel) items ->
           isfile env (ROOT env ++ "/" ++ rel) = true ->
           In rel (keys (skipped_files b')).
Proof.
  induction items as [|[kp rel] items IH]; intros b w Hs.
  - exists b, w. split; [reflexivity|]. repeat split; try apply incl_refl.
    intros ? ? [].
  - destruct (second_run_file model existing_files b metric_data kp rel w)
      as (b1 & w1 & Hx & Hr1 & Hy1 & Ho1 & Hin1); [apply Hs; now left|].
    destruct (IH b1 w1) as (b2 & w2 & Hrest & Hr2 & Hy2 & Ho2 & Hin2).
    { intros item Hin. rewrite Hr1. apply Hs. now right. }
    exists b2, w2. split; [cbn [for_each]; unfold bind; now rewrite Hx|].
    split; [congruence|]. split; [congruence|].
    split; [eapply only_skips_trans; eassumption|].
    intros kp0 rel0 [[= <- <-]|Hin] Hfile.
    + destruct Ho2 as (_ & _ & Hincl). now apply Hincl, Hin1.
    + now apply (Hin2 kp0).
Qed.

(** One turn of the model loop on a settled model. *)
Lemma second_run_model existing_files b model (w : World R) :
  settled_model w model ->
  exists b' w',
    process_model env task article_id existing_files false file_type false b model w
    = (inr b', w')
    /\ remote w' = remote w /\ yaml_files w' = yaml_files w
    /\ only_skips b b'
    /\ forall key_path rel,
         In (key_path, rel) (discovered task file_type (yaml_files w) model) ->
         isfile env (ROOT env ++ "/" ++ rel) = true ->
         In rel (keys (skipped_files b')).
Proof.
  unfold settled_model, process_model, discovered.
  unfold bind at 1, yaml_isfile, dict_has.
  destruct (dict_get (yaml_path model) (yaml_files w)) as [doc|] eqn:Hdoc; cbn [negb].
  - intros (metrics & entry & Hm & He & Hs).
    unfold bind at 1, load_yaml. rewrite Hdoc.
    unfold bind at 1, lift. rewrite Hm. unfold ret at 1.
    unfold bind at 1. rewrite He. unfold ret at 1.
    destruct entry as [x|s|l|md];
      try (exists b, w; split; [reflexivity|]; split; [reflexivity|];
           split; [reflexivity|]; split; [apply only_skips_refl | intros ? ? []]).
    destruct (second_run_files model existing_files md
                (find_file_keys file_type md "") b w (Hs md eq_refl))
      as (b' & w1 & Hloop & Hr & Hy & Ho & Hin).
    unfold bind. unfold Dict in *. rewrite Hloop. cbn [negb fst snd]. unfold dump_yaml, ret.
    eexists. eexists. split; [reflexivity|]. cbn [remote yaml_files].
    split; [exact Hr|]. split; [|split; [exact Ho | exact Hin]].
    rewrite (with_metric_data_same doc metrics md Hm He), Hy.
    now apply dict_set_same.
  - intros _. eexists. eexists. split; [reflexivity|]. split; [reflexivity|].
    split; [reflexivity|]. split; [apply only_skips_refl | intros ? ? []].
Qed.

Lemma settled_model_same (w w' : World R) model :
  remote w' = remote w -> yaml_files w' = yaml_files w ->
  settled_model w model -> settled_model w' model.
Proof. unfold settled_model. now intros -> ->. Qed.

Lemma second_run_models existing_files models :
  forall b (w : World R),
    (forall m, In m models -> settled_model w m) ->
    exists b' w',
      for_each (process_model env task article_id existing_files false file_type false)
        models b w = (inr b', w')
      /\ remote w' = remote w /\ yaml_files w' = yaml_files w
      /\ only_skips b b'
      /\ forall m key_path rel,
           In m models ->
           In (key_path, rel) (discovered task file_type (yaml_files w) m) ->
           isfile env (ROOT env ++ "/" ++ rel) = true ->
           In rel (keys (skipped_files b')).
Proof.
  induction models as [|x models IH]; intros b w Hs.
  - exists b, w. split; [reflexivity|]. repeat split; try apply incl_refl.
    intros ? ? ? [].
  - destruct (second_run_model existing_files b x w)
      as (b1 & w1 & Hx & Hr1 & Hy1 & Ho1 & Hin1); [apply Hs; now left|].
    destruct (IH b1 w1) as (b2 & w2 & Hrest & Hr2 & Hy2 & Ho2 & Hin2).
    { intros m Hin. apply (settled_model_same w w1); auto. apply Hs. now right. }
    exists b2, w2. split; [cbn [for_each]; unfold bind; now rewrite Hx|].
    split; [congruence|]. split; [congruence|].
    split; [eapply only_skips_trans; eassumption|].
    intros m kp rel [<-|Hin] Hd Hfile.
    + destruct Ho2 as (_ & _ & Hincl). eapply Hincl, Hin1; eassumption.
    + apply (Hin2 m kp rel Hin); [|exact Hfile]. now rewrite Hy1.
Qed.
End Settled.

Section SecondRun.
Context {R : Type} {F : Figshare R} (env : Env).

(** A run on a registered article that exists, from the listing on. *)
Lemma update_one_registered_run task models file_type article_id existing_files
  (w : World R) (Q : Buckets -> World R -> Prop) :
  dict_get ("model_preds_" ++ task) ARTICLE_IDS = Some (Some article_id) ->
  article_exists article_id (remote w) = inr true ->
  get_existing_files article_id (remote w) = inr existing_files ->
  (forall w1, remote w1 = remote w -> yaml_files w1 = yaml_files w ->
     exists b w2,
       for_each (process_model env task article_id existing_files false file_type false)
         models no_files w1 = (inr b, w2) /\ Q b w2) ->
  exists b w2 w',
    update_one_modeling_task_article env task models false file_type false w = (inr b, w')
    /\ Q b w2 /\ silent w2 w'.
Proof.
  intros Hid Hex Hlist Hloop. unfold update_one_modeling_task_article.
  unfold bind at 1. rewrite (resolve_registered env task false article_id w Hid Hex).
  unfold bind at 1. rewrite print_ok.
  unfold bind at 1, ret at 1. unfold bind at 1, query. cbn [remote printed log_call].
  rewrite Hlist. unfold bind at 1. rewrite print_ok. unfold bind at 1.
  match goal with
  | |- context [print_enumerated ?line 1 existing_files ?w0] =>
      destruct (print_enumerated_ok line existing_files 1 w0) as (we & He & Se)
  end.
  rewrite He.
  destruct Se as (Se1 & Se2 & _ & _). cbn [remote yaml_files printed log_call] in Se1, Se2.
  destruct (Hloop we Se1 Se2) as (b & w2 & Hrun & HQ).
  unfold bind at 1. rewrite Hrun.
  destruct (print_summary_ok b w2) as (wf & Hf & Sf).
  unfold bind at 1. rewrite Hf.
  exists b, w2, wf. split; [reflexivity|]. now split.
Qed.

(** C3, as amended: let the remote service replace files by article and
    name ([FigshareLaws]: after an upload of a file under a name, the
    question whether the article holds that name with the hash of the
    uploaded file is answered with yes and the id the upload returned, and
    the answers for every other name are what they were before the upload);
    let the article of the task be registered and exist, and let the metric
    data of every listed model have plain keys (not empty, without a dot,
    each once per mapping).  If a run outside dry-run mode and without
    force returns, and the article still exists and can be listed
    afterwards, then a second run with the same arguments returns as well;
    it uploads nothing (its dictionaries of updated and of new files are
    empty), every discovered reference whose file is on disk is in its
    dictionary of skipped files, and it leaves the remote service and the
    metadata files as the first run left them. *)
Theorem second_run_skips_everything (task : string) (models : list Model)
  (file_type : string) (article_id : Z) (existing_files : Dict FileData)
  (w : World R) (b1 : Buckets) (w1 : World R) :
  FigshareLaws F ->
  dict_get ("model_preds_" ++ task) ARTICLE_IDS = Some (Some article_id) ->
  article_exists article_id (remote w) = inr true ->
  (forall m metric_data,
      In m models -> metric_data_of task (yaml_files w) m = Some metric_data ->
      well_keyed (YDict metric_data) = true) ->
  update_one_modeling_task_article env task models false file_type false w
  = (inr b1, w1) ->
  article_exists article_id (remote w1) = inr true ->
  get_existing_files article_id (remote w1) = inr existing_files ->
  exists b2 w2,
    update_one_modeling_task_article env task models false file_type false w1
    = (inr b2, w2)
    /\ updated_files b2 = [] /\ new_files b2 = []
    /\ (forall m key_path rel,
           In m models ->
           In (key_path, rel) (discovered task file_type (yaml_files w1) m) ->
           isfile env (ROOT env ++ "/" ++ rel) = true ->
           In rel (keys (skipped_files b2)))
    /\ remote w2 = remote w1 /\ yaml_files w2 = yaml_files w1.
Proof.
  intros L Hid Hex Htidy Hrun1 Hex1 Hlist1.
  apply update_one_ok in Hrun1.
  destruct Hrun1 as (aid & w0 & listing0 & wa & wb & Hres & _ & _ & Hya & _ & _
                     & Hloop1 & Hsilent1).
  rewrite (resolve_registered env task false article_id w Hid Hex) in Hres.
  injection Hres as <- <-. cbn [yaml_files printed log_call] in Hya.
  destruct (first_run_models env article_id task file_type _ _ _ _ _ _ Hloop1)
    as (_ & Hsettled & _).
  { intros m Hin md. rewrite Hya. now apply Htidy. }
  destruct Hsilent1 as (Hr1 & Hy1 & _ & _).
  destruct (update_one_registered_run task models file_type article_id existing_files w1
              (fun b w2 =>
                 only_skips no_files b
                 /\ remote w2 = remote w1 /\ yaml_files w2 = yaml_files w1
                 /\ forall m key_path rel,
                      In m models ->
                      In (key_path, rel) (discovered task file_type (yaml_files w1) m) ->
                      isfile env (ROOT env ++ "/" ++ rel) = true ->
                      In rel (keys (skipped_files b)))
              Hid Hex1 Hlist1)
    as (b2 & w2 & w' & Hrun2 & (Ho & Hr2 & Hy2 & Hin2) & Hsilent2).
  { intros wc Hrc Hyc.
    destruct (second_run_models env article_id task file_type existing_files models
                no_files wc)
      as (b2 & w2 & Hloop2 & Hr2 & Hy2 & Ho & Hin2).
    { intros m Hin. apply (settled_model_same env article_id task file_type wb wc);
        [congruence | congruence | now apply Hsettled]. }
    exists b2, w2. split; [exact Hloop2|]. split; [exact Ho|].
    split; [congruence|]. split; [congruence|].
    intros m kp rel Hm Hd. apply (Hin2 m kp rel Hm). now rewrite Hyc. }
  destruct Ho as (Hu & Hn & _). destruct Hsilent2 as (Hr' & Hy' & _ & _).
  exists b2, w'. split; [exact Hrun2|]. split; [exact Hu|]. split; [exact Hn|].
  split; [exact Hin2|]. split; congruence.
Qed.
End SecondRun.

(** *** The reference model obeys the laws *)

Section ReferenceLaws.
Import Reference.
Variable disk : Dict (string * Z).
Variable article_ids : Dict (option Z).

Lemma find_put_article id files l : find_article id (put_article id files l) = Some files.
Proof.
  induction l as [|[id' files'] l IH]; simpl.
  - now rewrite Z.eqb_refl.
  - destruct (Z.eqb_spec id id') as [->|Hne]; simpl.
    + now rewrite Z.eqb_refl.
    + destruct (Z.eqb_spec id id'); [contradiction | exact IH].
Qed.

Lemma reference_laws : FigshareLaws (figshare disk article_ids).
Proof.
  split.
  - intros aid path name force r fid up r' h sz. simpl.
    unfold ref_upload_file_if_needed, ref_get_file_hash_and_size,
      ref_file_exists_with_same_hash.
    destruct (online r) eqn:Eon; [|discriminate].
    destruct (find_article aid (articles r)) as [files|] eqn:Ea; [|discriminate].
    destruct (dict_get path disk) as [[h0 sz0]|]; [|discriminate].
    intros Hup [= <- <-].
    destruct (dict_get name files) as [f|] eqn:Ef.
    + destruct (negb force && String.eqb (rf_hash f) h0) eqn:Esame.
      * injection Hup as <- <- <-. rewrite Eon, Ea, Ef.
        apply andb_true_iff in Esame. destruct Esame as [_ Esame]. now rewrite Esame.
      * injection Hup as <- <- <-. simpl.
        now rewrite find_put_article, dict_get_set_eq, String.eqb_refl.
    + injection Hup as <- <- <-. simpl.
      now rewrite find_put_article, dict_get_set_eq, String.eqb_refl.
  - intros aid path name force r res r' other h. simpl.
    unfold ref_upload_file_if_needed, ref_file_exists_with_same_hash.
    destruct (online r) eqn:Eon; [|discriminate].
    destruct (find_article aid (articles r)) as [files|] eqn:Ea; [|discriminate].
    destruct (dict_get path disk) as [[h0 sz0]|]; [|discriminate].
    intros Hup Hne.
    assert (Hcase : r' = r
                    \/ exists f0,
                         r' = {| online := true;
                                 articles := put_article aid (dict_set name f0 files)
                                               (articles r);
                                 next_id := next_id r + 1 |}).
    { destruct (dict_get name files) as [f|];
        [destruct (negb force && String.eqb (rf_hash f) h0)|];
        injection Hup as _ <-; [now left | right; eexists; reflexivity..]. }
    destruct Hcase as [->|[f0 ->]]; [now rewrite Eon, Ea|].
    simpl. rewrite find_put_article.
    now rewrite dict_get_set_neq by exact Hne.
Qed.
End ReferenceLaws.

Section SecondRunExamples.
Import Reference Scenario.

Lemma second_run_skips_everything_witness :
  exists b1 w1 b2 w2,
    run "discovery" [m1] false "all" false remote_empty docs_energy = (inr b1, w1)
    /\ @update_one_modeling_task_article Remote fs ev "discovery" [m1] false "all" false w1
       = (inr b2, w2)
    /\ updated_files b2 = [] /\ new_files b2 = []
    /\ In "a/b.csv" (keys (skipped_files b2))
    /\ remote w2 = remote w1 /\ yaml_files w2 = yaml_files w1.
Proof.
  assert (Htidy : forall m metric_data,
             In m [m1] ->
             metric_data_of "discovery" (yaml_files (world remote_empty docs_energy)) m
             = Some metric_data ->
             well_keyed (YDict metric_data) = true).
  { intros m md [<-|[]] H. vm_compute in H. injection H as <-. reflexivity. }
  destruct (@second_run_skips_everything Remote fs ev
              "discovery" [m1] "all" 7%Z
              [("a/b.csv", {| fd_id := Some 100%Z |}); ("a/c.csv", {| fd_id := Some 101%Z |})]
              (world remote_empty docs_energy)
              {| skipped_files := []; updated_files := [];
                 new_files := [("a/b.csv", "https://figshare.com/files/100");
                               ("a/c.csv", "https://figshare.com/files/101")] |}
              (snd (run "discovery" [m1] false "all" false remote_empty docs_energy))
              (reference_laws disk article_ids) eq_refl eq_refl Htidy
              ltac:(vm_compute; reflexivity)
              ltac:(vm_compute; reflexivity)
              ltac:(vm_compute; reflexivity))
    as (b2 & w2 & Hrun2 & Hu & Hn & Hin & Hr & Hy).
  eexists. eexists. exists b2, w2.
  split; [vm_compute; reflexivity|]. split; [exact Hrun2|].
  split; [exact Hu|]. split; [exact Hn|]. split; [|split; [exact Hr | exact Hy]].
  apply (Hin m1 "energy_pred_file" "a/b.csv"); [now left | | reflexivity].
  vm_compute. now left.
Defined.

(** C3 as stated fails: the article of task [geo_opt] is not registered.
    Each run creates an article of its own and uploads the file to it: in
    the second run the file is new, not skipped, the remote service has one
    more article and the locator in the metadata has changed. *)
Lemma second_run_creates_article_again :
  let docs := [("models/m1.yml", doc_with "geo_opt" tree_pred_only)] in
  let first := run "geo_opt" [m1] false "all" false remote_blank docs in
  let second := again first "geo_opt" [m1] in
  fst first = inr {| skipped_files := []; updated_files := [];
                     new_files := [("a/b.csv", "https://figshare.com/files/101")] |}
  /\ fst second = inr {| skipped_files := []; updated_files := [];
                         new_files := [("a/b.csv", "https://figshare.com/files/103")] |}
  /\ remote (snd second) <> remote (snd first)
  /\ yaml_files (snd second) <> yaml_files (snd first).
Proof. vm_compute. repeat split; discriminate. Qed.

(** With a dot in a key a second run can even fail: the locator of
    [p_file] replaces the mapping that the locator slot of the dotted key
    is looked for in. *)
Example second_run_fails_on_dotted_key :
  let docs := [("models/m1.yml", doc_with "discovery" tree_dotted)] in
  let first := run "discovery" [m1] false "all" false remote_empty docs in
  let second := again first "discovery" [m1] in
  (exists b1, fst first = inr b1) /\ fst second = inl TypeError.
Proof. vm_compute. split; [eexists|]; reflexivity. Qed.
End SecondRunExamples.

(** ** Further properties of the walker *)

Section WalkerLeaves.
Import PyStr PyStrFacts.
#[local] Arguments find_file_keys_val : simpl never.
#[local] Arguments find_file_keys : simpl never.

Lemma keys_update_l {V} (o : Dict V) :
  forall d k, In k (keys d) -> In k (keys (dict_update d o)).
Proof.
  unfold dict_update. induction o as [|[k' v'] o IH]; intros d k Hk; simpl; [exact Hk|].
  apply IH. now apply keys_set_incl.
Qed.

Lemma keys_update_r {V} (o : Dict V) :
  forall d k, In k (keys o) -> In k (keys (dict_update d o)).
Proof.
  unfold dict_update. induction o as [|[k' v'] o IH]; intros d k Hk; simpl in *;
    [contradiction|].
  destruct Hk as [<-|Hk].
  - apply (keys_update_l o). apply keys_set_in.
  - now apply IH.
Qed.

Lemma step_keeps_keys ft prefix result item k :
  In k (keys result) -> In k (keys (find_file_keys_step ft prefix result item)).
Proof.
  intros Hk. unfold find_file_keys_step. destruct (snd item); try exact Hk.
  - destruct (_ && _); [now apply keys_set_incl | exact Hk].
  - now apply keys_update_l.
Qed.

Lemma loop_keeps_keys ft prefix l :
  forall result k, In k (keys result) ->
                   In k (keys (find_file_keys_loop ft prefix l result)).
Proof.
  unfold find_file_keys_loop.
  induction l as [|item l IH]; intros result k Hk; simpl; [exact Hk|].
  apply IH. now apply step_keeps_keys.
Qed.

(** The key-path of a leaf the walk keeps is a key of the result. *)
Lemma file_leaf_found ft data prefix key_path key v :
  leaf_at data prefix key_path key v ->
  forall s, v = YStr s -> endswith key "_file" = true ->
            should_process_file key ft = true ->
            In key_path (keys (find_file_keys ft data prefix)).
Proof.
  induction 1 as [data prefix key v Hin _|data prefix key sub key_path key' v Hin _ IH];
    intros s -> Hfile Hft; rewrite find_file_keys_unfold.
  - apply in_split in Hin. destruct Hin as (l1 & l2 & ->).
    unfold find_file_keys_loop. rewrite fold_left_app. simpl.
    apply (loop_keeps_keys ft prefix l2).
    unfold find_file_keys_step at 1. simpl. rewrite Hfile, Hft. simpl.
    apply keys_set_in.
  - apply in_split in Hin. destruct Hin as (l1 & l2 & ->).
    unfold find_file_keys_loop. rewrite fold_left_app. simpl.
    apply (loop_keeps_keys ft prefix l2).
    unfold find_file_keys_step at 1. simpl.
    apply keys_update_r. now apply (IH s).
Qed.

(** Every entry of the result is a leaf the walk keeps. *)
Lemma found_is_file_leaf ft (data : Yaml) :
  forall prefix d key_path s,
    data = YDict d ->
    In (key_path, s) (find_file_keys ft d prefix) ->
    file_leaf ft d prefix key_path s.
Proof.
  induction data as [x|s0|l|d0 IH] using Yaml_dict_ind; intros prefix d key_path s Hd;
    try discriminate Hd.
  injection Hd as <-. rewrite find_file_keys_unfold. unfold find_file_keys_loop.
  assert (Hgen : forall done todo result,
             d0 = (done ++ todo)%list ->
             Forall (fun kv => forall prefix d key_path s,
                        snd kv = YDict d ->
                        In (key_path, s) (find_file_keys ft d prefix) ->
                        file_leaf ft d prefix key_path s) todo ->
             (In (key_path, s) result -> file_leaf ft d0 prefix key_path s) ->
             In (key_path, s) (fold_left (find_file_keys_step ft prefix) todo result) ->
             file_leaf ft d0 prefix key_path s).
  { intros done todo. revert done.
    induction todo as [|[key v] todo IHt]; intros done result Hsplit Hall Hres Hin;
      simpl in Hin; [now apply Hres|].
    inversion Hall as [|? ? Hv Hall']; subst.
    apply (IHt (done ++ [(key, v)])%list _ ) in Hin; trivial.
    - now rewrite <- app_assoc.
    - clear Hin. intros Hin. unfold find_file_keys_step in Hin. simpl in Hin.
      assert (Hmem : In (key, v) (done ++ (key, v) :: todo))
        by (apply in_or_app; right; now left).
      destruct v as [x|s1|l|sub]; try now apply Hres.
      + destruct (endswith key "_file") eqn:Efile; simpl in Hin; [|now apply Hres].
        destruct (should_process_file key ft) eqn:Eft; [|now apply Hres].
        apply In_dict_set in Hin. destruct Hin as [Heq|Hin]; [|now apply Hres].
        injection Heq as -> ->. exists key. repeat split; trivial.
        apply leaf_here; [exact Hmem | discriminate].
      + apply In_dict_update in Hin. destruct Hin as [Hin|Hin]; [|now apply Hres].
        destruct (Hv (full_key_of prefix key) sub key_path s eq_refl Hin)
          as (key' & Hleaf & Hfile & Hft).
        exists key'. repeat split; trivial.
        eapply leaf_below; eassumption. }
  apply (Hgen [] d0 []); trivial.
  intros [].
Qed.

(** X1: the walk returns file references and misses none.  Every entry of
    the result of [find_file_keys] is a string found in the tree under a
    key that ends in [_file] and passes the filter, stored under the
    dotted path of that key; and the dotted path of every such string is
    a key of the result. *)
Theorem walk_finds_file_leaves (file_type : string) (tree : Dict Yaml) :
  (forall key_path s,
      In (key_path, s) (find_file_keys file_type tree "") ->
      file_leaf file_type tree "" key_path s)
  /\ (forall key_path s,
         file_leaf file_type tree "" key_path s ->
         In key_path (keys (find_file_keys file_type tree ""))).
Proof.
  split.
  - intros key_path s Hin. now apply (found_is_file_leaf file_type (YDict tree)).
  - intros key_path s (key & Hleaf & Hfile & Hft).
    now apply (file_leaf_found file_type tree "" key_path key (YStr s) Hleaf s).
Qed.
End WalkerLeaves.

Section WalkerLeavesExample.
Import PyStr Scenario.

Lemma walk_finds_file_leaves_witness :
  In "full_test_set.pred_file" (keys (find_file_keys "all" tree_nested_url "")).
Proof.
  apply (proj2 (walk_finds_file_leaves "all" tree_nested_url)
           "full_test_set.pred_file" "a/b.csv").
  exists "pred_file". split; [|split; reflexivity].
  eapply leaf_below; [left; reflexivity|].
  apply (leaf_here _ "full_test_set" "pred_file"); [left; reflexivity | discriminate].
Defined.
End WalkerLeavesExample.

Section WalkerPaths.
Import PyStr PyStrFacts.
#[local] Arguments find_file_keys_val : simpl never.
#[local] Arguments find_file_keys : simpl never.
#[local] Arguments split_path : simpl never.

(** In a tree with plain keys a leaf is read along the segments of its
    dotted path, and the last segment is its key. *)
Lemma leaf_is_path data prefix key_path key v :
  leaf_at data prefix key_path key v ->
  well_keyed (YDict data) = true ->
  exists path,
    get_nested (YDict data) path = Some v
    /\ split dot key_path = (prefix_segments prefix ++ path)%list
    /\ path <> [] /\ List.last path "" = key.
Proof.
  induction 1 as [data prefix key v Hin _|data prefix key sub key_path key' v Hin _ IH];
    intros Hwk; apply well_keyed_dict in Hwk; destruct Hwk as [Hnd Hall];
    destruct (Hall _ _ Hin) as [Hkey Hsub].
  - exists [key]. simpl. rewrite (dict_get_unique _ _ _ Hnd Hin).
    repeat split; [now apply split_full_key | discriminate].
  - destruct (IH Hsub) as (path & Hget & Hsplit & Hne & Hlast).
    exists (key :: path). simpl get_nested. rewrite (dict_get_unique _ _ _ Hnd Hin).
    repeat split; [exact Hget | | discriminate |].
    + rewrite Hsplit, prefix_segments_full_key by exact Hkey. now rewrite <- app_assoc.
    + destruct path; [contradiction | exact Hlast].
Qed.

(** Conversely a value read along a path is the leaf with that dotted
    path. *)
Lemma path_is_leaf (path : list string) :
  forall data prefix v,
    well_keyed (YDict data) = true -> path <> [] ->
    get_nested (YDict data) path = Some v -> (forall sub, v <> YDict sub) ->
    exists key_path,
      leaf_at data prefix key_path (List.last path "") v
      /\ split dot key_path = (prefix_segments prefix ++ path)%list.
Proof.
  induction path as [|k rest IH]; intros data prefix v Hwk Hne Hget Hleaf;
    [contradiction|].
  apply well_keyed_dict in Hwk. destruct Hwk as [Hnd Hall].
  simpl in Hget. destruct (dict_get k data) as [child|] eqn:Ek; [|discriminate].
  apply dict_get_In in Ek. destruct (Hall _ _ Ek) as [Hkey Hchild].
  destruct rest as [|k' rest].
  - injection Hget as ->. exists (full_key_of prefix k). split.
    + now apply leaf_here.
    + now apply split_full_key.
  - destruct child as [x|s|l|sub]; try discriminate Hget.
    destruct (IH sub (full_key_of prefix k) v Hchild ltac:(discriminate) Hget Hleaf)
      as (key_path & Hl & Hsplit).
    exists key_path. split.
    + eapply leaf_below; eassumption.
    + rewrite Hsplit, prefix_segments_full_key by exact Hkey. now rewrite <- app_assoc.
Qed.

Lemma last_segment key_path : snd (split_path key_path) = List.last (split dot key_path) "".
Proof. reflexivity. Qed.

(** A reference of the result is read along the segments of its
    key-path. *)
Lemma reference_read_along_key_path (file_type : string) (tree : Dict Yaml)
  (key_path rel : string) :
  well_keyed (YDict tree) = true ->
  In (key_path, rel) (find_file_keys file_type tree "") ->
  get_nested (YDict tree) (split dot key_path) = Some (YStr rel).
Proof.
  intros Hwk Hin.
  apply (found_is_file_leaf file_type (YDict tree) "" tree _ _ eq_refl) in Hin.
  destruct Hin as (key & Hleaf & _ & _).
  destruct (leaf_is_path _ _ _ _ _ Hleaf Hwk) as (path & Hget & Hsplit & _ & _).
  simpl in Hsplit. now rewrite Hsplit.
Qed.

(** X2: in a tree with plain keys (no key empty or with a dot, none twice
    in a mapping) the key-paths of [find_file_keys] are exact: an entry
    [(key_path, rel)] is in the result exactly when splitting [key_path]
    at its dots, as lines 202 and 226 do, leads from the top of the tree
    to the string [rel] and the last segment ends in [_file] and passes
    the filter. *)
Theorem key_path_is_path_to_file (file_type : string) (tree : Dict Yaml)
  (key_path rel : string) :
  well_keyed (YDict tree) = true ->
  (In (key_path, rel) (find_file_keys file_type tree "")
   <-> get_nested (YDict tree) (split dot key_path) = Some (YStr rel)
       /\ endswith (snd (split_path key_path)) "_file" = true
       /\ should_process_file (snd (split_path key_path)) file_type = true).
Proof.
  intros Hwk.
  assert (Hto : forall rel',
             In (key_path, rel') (find_file_keys file_type tree "") ->
             get_nested (YDict tree) (split dot key_path) = Some (YStr rel')
             /\ endswith (snd (split_path key_path)) "_file" = true
             /\ should_process_file (snd (split_path key_path)) file_type = true).
  { intros rel' Hin.
    apply (found_is_file_leaf file_type (YDict tree) "" tree _ _ eq_refl) in Hin.
    destruct Hin as (key & Hleaf & Hfile & Hft).
    destruct (leaf_is_path _ _ _ _ _ Hleaf Hwk) as (path & Hget & Hsplit & _ & Hlast).
    simpl in Hsplit. rewrite last_segment, Hsplit, Hlast. now repeat split. }
  split; [apply Hto|].
  intros (Hget & Hfile & Hft).
  destruct (path_is_leaf (split dot key_path) tree "" (YStr rel) Hwk
              (split_nonempty _ _) Hget ltac:(discriminate)) as (kp & Hleaf & Hsplit).
  simpl in Hsplit. apply split_inj in Hsplit. subst kp.
  rewrite <- last_segment in Hleaf.
  assert (Hkey : In key_path (keys (find_file_keys file_type tree ""))).
  { eapply file_leaf_found; eauto. }
  unfold keys in Hkey. apply in_map_iff in Hkey. destruct Hkey as ([kp rel'] & Hkp & Hin).
  simpl in Hkp. subst kp.
  destruct (Hto rel' Hin) as (Hget' & _). rewrite Hget in Hget'.
  injection Hget' as <-. exact Hin.
Qed.
End WalkerPaths.

Section WalkerPathsExample.
Import PyStr Scenario.

Lemma key_path_is_path_to_file_witness :
  In ("full_test_set.pred_file", "a/b.csv") (find_file_keys "pred" tree_nested_url "").
Proof.
  apply (key_path_is_path_to_file "pred" tree_nested_url "full_test_set.pred_file" "a/b.csv").
  - reflexivity.
  - repeat split.
Defined.
End WalkerPathsExample.

Section WalkerFilters.
Import PyStr PyStrFacts.
#[local] Arguments Ascii.eqb : simpl never.
#[local] Arguments find_file_keys_val : simpl never.
#[local] Arguments find_file_keys : simpl never.

(** A filter other than [all] keeps the keys with its suffix. *)
Lemma should_process_suffix key ft :
  String.eqb ft "all" = false ->
  should_process_file key ft = endswith key (ft ++ "_file").
Proof. intros H. unfold should_process_file. now rewrite H. Qed.

(** The result for a filter other than [all] is the result for [all] cut
    down to the key-paths with the filter's suffix. *)
Lemma restricts_filter_all_val ft (data : Yaml) :
  String.eqb ft "all" = false ->
  ~ In dot (chars (ft ++ "_file")) ->
  forall prefix,
    restricts (fun k => endswith k (ft ++ "_file"))
      (find_file_keys_val ft data prefix) (find_file_keys_val "all" data prefix).
Proof.
  intros Hft Hdot.
  induction data as [x|s|l|d IH] using Yaml_dict_ind; intros prefix;
    try (intros k; rewrite !find_file_keys_val_leaf by discriminate; simpl;
         now destruct (endswith k _)).
  change (restricts (fun k => endswith k (ft ++ "_file"))
            (find_file_keys ft d prefix) (find_file_keys "all" d prefix)).
  rewrite !find_file_keys_unfold. unfold find_file_keys_loop.
  assert (Hnil : restricts (fun k => endswith k (ft ++ "_file")) [] []).
  { intros k. simpl. now destruct (endswith k _). }
  revert Hnil. generalize (@nil (string * string)) at 1 3 as small.
  generalize (@nil (string * string)) as big.
  induction IH as [|[key v] d Hv _ IHd]; intros big small Hres; simpl; [exact Hres|].
  apply IHd. unfold find_file_keys_step; simpl.
  destruct v as [x|s|l|sub]; try exact Hres.
  - rewrite should_process_all, (should_process_suffix key ft Hft), andb_true_r.
    destruct (endswith key "_file") eqn:Efile; simpl; [|exact Hres].
    intros k. rewrite dict_get_set.
    destruct (endswith key (ft ++ "_file")) eqn:Esuf.
    + rewrite dict_get_set. destruct (String.eqb_spec k (full_key_of prefix key)) as [->|Hne].
      * now rewrite endswith_full_key, Esuf by exact Hdot.
      * apply Hres.
    + destruct (String.eqb_spec k (full_key_of prefix key)) as [->|Hne].
      * rewrite Hres, endswith_full_key, Esuf by exact Hdot. reflexivity.
      * apply Hres.
  - intros k.
    rewrite !dict_get_update by apply NoDup_find_file_keys.
    simpl in Hv. specialize (Hv (full_key_of prefix key) k).
    change (find_file_keys_val ft (YDict sub)) with (find_file_keys ft sub) in Hv.
    change (find_file_keys_val "all" (YDict sub)) with (find_file_keys "all" sub) in Hv.
    rewrite Hv, (Hres k).
    destruct (endswith k _); reflexivity.
Qed.

Lemma no_dot_in_analysis_file : ~ In dot (chars "analysis_file").
Proof. simpl. intros H. repeat (destruct H as [H|H]; [discriminate H|]). exact H. Qed.

(** No string ends in both suffixes. *)
Lemma pred_file_is_no_analysis_file k :
  endswith k "pred_file" = true -> endswith k "analysis_file" = false.
Proof.
  unfold endswith. generalize (rev (chars k)) as l. intros l.
  change (rev (chars "pred_file")) with (list_ascii_of_string "elif_derp").
  change (rev (chars "analysis_file")) with (list_ascii_of_string "elif_sisylana").
  do 6 (destruct l as [|? l]; [simpl; rewrite ?andb_false_r; discriminate|]).
  simpl. intros H.
  repeat (apply andb_true_iff in H; destruct H as [?H H]).
  repeat match goal with
         | E : Ascii.eqb _ _ = true |- _ => apply Ascii.eqb_eq in E; subst
         end.
  reflexivity.
Qed.

(** X3: the two selective filters of the command line.  For every tree the
    result of [find_file_keys] under [analysis] (under [pred]) is the
    result under [all] cut down to the key-paths that end in
    [analysis_file] (in [pred_file]), with the same values; and no
    key-path is selected by both filters. *)
Theorem selective_filters_cut_all (tree : Dict Yaml) (key_path : string) :
  dict_get key_path (find_file_keys "analysis" tree "")
  = (if endswith key_path "analysis_file"
     then dict_get key_path (find_file_keys "all" tree "") else None)
  /\ dict_get key_path (find_file_keys "pred" tree "")
     = (if endswith key_path "pred_file"
        then dict_get key_path (find_file_keys "all" tree "") else None)
  /\ ~ (In key_path (keys (find_file_keys "pred" tree ""))
        /\ In key_path (keys (find_file_keys "analysis" tree ""))).
Proof.
  pose proof (restricts_filter_all_val "analysis" (YDict tree) eq_refl
                no_dot_in_analysis_file "" key_path) as Ha.
  pose proof (restricts_filter_all_val "pred" (YDict tree) eq_refl
                no_dot_in_pred_file "" key_path) as Hp.
  simpl in Ha, Hp.
  change (find_file_keys_val ?ft (YDict tree)) with (find_file_keys ft tree) in Ha, Hp.
  split; [exact Ha|]. split; [exact Hp|].
  intros [Hin_p Hin_a].
  apply dict_has_In in Hin_p. apply dict_has_In in Hin_a.
  unfold dict_has in Hin_p, Hin_a. rewrite Hp in Hin_p. rewrite Ha in Hin_a.
  destruct (endswith key_path "pred_file") eqn:Ep; [|discriminate].
  now rewrite (pred_file_is_no_analysis_file _ Ep) in Hin_a.
Qed.
End WalkerFilters.

(** ** The calls a run makes *)

Section CallsAll.
Context {R : Type} {F : Figshare R} (env : Env).
Variable P : ApiCall -> Prop.
#[local] Abbreviation calls_all := (@calls_all R).

Lemma calls_all_same (w w' : World R) : api_calls w' = api_calls w -> calls_all P w w'.
Proof. intros H. exists []. rewrite H, app_nil_r. now split. Qed.

Lemma calls_all_refl (w : World R) : calls_all P w w.
Proof. now apply calls_all_same. Qed.

Lemma calls_all_trans (w1 w2 w3 : World R) :
  calls_all P w1 w2 -> calls_all P w2 w3 -> calls_all P w1 w3.
Proof.
  intros (c & Hc & Hp) (c' & Hc' & Hp'). exists (c ++ c')%list. split.
  - now rewrite Hc', Hc, app_assoc.
  - apply Forall_app. now split.
Qed.

Lemma calls_all_print m : preserves (calls_all P) (print m).
Proof. intros w. now apply calls_all_same. Qed.

Lemma calls_all_dump_yaml path doc : preserves (calls_all P) (dump_yaml path doc).
Proof. intros w. now apply calls_all_same. Qed.

Lemma calls_all_query {A} c (q : R -> PyErr + A) :
  P c -> preserves (calls_all P) (query c q).
Proof. intros Hc w. exists [c]. split; [reflexivity|]. now constructor. Qed.

Lemma calls_all_command {A} c (f : R -> (PyErr + A) * R) :
  P c -> preserves (calls_all P) (command c f).
Proof.
  intros Hc w. unfold command. destruct (f (remote w)) as [res r'].
  exists [c]. split; [reflexivity|]. now constructor.
Qed.

Lemma calls_all_print_enumerated {V} (line : nat -> string -> V -> Msg) d :
  forall idx, preserves (calls_all P) (print_enumerated line idx d).
Proof.
  induction d as [|[k v] d IH]; intros idx; simpl.
  - apply (preserves_ret _ calls_all_refl).
  - apply (preserves_bind _ calls_all_trans); [apply calls_all_print | intros _; apply IH].
Qed.

Lemma calls_all_print_summary b : preserves (calls_all P) (print_summary b).
Proof.
  unfold print_summary.
  repeat first
    [ preserves_step calls_all_refl calls_all_trans
    | apply calls_all_print
    | apply calls_all_print_enumerated ].
Qed.
End CallsAll.

Lemma calls_all_impl {R : Type} (P Q : ApiCall -> Prop) (w w' : World R) :
  (forall c, P c -> Q c) -> calls_all P w w' -> calls_all Q w w'.
Proof.
  intros H (c & Hc & Hp). exists c. split; [exact Hc|].
  eapply Forall_impl; [|exact Hp]. exact H.
Qed.

Ltac calls_tac_for R P :=
  repeat first
    [ preserves_step (@calls_all_refl R P) (@calls_all_trans R P)
    | apply calls_all_print
    | apply calls_all_dump_yaml
    | apply calls_all_print_enumerated
    | apply calls_all_print_summary ].

Lemma bind_lift_inr {R A B} (a : A) (k : A -> M R B) : bind (lift (inr a)) k = k a.
Proof. reflexivity. Qed.

Lemma bind_lift_inl {R A B} (e : PyErr) (k : A -> M R B) : bind (lift (inl e)) k = raise e.
Proof. reflexivity. Qed.

Section FileCalls.
Context {R : Type} {F : Figshare R} (env : Env).
Variables (task : string) (article_id : Z) (existing_files : Dict FileData).
Variables (dry_run : bool) (file_type : string) (force_reupload : bool).
#[local] Abbreviation file_calls := (@calls_all R (file_call env article_id force_reupload)).
Ltac calls_tac := calls_tac_for R (file_call env article_id force_reupload).

Lemma process_file_calls model st item :
  preserves file_calls
    (process_file env task model article_id existing_files dry_run force_reupload st item).
Proof.
  unfold process_file. destruct st as [b metric_data], item as [key_path rel].
  destruct (isfile env (ROOT env ++ "/" ++ rel)) eqn:Efile; simpl negb; cbv iota;
    [|calls_tac].
  rewrite (filename_of_rel env rel).
  apply (preserves_bind _ (calls_all_trans _)).
  - destruct (negb force_reupload && negb dry_run); [|calls_tac].
    unfold try_skip.
    destruct (get_file_hash_and_size (ROOT env ++ "/" ++ rel)) as [e|[file_hash size]] eqn:Eh;
      [rewrite bind_lift_inl; calls_tac|].
    rewrite bind_lift_inr. simpl fst.
    apply (preserves_bind _ (calls_all_trans _)).
    + apply calls_all_query. simpl. repeat split; trivial. now exists size.
    + calls_tac.
  - intros [st'|]; [calls_tac|].
    destruct (negb dry_run); [|calls_tac].
    unfold upload.
    apply (preserves_bind _ (calls_all_trans _)).
    + apply calls_all_command. simpl. now repeat split.
    + calls_tac.
Qed.

Lemma process_model_calls b model :
  preserves file_calls
    (process_model env task article_id existing_files dry_run file_type force_reupload
       b model).
Proof.
  unfold process_model. calls_tac. apply process_file_calls.
Qed.

End FileCalls.

Section BindFacts.
Context {R : Type}.

Lemma bind_inr {A B} (m : M R A) (k : A -> M R B) w a w1 :
  m w = (inr a, w1) -> bind m k w = k a w1.
Proof. intros H. unfold bind. now rewrite H. Qed.

Lemma bind_inl {A B} (m : M R A) (k : A -> M R B) w e w1 :
  m w = (inl e, w1) -> bind m k w = (inl e, w1).
Proof. intros H. unfold bind. now rewrite H. Qed.

Lemma preserves_impl {A} (rel rel' : World R -> World R -> Prop) (m : M R A) :
  (forall w w', rel w w' -> rel' w w') -> preserves rel m -> preserves rel' m.
Proof. intros H Hm w. apply H, Hm. Qed.
End BindFacts.

Section CallsOfRun.
Context {R : Type} {F : Figshare R} (env : Env).
#[local] Abbreviation calls_all := (@calls_all R).

Lemma file_call_local article_id force_reupload c :
  file_call env article_id force_reupload c -> local_call env force_reupload c.
Proof. destruct c; simpl; trivial; intros H; now exists article_id. Qed.

Lemma file_call_about article_id force_reupload c :
  file_call env article_id force_reupload c -> about_article article_id c.
Proof. destruct c; simpl; tauto. Qed.

(** What follows the resolution of the article in a run. *)
Lemma rest_of_run_calls (P : ApiCall -> Prop) task models (dry_run : bool) file_type
  force_reupload article_id (k : Buckets -> M R Buckets) :
  (forall c, file_call env article_id force_reupload c -> P c) ->
  P (CallGetExistingFiles article_id) ->
  (forall b, preserves (calls_all P) (k b)) ->
  preserves (calls_all P)
    (print (MNowUpdating (ARTICLE_URL_PREFIX ++ "/" ++ PyStr.of_Z article_id)) ;;
     (if dry_run then print MDryRun else ret tt) ;;
     existing_files <- query (CallGetExistingFiles article_id)
                         (get_existing_files article_id) ;;
     print (MFoundExisting (length existing_files)) ;;
     print_enumerated (fun idx file_name file_data =>
                         MExistingFile idx file_name (fd_id file_data))
       1 existing_files ;;
     b <- for_each
            (process_model env task article_id existing_files dry_run file_type
               force_reupload) models no_files ;;
     k b).
Proof.
  intros Hfile Hlist Hk.
  calls_tac_for R P; try (apply calls_all_query; exact Hlist); try apply Hk.
  eapply preserves_impl; [|apply process_model_calls].
  intros w1 w2. apply calls_all_impl. exact Hfile.
Qed.

Lemma resolve_article_calls (P : ApiCall -> Prop) task dry_run :
  (forall id, P (CallArticleExists id)) ->
  (forall metadata, P (CallCreateArticle metadata)) ->
  preserves (calls_all P) (resolve_article env task dry_run).
Proof.
  intros Hex Hcr. unfold resolve_article.
  calls_tac_for R P;
    first [apply calls_all_query; apply Hex | apply calls_all_command; apply Hcr].
Qed.

(** X4: every remote call of a run concerns a local file.  Whatever the
    arguments and the state, and whether the run returns or raises: a
    hash check is made for a file that exists under [ROOT], under its
    path relative to [ROOT] and with the hash of that local file; an
    upload is made for a file that exists under [ROOT], with the path
    relative to [ROOT] as its remote name and with the force flag the
    run was started with. *)
Theorem calls_concern_local_files (task : string) (models : list Model)
  (dry_run : bool) (file_type : string) (force_reupload : bool) (w : World R) :
  calls_all (local_call env force_reupload) w
    (snd (update_one_modeling_task_article env task models dry_run file_type
            force_reupload w)).
Proof.
  revert w. change (preserves (calls_all (local_call env force_reupload))
                      (update_one_modeling_task_article env task models dry_run
                         file_type force_reupload)).
  unfold update_one_modeling_task_article.
  apply (preserves_bind _ (calls_all_trans _)).
  - now apply resolve_article_calls.
  - intros article_id. apply rest_of_run_calls.
    + apply file_call_local.
    + exact I.
    + intros b. calls_tac_for R (local_call env force_reupload).
Qed.

(** X5: an article that is registered for the task and exists is the only
    one a run touches.  Whatever the other arguments, and whether the run
    returns or raises, every remote call it makes names that article, and
    no article is created. *)
Theorem existing_article_is_reused (task : string) (models : list Model)
  (dry_run : bool) (file_type : string) (force_reupload : bool) (w : World R)
  (article_id : Z) :
  dict_get ("model_preds_" ++ task) ARTICLE_IDS = Some (Some article_id) ->
  article_exists article_id (remote w) = inr true ->
  calls_all (about_article article_id) w
    (snd (update_one_modeling_task_article env task models dry_run file_type
            force_reupload w)).
Proof.
  intros Hid Hex. unfold update_one_modeling_task_article.
  rewrite (bind_inr _ _ _ _ _ (resolve_registered env task dry_run article_id w Hid Hex)).
  eapply calls_all_trans; [|apply rest_of_run_calls].
  - exists [CallArticleExists article_id]. split; [reflexivity|].
    constructor; [reflexivity | constructor].
  - apply file_call_about.
  - reflexivity.
  - intros b. calls_tac_for R (about_article article_id).
Qed.
End CallsOfRun.

Section CallsOfRunExamples.
Import Reference Scenario.

Lemma existing_article_is_reused_witness :
  calls_all (about_article 7)
    (world remote_with_b docs_energy)
    (snd (run "discovery" [m1] false "all" false remote_with_b docs_energy)).
Proof.
  apply (@existing_article_is_reused Remote fs ev "discovery" [m1] false "all" false
           (world remote_with_b docs_energy) 7%Z); reflexivity.
Defined.
End CallsOfRunExamples.

(** ** Finding or creating the article *)

Section Grows.
Context {R : Type} {F : Figshare R} (env : Env).
#[local] Abbreviation grows := (@grows R).

Lemma grows_same (w w' : World R) : stdout w' = stdout w -> grows w w'.
Proof. intros H. exists []. now rewrite H, app_nil_r. Qed.

Lemma grows_refl (w : World R) : grows w w.
Proof. now apply grows_same. Qed.

Lemma grows_trans (w1 w2 w3 : World R) : grows w1 w2 -> grows w2 w3 -> grows w1 w3.
Proof.
  intros (o & Ho) (o' & Ho'). exists (o ++ o')%list. now rewrite Ho', Ho, app_assoc.
Qed.

Lemma grows_print m : preserves grows (print m).
Proof. intros w. now exists [m]. Qed.

Lemma grows_dump_yaml path doc : preserves grows (dump_yaml path doc).
Proof. intros w. now apply grows_same. Qed.

Lemma grows_query {A} c (q : R -> PyErr + A) : preserves grows (query c q).
Proof. intros w. now apply grows_same. Qed.

Lemma grows_command {A} c (f : R -> (PyErr + A) * R) : preserves grows (command c f).
Proof.
  intros w. unfold command. destruct (f (remote w)) as [res r']. now apply grows_same.
Qed.

Lemma grows_print_enumerated {V} (line : nat -> string -> V -> Msg) d :
  forall idx, preserves grows (print_enumerated line idx d).
Proof.
  induction d as [|[k v] d IH]; intros idx; simpl.
  - apply (preserves_ret _ grows_refl).
  - apply (preserves_bind _ grows_trans); [apply grows_print | intros _; apply IH].
Qed.

Lemma grows_In (w w' : World R) m : grows w w' -> In m (stdout w) -> In m (stdout w').
Proof. intros (o & Ho) H. rewrite Ho. apply in_or_app. now left. Qed.
End Grows.

Ltac grows_tac R :=
  repeat first
    [ preserves_step (@grows_refl R) (@grows_trans R)
    | apply grows_print
    | apply grows_dump_yaml
    | apply grows_query
    | apply grows_command
    | apply grows_print_enumerated ].

Section Creation.
Context {R : Type} {F : Figshare R} (env : Env).
#[local] Abbreviation quiet := (@quiet R).
#[local] Abbreviation grows := (@grows R).
#[local] Abbreviation calls_all := (@calls_all R).

Lemma bind_print {B} m (k : unit -> M R B) (w : World R) :
  bind (print m) k w = k tt (printed m w).
Proof. reflexivity. Qed.

Lemma bind_ret {A B} (a : A) (k : A -> M R B) : bind (ret a) k = k a.
Proof. reflexivity. Qed.

Lemma bind_query {A B} c (q : R -> PyErr + A) (k : A -> M R B) (w : World R) :
  bind (query c q) k w
  = match q (remote w) with
    | inl e => (inl e, log_call c w)
    | inr a => k a (log_call c w)
    end.
Proof. unfold bind, query. now destruct (q (remote w)). Qed.

(** Lines 122-128 as a computation of its own. *)
Lemma resolve_missing task (dry_run : bool) (w : World R) :
  needs_creation task (remote w) ->
  exists w0,
    quiet w w0 /\ calls_all article_query w w0
    /\ resolve_article env task dry_run w
       = (if dry_run
          then print (MWouldCreateArticle task) ;; ret 0%Z
          else
            metadata <- lift (get_article_metadata env task) ;;
            id <- command (CallCreateArticle metadata) (create_article metadata) ;;
            print (MCreatedArticle task id (script_file env)) ;;
            ret id) w0.
Proof.
  intros [Hid|(old & Hid & Hex)].
  - exists w. split; [apply quiet_refl|]. split; [apply calls_all_refl|].
    unfold resolve_article. rewrite Hid. reflexivity.
  - exists (printed (MArticleNotFound old task) (log_call (CallArticleExists old) w)).
    split; [|split].
    + repeat split. exists [CallArticleExists old]. now split.
    + exists [CallArticleExists old]. split; [reflexivity|]. now repeat constructor.
    + unfold resolve_article, bind, query, ret, print. rewrite Hid. cbv beta iota.
      rewrite Hex. reflexivity.
Qed.

(** X6: a missing article is created first and then used.  In a run that
    is not a dry run, when no article is registered for the task or the
    registered one is reported missing, and the task is known and the
    remote service creates the article: [create_article] is called once,
    with the metadata of [get_article_metadata], before it only
    [article_exists] was asked, right after it the files of the new
    article are listed, every later call names the new article, and the
    reminder to register the new id is printed. *)
Theorem missing_article_is_created (task : string) (models : list Model)
  (file_type : string) (force_reupload : bool) (w : World R)
  (metadata : ArticleMeta) (article_id : Z) (r' : R) :
  needs_creation task (remote w) ->
  get_article_metadata env task = inr metadata ->
  create_article metadata (remote w) = (inr article_id, r') ->
  let w' := snd (update_one_modeling_task_article env task models false file_type
                   force_reupload w) in
  (exists pre calls,
      api_calls w'
      = (api_calls w ++ pre
           ++ CallCreateArticle metadata :: CallGetExistingFiles article_id :: calls)%list
      /\ Forall article_query pre
      /\ Forall (about_article article_id) calls)
  /\ In (MCreatedArticle task article_id (script_file env)) (stdout w').
Proof.
  intros Hneed Hmeta Hcreate.
  destruct (resolve_missing task false w Hneed) as (w0 & Hq & Hcalls & Hres).
  destruct Hcalls as (pre & Hpre & Hpre_ok).
  destruct Hq as (Hr0 & _).
  set (w1 := printed (MCreatedArticle task article_id (script_file env))
               (set_remote r' (log_call (CallCreateArticle metadata) w0))).
  assert (Hres1 : resolve_article env task false w = (inr article_id, w1)).
  { rewrite Hres. cbv iota. rewrite Hmeta, bind_lift_inr.
    unfold bind at 1, command. rewrite Hr0, Hcreate. reflexivity. }
  unfold update_one_modeling_task_article. rewrite (bind_inr _ _ _ _ _ Hres1).
  split.
  - assert (Hrest : forall existing_files w2,
               api_calls w2
               = (api_calls w ++ pre
                    ++ [CallCreateArticle metadata; CallGetExistingFiles article_id])%list ->
               exists calls,
                 api_calls
                   (snd ((print (MFoundExisting (length existing_files)) ;;
                          print_enumerated
                            (fun idx file_name file_data =>
                               MExistingFile idx file_name (fd_id file_data))
                            1 existing_files ;;
                          b <- for_each
                                 (process_model env task article_id existing_files false
                                    file_type force_reupload) models no_files ;;
                          print_summary b ;; ret b) w2))
                 = (api_calls w ++ pre
                      ++ CallCreateArticle metadata
                      :: CallGetExistingFiles article_id :: calls)%list
                 /\ Forall (about_article article_id) calls).
    { intros existing_files w2 Hw2.
      assert (Hp : preserves (calls_all (about_article article_id))
                     (print (MFoundExisting (length existing_files)) ;;
                      print_enumerated
                        (fun idx file_name file_data =>
                           MExistingFile idx file_name (fd_id file_data))
                        1 existing_files ;;
                      b <- for_each
                             (process_model env task article_id existing_files false
                                file_type force_reupload) models no_files ;;
                      print_summary b ;; ret b)).
      { calls_tac_for R (about_article article_id).
        eapply preserves_impl; [|apply process_model_calls].
        intros wa wb. apply calls_all_impl. apply file_call_about. }
      destruct (Hp w2) as (calls & Hcalls & Hall). exists calls. split; [|exact Hall].
      rewrite Hcalls, Hw2, <- !app_assoc. reflexivity. }
    rewrite bind_print, bind_ret, bind_query.
    match goal with
    | |- context [log_call ?c ?w2] => set (wq := log_call c w2)
    end.
    assert (Hwq : api_calls wq
                  = (api_calls w ++ pre
                       ++ [CallCreateArticle metadata;
                           CallGetExistingFiles article_id])%list).
    { subst wq w1. simpl. rewrite Hpre, <- !app_assoc. reflexivity. }
    destruct (get_existing_files article_id _) as [e|existing_files].
    + exists pre, []. split; [exact Hwq|]. split; [exact Hpre_ok | constructor].
    + destruct (Hrest existing_files wq Hwq) as (calls & Hcalls & Hall).
      exists pre, calls. now repeat split.
  - match goal with
    | |- In _ (stdout (snd (?m w1))) =>
        assert (Hg : preserves grows m)
    end.
    { unfold process_model, process_file, try_skip, upload, print_summary.
      grows_tac R. }
    apply (grows_In _ _ _ (Hg w1)). subst w1. simpl. apply in_or_app. right. now left.
Qed.

(** X7: an article cannot be created for a task that [MODELING_TASKS] does
    not know.  In a run that is not a dry run, when no article is
    registered for the task or the registered one is reported missing, a
    task without an entry in [MODELING_TASKS] makes the run raise
    [KeyError] for the task before anything is created, uploaded or
    written. *)
Theorem creation_needs_known_task (task : string) (models : list Model)
  (file_type : string) (force_reupload : bool) (w : World R) :
  needs_creation task (remote w) ->
  dict_get task (MODELING_TASKS env) = None ->
  fst (update_one_modeling_task_article env task models false file_type
         force_reupload w) = inl (KeyError task)
  /\ quiet w (snd (update_one_modeling_task_article env task models false file_type
                     force_reupload w)).
Proof.
  intros Hneed Htask.
  destruct (resolve_missing task false w Hneed) as (w0 & Hq & _ & Hres).
  assert (Hres0 : resolve_article env task false w = (inl (KeyError task), w0)).
  { rewrite Hres. cbv iota. unfold get_article_metadata. rewrite Htask.
    rewrite bind_lift_inl. reflexivity. }
  unfold update_one_modeling_task_article. rewrite (bind_inl _ _ _ _ _ Hres0).
  split; [reflexivity | exact Hq].
Qed.

(** X8: a task without an entry in [ARTICLE_IDS] stops the run at line 108.
    The run raises [KeyError] for the key [model_preds_<task>] and leaves
    everything as it was: nothing is printed, no remote call is made. *)
Theorem unregistered_task_raises (task : string) (models : list Model)
  (dry_run : bool) (file_type : string) (force_reupload : bool) (w : World R) :
  dict_get ("model_preds_" ++ task) ARTICLE_IDS = None ->
  update_one_modeling_task_article env task models dry_run file_type force_reupload w
  = (inl (KeyError ("model_preds_" ++ task)), w).
Proof.
  intros Hid. unfold update_one_modeling_task_article, resolve_article.
  rewrite Hid. reflexivity.
Qed.
End Creation.

Section CreationExamples.
Import Reference Scenario MoreScenarios.

Lemma missing_article_is_created_witness :
  In (MCreatedArticle "geo_opt" 100 "upload_model_preds_to_figshare.py")
    (stdout (snd (run "geo_opt" [m1] false "all" false remote_blank docs_energy))).
Proof.
  refine (proj2 (@missing_article_is_created Remote fs ev "geo_opt" [m1] "all" false
                   (world remote_blank docs_energy) _ 100%Z _ _ eq_refl eq_refl)).
  left. reflexivity.
Defined.

Lemma creation_needs_known_task_witness :
  fst (@update_one_modeling_task_article Remote fs ev_no_tasks "discovery" [m1] false
         "all" false (world remote_blank docs_energy))
  = inl (KeyError "discovery").
Proof.
  refine (proj1 (@creation_needs_known_task Remote fs ev_no_tasks "discovery" [m1] "all"
                   false (world remote_blank docs_energy) _ eq_refl)).
  right. exists 7%Z. split; reflexivity.
Defined.

Lemma unregistered_task_raises_witness :
  run "phonons" [m1] false "all" false remote_blank docs_energy
  = (inl (KeyError "model_preds_phonons"), world remote_blank docs_energy).
Proof.
  apply (@unregistered_task_raises Remote fs ev "phonons" [m1] false "all" false
           (world remote_blank docs_energy)).
  reflexivity.
Defined.
End CreationExamples.

(** ** More on dry runs *)

Section DryRunCalls.
Context {R : Type} {F : Figshare R} (env : Env).
#[local] Abbreviation calls_all := (@calls_all R).
#[local] Abbreviation grows := (@grows R).
#[local] Abbreviation quiet := (@quiet R).

Lemma no_call_any (P : ApiCall -> Prop) (w w' : World R) :
  calls_all (fun _ => False) w w' -> calls_all P w w'.
Proof. apply calls_all_impl. intros c []. Qed.

Lemma no_call_same (w w' : World R) :
  calls_all (fun _ => False) w w' -> api_calls w' = api_calls w.
Proof.
  intros (calls & Hc & Hall). destruct calls as [|c calls].
  - now rewrite Hc, app_nil_r.
  - inversion Hall as [|? ? []].
Qed.

(** In a dry run the loop over the models calls nothing. *)
Lemma process_file_dry_no_calls task model article_id existing_files force_reupload
  st item :
  preserves (calls_all (fun _ => False))
    (process_file env task model article_id existing_files true force_reupload st item).
Proof.
  unfold process_file. destruct st as [b metric_data], item as [key_path rel].
  rewrite andb_false_r. simpl negb. cbv iota.
  calls_tac_for R (fun _ : ApiCall => False).
Qed.

Lemma process_model_dry_no_calls task article_id existing_files file_type
  force_reupload b model :
  preserves (calls_all (fun _ => False))
    (process_model env task article_id existing_files true file_type force_reupload
       b model).
Proof.
  unfold process_model. simpl negb. cbv iota.
  calls_tac_for R (fun _ : ApiCall => False).
  apply process_file_dry_no_calls.
Qed.

(** X9: a dry run asks the remote service about the article only.  Whatever
    the arguments and the state, and whether the run returns or raises,
    the only calls of a dry run are [article_exists] and
    [get_existing_files]: no hash is compared, nothing is uploaded and no
    article is created. *)
Theorem dry_run_asks_about_article_only (task : string) (models : list Model)
  (file_type : string) (force_reupload : bool) (w : World R) :
  calls_all article_query w
    (snd (update_one_modeling_task_article env task models true file_type
            force_reupload w)).
Proof.
  revert w. change (preserves (calls_all article_query)
                      (update_one_modeling_task_article env task models true
                         file_type force_reupload)).
  unfold update_one_modeling_task_article, resolve_article.
  calls_tac_for R article_query; try (apply calls_all_query; exact I).
  eapply preserves_impl; [|apply process_model_dry_no_calls].
  intros w1 w2. apply no_call_any.
Qed.

(** X10: a dry run for a task whose article is missing works on article 0.
    When no article is registered for the task or the registered one is
    reported missing, the dry run asks the remote service for the files
    of article 0 and makes no call after that one; when that request
    fails, the dry run fails with its error. *)
Theorem dry_run_of_missing_article_lists_zero (task : string) (models : list Model)
  (file_type : string) (force_reupload : bool) (w : World R) :
  needs_creation task (remote w) ->
  let result := update_one_modeling_task_article env task models true file_type
                  force_reupload w in
  (exists pre, api_calls (snd result)
               = (api_calls w ++ pre ++ [CallGetExistingFiles 0])%list
               /\ Forall article_query pre)
  /\ forall e, get_existing_files 0 (remote w) = inl e -> fst result = inl e.
Proof.
  intros Hneed.
  destruct (resolve_missing env task true w Hneed) as (w0 & Hq & Hcalls & Hres).
  assert (Hres0 : resolve_article env task true w
                  = (inr 0%Z, printed (MWouldCreateArticle task) w0))
    by (now rewrite Hres).
  destruct Hcalls as (pre & Hpre & Hpre').
  destruct Hq as (Hr0 & _).
  unfold update_one_modeling_task_article. rewrite (bind_inr _ _ _ _ _ Hres0).
  rewrite bind_print, bind_print, bind_query. cbn [remote printed].
  rewrite Hr0. cbv zeta.
  match goal with
  | |- context [log_call ?c ?w2] => set (wq := log_call c w2)
  end.
  assert (Hwq : api_calls wq = (api_calls w ++ pre ++ [CallGetExistingFiles 0])%list).
  { subst wq. simpl. now rewrite Hpre, <- app_assoc. }
  destruct (get_existing_files 0 (remote w)) as [e|existing_files] eqn:Elist.
  - split; [now exists pre|]. now intros e' [= <-].
  - split; [|discriminate].
    exists pre. split; [|exact Hpre']. rewrite <- Hwq.
    apply no_call_same.
    match goal with
    | |- calls_all _ wq (snd (?m wq)) => assert (Hm : preserves (calls_all (fun _ => False)) m)
    end.
    { calls_tac_for R (fun _ : ApiCall => False). apply process_model_dry_no_calls. }
    apply Hm.
Qed.
End DryRunCalls.

Section DryRunExamples.
Import Reference Scenario.

Lemma dry_run_of_missing_article_lists_zero_witness :
  fst (run "geo_opt" [m1] true "all" false remote_blank docs_energy) = inl RequestError.
Proof.
  refine (proj2 (@dry_run_of_missing_article_lists_zero Remote fs ev "geo_opt" [m1] "all"
                   false (world remote_blank docs_energy) _) RequestError eq_refl).
  left. reflexivity.
Defined.
End DryRunExamples.

Section DryRunReport.
Context {R : Type} {F : Figshare R} (env : Env).
#[local] Abbreviation grows := (@grows R).

(** A run that returns ends with the summary of the dictionaries it
    returns. *)
Lemma update_one_ends_with_summary task models dry_run file_type force_reupload
  (w : World R) b w' :
  update_one_modeling_task_article env task models dry_run file_type force_reupload w
  = (inr b, w') ->
  exists article_id existing_files w1 w2,
    grows w w1
    /\ for_each (process_model env task article_id existing_files dry_run file_type
                   force_reupload) models no_files w1 = (inr b, w2)
    /\ grows w1 w2
    /\ print_summary b w2 = (inr tt, w').
Proof.
  unfold update_one_modeling_task_article. intros H.
  apply bind_ok in H. destruct H as (article_id & w0 & Hres & H).
  assert (G0 : grows w w0).
  { assert (Hp : preserves grows (resolve_article env task dry_run)).
    { unfold resolve_article. grows_tac R. }
    specialize (Hp w). now rewrite Hres in Hp. }
  match type of H with
  | bind ?m1 (fun _ => bind ?m2 (fun _ => bind ?m3 (fun existing_files => _))) _ = _ =>
      assert (Hpre : preserves grows (m1 ;; m2 ;; m3))
  end.
  { grows_tac R. }
  apply bind_ok in H. destruct H as ([] & wa & Hp1 & H).
  apply bind_ok in H. destruct H as ([] & wb & Hp2 & H).
  apply bind_ok in H. destruct H as (existing_files & wc & Hq & H).
  assert (Gc : grows w0 wc).
  { specialize (Hpre w0). unfold bind in Hpre. rewrite Hp1, Hp2, Hq in Hpre. exact Hpre. }
  apply bind_ok in H. destruct H as ([] & wd & Hp3 & H).
  apply bind_ok in H. destruct H as ([] & we & Hp4 & H).
  assert (Ge : grows wc we).
  { eapply grows_trans.
    - pose proof (grows_print (MFoundExisting (length existing_files)) wc) as G.
      rewrite Hp3 in G. exact G.
    - pose proof (grows_print_enumerated
                    (fun idx file_name file_data =>
                       MExistingFile idx file_name (fd_id file_data))
                    existing_files 1 wd) as G.
      rewrite Hp4 in G. exact G. }
  apply bind_ok in H. destruct H as (b1 & w2 & Hloop & H).
  apply bind_ok in H. destruct H as ([] & wf & Hp5 & H).
  apply ret_ok in H. destruct H as [-> ->].
  exists article_id, existing_files, we, w2.
  split; [eauto using grows_trans|]. split; [exact Hloop|]. split; [|exact Hp5].
  assert (Hl : preserves grows
                 (for_each (process_model env task article_id existing_files dry_run
                              file_type force_reupload) models no_files)).
  { unfold process_model, process_file, try_skip, upload. grows_tac R. }
  specialize (Hl we). now rewrite Hloop in Hl.
Qed.

(** X11: a dry run reports no file.  A dry run that returns has put
    nothing into [skipped_files], [updated_files] or [new_files], whatever
    the metadata reference and whatever the remote service holds, and the
    last lines it prints are the three counts, all zero, and
    [No files were added or updated.] *)
Theorem dry_run_reports_nothing (task : string) (models : list Model)
  (file_type : string) (force_reupload : bool) (w : World R) (b : Buckets)
  (w' : World R) :
  update_one_modeling_task_article env task models true file_type force_reupload w
  = (inr b, w') ->
  b = no_files
  /\ exists out,
       stdout w'
       = (stdout w ++ out
            ++ [MNewlyAdded 0; MUpdated 0; MSkipped 0; MNothingDone])%list.
Proof.
  intros H. apply update_one_ends_with_summary in H.
  destruct H as (article_id & existing_files & w1 & w2 & G1 & Hloop & G2 & Hsum).
  assert (Hb : b = no_files).
  { apply (for_each_ok_rel (fun s s' => fst s' = fst s)) in Hloop;
      [exact Hloop | reflexivity | intros ? ? ? ? ?; congruence |].
    intros a m wa a1 wb _ Hm. simpl. eapply process_model_dry_buckets. exact Hm. }
  split; [exact Hb|]. subst b.
  destruct (grows_trans _ _ _ G1 G2) as (out & Hout). exists out.
  injection Hsum as <-. simpl. rewrite Hout, <- !app_assoc. reflexivity.
Qed.
End DryRunReport.

Section DryRunReportExample.
Import Reference Scenario.

Lemma dry_run_reports_nothing_witness :
  exists out,
    stdout (snd (run "discovery" [m1] true "all" false remote_empty docs_energy))
    = (out ++ [MNewlyAdded 0; MUpdated 0; MSkipped 0; MNothingDone])%list.
Proof.
  refine (proj2 (@dry_run_reports_nothing Remote fs ev "discovery" [m1] "all" false
                   (world remote_empty docs_energy) no_files
                   (snd (run "discovery" [m1] true "all" false remote_empty docs_energy))
                   _)).
  vm_compute. reflexivity.
Defined.
End DryRunReportExample.

(** ** [main] *)

Section MainFacts.
Context {R : Type} {F : Figshare R} (env : Env).
#[local] Abbreviation silent := (@silent R).
#[local] Abbreviation quiet := (@quiet R).

(** A failure of the loop over the tasks, with the tasks that were
    completed before it. *)
Lemma run_tasks_stops args parsed_args todo (w w' : World R) r :
  run_tasks env args parsed_args todo w = (inl r, w') ->
  exists done task rest w1,
    todo = (done ++ task :: rest)%list
    /\ run_tasks env args parsed_args done w = (inr tt, w1)
    /\ update_one_modeling_task_article env task (Namespace.models parsed_args)
         (Namespace.dry_run parsed_args) (Namespace.file_type parsed_args)
         (Namespace.force_reupload parsed_args) w1 = (inl (exc r), w')
    /\ notes r = [UploadFailed (failure_state (main_locals args parsed_args task (exc r)))].
Proof.
  revert w. induction todo as [|task todo IH]; intros w; simpl; [discriminate|].
  destruct (update_one_modeling_task_article _ _ _ _ _ _ _) as [[e|b] w1] eqn:E.
  - intros [= <- <-]. exists [], task, todo, w. simpl. repeat split. exact E.
  - intros H. destruct (IH _ H) as (done & t & rest & w0 & -> & Hdone & Hrun & Hnotes).
    exists (task :: done), t, rest, w0. simpl. rewrite E. repeat split; assumption.
Qed.

(** X12: [main] stops at the first task that fails.  When an exception
    leaves [main], the tasks before some task were completed one after
    the other, the run of that task raised the exception, no later task
    was started (the state is the one the failed run left), and the
    exception is the one the run raised with exactly one note added,
    whose state has the four keys [task], [model_name],
    [models_to_update] and [tasks_to_update]. *)
Theorem main_fails_with_first_failing_task
  (parse_args : option (list string) -> Namespace.t) (args : option (list string))
  (w w' : World R) (r : Raised) :
  main env parse_args args w = (inl r, w') ->
  exists done task rest w0 w1,
    Namespace.tasks (parse_args args) = (done ++ task :: rest)%list
    /\ silent w w0
    /\ run_tasks env args (parse_args args) done w0 = (inr tt, w1)
    /\ update_one_modeling_task_article env task (Namespace.models (parse_args args))
         (Namespace.dry_run (parse_args args)) (Namespace.file_type (parse_args args))
         (Namespace.force_reupload (parse_args args)) w1 = (inl (exc r), w')
    /\ exists state,
         notes r = [UploadFailed state]
         /\ keys state = ["task"; "model_name"; "models_to_update"; "tasks_to_update"].
Proof.
  unfold main. intros H.
  match type of H with
  | context [run_tasks env args (parse_args args) ?todo ?w0] =>
      destruct (run_tasks env args (parse_args args) todo w0) as [[r0|u] w2] eqn:E;
      [|discriminate H];
      assert (Hs : silent w w0) by now repeat split
  end.
  injection H as -> ->.
  destruct (run_tasks_stops _ _ _ _ _ _ E) as (done & task & rest & w1 & Ht & Hd & Hr & Hn).
  eexists done, task, rest, _, w1.
  split; [exact Ht|]. split; [exact Hs|]. split; [exact Hd|]. split; [exact Hr|].
  eexists. split; [exact Hn | reflexivity].
Qed.

(** X13: [main] in a dry run only reads.  When the parsed arguments ask
    for a dry run, whatever the tasks and models and whether [main]
    returns or raises, the remote service and the metadata files are left
    as they were, no metadata file is opened for writing and every call
    to the remote service is a query. *)
Theorem main_dry_run_only_reads
  (parse_args : option (list string) -> Namespace.t) (args : option (list string))
  (w : World R) :
  Namespace.dry_run (parse_args args) = true ->
  quiet w (snd (main env parse_args args w)).
Proof. apply quiet_main. Qed.
End MainFacts.

Section MainExamples.
Import Reference Scenario.

Lemma main_fails_with_first_failing_task_witness :
  exists done task rest, ["discovery"; "geo_opt"] = (done ++ task :: rest)%list.
Proof.
  destruct (@main_fails_with_first_failing_task Remote fs ev
              (parsed [m1] ["discovery"; "geo_opt"] false) None
              (world remote_empty [("models/m1.yml", doc_bad_metrics)])
              (snd (run_main [m1] ["discovery"; "geo_opt"] false remote_empty
                      [("models/m1.yml", doc_bad_metrics)]))
              {| exc := AttributeError;
                 notes := [UploadFailed
                             [ ("task", VStr "discovery"); ("model_name", VNone);
                               ("models_to_update", VModels [m1]);
                               ("tasks_to_update", VStrs ["discovery"; "geo_opt"]) ]] |}
              ltac:(vm_compute; reflexivity))
    as (done & task & rest & _ & _ & Ht & _).
  exists done, task, rest. exact Ht.
Defined.

Lemma main_dry_run_only_reads_witness :
  remote (snd (run_main [m1] ["discovery"] true remote_empty docs_energy)) = remote_empty.
Proof.
  exact (proj1 (@main_dry_run_only_reads Remote fs ev (parsed [m1] ["discovery"] true)
                  None (world remote_empty docs_energy) eq_refl)).
Defined.
End MainExamples.

(** ** Models without a metadata file *)

Section Respects.
Context {R : Type} {F : Figshare R}.
#[local] Abbreviation silent := (@silent R).

Lemma respects_ret {A} (a : A) : respects (@ret R A a).
Proof. intros w1 w2 Hs. now split. Qed.

Lemma respects_raise {A} (e : PyErr) : respects (@raise R A e).
Proof. intros w1 w2 Hs. now split. Qed.

Lemma respects_lift {A} (r : PyErr + A) : respects (@lift R A r).
Proof. destruct r; [apply respects_raise | apply respects_ret]. Qed.

Lemma respects_bind {A B} (m : M R A) (k : A -> M R B) :
  respects m -> (forall a, respects (k a)) -> respects (bind m k).
Proof.
  intros Hm Hk w1 w2 Hs. unfold bind. destruct (Hm w1 w2 Hs) as [Hf Hs'].
  destruct (m w1) as [[e|a] w1'], (m w2) as [[e'|a'] w2']; simpl in *;
    try discriminate Hf; injection Hf as <-.
  - now split.
  - now apply Hk.
Qed.

Lemma respects_for_each {A B} (f : A -> B -> M R A) (l : list B) :
  (forall a x, respects (f a x)) -> forall a, respects (for_each f l a).
Proof.
  intros Hf. induction l as [|x l IH]; intros a; simpl.
  - apply respects_ret.
  - apply respects_bind; [apply Hf | exact IH].
Qed.

Lemma respects_print m : respects (@print R m).
Proof.
  intros w1 w2 (H1 & H2 & H3 & H4). split; [reflexivity|]. now repeat split.
Qed.

Lemma respects_query {A} c (q : R -> PyErr + A) : respects (@query R A c q).
Proof.
  intros w1 w2 (H1 & H2 & H3 & H4). unfold query. simpl. rewrite H1. split; [reflexivity|].
  repeat split; simpl; congruence.
Qed.

Lemma respects_command {A} c (f : R -> (PyErr + A) * R) : respects (@command R A c f).
Proof.
  intros w1 w2 (H1 & H2 & H3 & H4). unfold command. rewrite H1.
  destruct (f (remote w1)) as [res r']. simpl. split; [reflexivity|].
  repeat split; simpl; congruence.
Qed.

Lemma respects_load_yaml path : respects (@load_yaml R path).
Proof.
  intros w1 w2 Hs. unfold load_yaml. destruct Hs as (H1 & H2 & H3 & H4). rewrite H2.
  destruct (dict_get path (yaml_files w1)); simpl; split; trivial; now repeat split.
Qed.

Lemma respects_dump_yaml path doc : respects (@dump_yaml R path doc).
Proof.
  intros w1 w2 (H1 & H2 & H3 & H4). split; [reflexivity|].
  repeat split; simpl; congruence.
Qed.

Lemma respects_yaml_isfile path : respects (@yaml_isfile R path).
Proof.
  intros w1 w2 Hs. unfold yaml_isfile. simpl. destruct Hs as (H1 & H2 & H3 & H4).
  rewrite H2. split; [reflexivity|]. now repeat split.
Qed.

Lemma respects_print_enumerated {V} (line : nat -> string -> V -> Msg) d :
  forall idx, respects (@print_enumerated R V line idx d).
Proof.
  induction d as [|[k v] d IH]; intros idx; simpl.
  - apply respects_ret.
  - apply respects_bind; [apply respects_print | intros _; apply IH].
Qed.
End Respects.

Ltac respects_tac :=
  repeat match goal with
    | |- respects (bind _ _) => apply respects_bind
    | |- respects (ret _) => apply respects_ret
    | |- respects (raise _) => apply respects_raise
    | |- respects (lift _) => apply respects_lift
    | |- respects (print _) => apply respects_print
    | |- respects (query _ _) => apply respects_query
    | |- respects (command _ _) => apply respects_command
    | |- respects (load_yaml _) => apply respects_load_yaml
    | |- respects (dump_yaml _ _) => apply respects_dump_yaml
    | |- respects (yaml_isfile _) => apply respects_yaml_isfile
    | |- respects (for_each _ _ _) => apply respects_for_each
    | |- respects (print_enumerated _ _ _) => apply respects_print_enumerated
    | |- respects (if ?b then _ else _) => destruct b
    | |- respects (match ?x with _ => _ end) => destruct x
    | |- forall _, _ => intro
    end.

Section MissingModels.
Context {R : Type} {F : Figshare R} (env : Env).
#[local] Abbreviation silent := (@silent R).
#[local] Abbreviation paths_kept := (@paths_kept R).

Lemma respects_process_model task article_id existing_files dry_run file_type
  force_reupload b model :
  respects (process_model env task article_id existing_files dry_run file_type
              force_reupload b model).
Proof.
  unfold process_model, process_file, try_skip, upload. respects_tac.
Qed.

Lemma respects_print_summary b : respects (@print_summary R b).
Proof. unfold print_summary. respects_tac. Qed.

Lemma paths_kept_refl (w : World R) : paths_kept w w.
Proof. now intros path. Qed.

Lemma paths_kept_trans (w1 w2 w3 : World R) :
  paths_kept w1 w2 -> paths_kept w2 w3 -> paths_kept w1 w3.
Proof. intros H1 H2 path. now rewrite H2, H1. Qed.

Lemma paths_kept_same (w w' : World R) : yaml_files w' = yaml_files w -> paths_kept w w'.
Proof. intros H path. now rewrite H. Qed.

Lemma dict_has_set_present {V} k (v : V) d path :
  dict_has k d = true -> dict_has path (dict_set k v d) = dict_has path d.
Proof.
  intros Hk. unfold dict_has in *. rewrite dict_get_set.
  destruct (String.eqb_spec path k) as [->|Hne]; [|reflexivity].
  now destruct (dict_get k d).
Qed.

(** Going through a model adds no metadata file and removes none. *)
Lemma paths_kept_process_model task article_id existing_files dry_run file_type
  force_reupload b model (w : World R) :
  paths_kept w (snd (process_model env task article_id existing_files dry_run file_type
                       force_reupload b model w)).
Proof.
  set (rel := fun w w' : World R =>
                dict_has (yaml_path model) (yaml_files w) = true -> paths_kept w w').
  assert (Hrefl : forall w : World R, rel w w) by (intros w0 _; apply paths_kept_refl).
  assert (Htrans : forall w1 w2 w3 : World R, rel w1 w2 -> rel w2 w3 -> rel w1 w3).
  { intros w1 w2 w3 H1 H2 Hp. specialize (H1 Hp).
    eapply paths_kept_trans; [exact H1|]. apply H2. now rewrite H1. }
  assert (Hsame : forall A (m : M R A),
             preserves (fun w w' : World R => yaml_files w' = yaml_files w) m ->
             preserves rel m).
  { intros A m Hm w0 _. apply paths_kept_same, Hm. }
  unfold process_model, bind at 1, yaml_isfile.
  destruct (dict_has (yaml_path model) (yaml_files w)) eqn:Ep; simpl negb; cbv iota.
  - match goal with
    | |- paths_kept w (snd (?m w)) => assert (Hm : preserves rel m)
    end.
    { unfold process_file, try_skip, upload.
      repeat first
        [ preserves_step Hrefl Htrans
        | match goal with
          | |- preserves rel (print _) => apply Hsame; intros w0; reflexivity
          | |- preserves rel (query _ _) => apply Hsame; intros w0; reflexivity
          | |- preserves rel (command ?c ?f) =>
              apply Hsame; intros w0; unfold command;
              destruct (f (remote w0)); reflexivity
          | |- preserves rel (dump_yaml _ _) =>
              intros w0 Hp path; simpl; now apply dict_has_set_present
          end ]. }
    now apply Hm.
  - apply paths_kept_same. reflexivity.
Qed.

(** The loop over the models, with and without the models whose metadata
    file is missing. *)
Lemma process_models_present task article_id existing_files dry_run file_type
  force_reupload (w0 : World R) models :
  forall b (wa wb : World R),
    silent wa wb -> paths_kept w0 wa ->
    let f := process_model env task article_id existing_files dry_run file_type
               force_reupload in
    fst (for_each f models b wa) = fst (for_each f (present_models w0 models) b wb)
    /\ silent (snd (for_each f models b wa))
         (snd (for_each f (present_models w0 models) b wb)).
Proof.
  induction models as [|m models IH]; intros b wa wb Hs Hk f; simpl; [now split|].
  destruct (dict_has (yaml_path m) (yaml_files w0)) eqn:Ep.
  - simpl. unfold bind.
    destruct (respects_process_model task article_id existing_files dry_run file_type
                force_reupload b m wa wb Hs) as [Hf Hs'].
    pose proof (paths_kept_process_model task article_id existing_files dry_run
                  file_type force_reupload b m wa) as Hk'.
    fold f in Hf, Hs', Hk'.
    destruct (f b m wa) as [[e|b1] wa'], (f b m wb) as [[e'|b1'] wb']; simpl in *;
      try discriminate Hf; injection Hf as <-.
    + now split.
    + apply IH; [exact Hs'|]. eapply paths_kept_trans; eassumption.
  - assert (Hmiss : f b m wa = (inr b, printed (MMissingYaml (yaml_path m)) wa)).
    { unfold f, process_model, bind at 1, yaml_isfile. cbn [fst snd].
      rewrite (Hk (yaml_path m)), Ep. reflexivity. }
    unfold bind. rewrite Hmiss. apply IH.
    + destruct Hs as (H1 & H2 & H3 & H4). now repeat split.
    + intros path. apply Hk.
Qed.
End MissingModels.

Section MissingModelsRun.
Context {R : Type} {F : Figshare R} (env : Env).
#[local] Abbreviation silent := (@silent R).

(** Two computations that start alike: it is enough to compare what
    follows the common start. *)
Lemma bind_cases {A B} (m : M R A) (k1 k2 : A -> M R B) (w : World R)
  (P : (PyErr + B) * World R -> (PyErr + B) * World R -> Prop) :
  (forall e w1, P (inl e, w1) (inl e, w1)) ->
  (forall a w1, m w = (inr a, w1) -> P (k1 a w1) (k2 a w1)) ->
  P (bind m k1 w) (bind m k2 w).
Proof.
  intros Hl Hr. unfold bind. destruct (m w) as [[e|a] w1]; [apply Hl | now apply Hr].
Qed.

Lemma print_enumerated_yaml {V} (line : nat -> string -> V -> Msg) d idx (w w' : World R) u :
  print_enumerated line idx d w = (u, w') -> yaml_files w' = yaml_files w.
Proof.
  intros H. destruct (print_enumerated_ok line d idx w) as (w1 & Hrun & Hs).
  rewrite Hrun in H. injection H as _ <-. apply Hs.
Qed.

(** X14: models without a metadata file change nothing but the output.
    A run over a list of models and the run over those of them whose
    metadata file exists give the same result (the same dictionaries or
    the same exception) and leave the same remote service, the same
    metadata files, the same calls and the same writes; the runs differ
    only in the warnings printed for the missing files. *)
Theorem missing_metadata_files_are_ignored (task : string) (models : list Model)
  (dry_run : bool) (file_type : string) (force_reupload : bool) (w : World R) :
  let all :=
    update_one_modeling_task_article env task models dry_run file_type
      force_reupload w in
  let present :=
    update_one_modeling_task_article env task (present_models w models) dry_run
      file_type force_reupload w in
  fst all = fst present /\ silent (snd all) (snd present).
Proof.
  cbv zeta. unfold update_one_modeling_task_article.
  set (P := fun x y : (PyErr + Buckets) * World R =>
              fst x = fst y /\ silent (snd x) (snd y)).
  assert (Hl : forall e w1, P (inl e, w1) (inl e, w1))
    by (intros e w1; split; [reflexivity | apply silent_refl]).
  match goal with
  | |- fst (bind ?m ?k1 w) = fst (bind ?m ?k2 w) /\ _ =>
      change (P (bind m k1 w) (bind m k2 w))
  end.
  apply bind_cases; [exact Hl|]. intros article_id w0 Hres.
  assert (Y0 : yaml_files w0 = yaml_files w).
  { pose proof (resolve_article_yaml env task dry_run w) as H. now rewrite Hres in H. }
  apply bind_cases; [exact Hl|]. intros [] w1 H1. injection H1 as <-.
  apply bind_cases; [exact Hl|]. intros [] w2 H2.
  assert (Y2 : yaml_files w2 = yaml_files w).
  { destruct dry_run; injection H2 as <-; exact Y0. }
  apply bind_cases; [exact Hl|]. intros existing_files w3 H3.
  apply query_ok in H3. destruct H3 as [_ ->].
  apply bind_cases; [exact Hl|]. intros [] w4 H4. injection H4 as <-.
  apply bind_cases; [exact Hl|]. intros [] w5 H5.
  apply print_enumerated_yaml in H5. simpl in H5.
  destruct (process_models_present env task article_id existing_files dry_run file_type
              force_reupload w models no_files w5 w5 (silent_refl _))
    as [Hf Hs].
  { intros path. now rewrite H5, Y2. }
  unfold bind at 1 3.
  destruct (for_each _ models no_files w5) as [[e|b] wa],
           (for_each _ (present_models w models) no_files w5) as [[e'|b'] wb];
    simpl in Hf, Hs; try discriminate Hf; injection Hf as <-.
  - now split.
  - assert (Hsum : respects (print_summary b ;; @ret R Buckets b)).
    { apply respects_bind; [apply respects_print_summary | intros _; apply respects_ret]. }
    exact (Hsum wa wb Hs).
Qed.
End MissingModelsRun.

(** ** What a run changes in the metadata *)

Section StripFacts.
Import PyStr PyStrFacts.

Lemma strip_items_nil : strip_items [] = [].
Proof. reflexivity. Qed.

Lemma strip_items_cons k v d :
  strip_items ((k, v) :: d)
  = if endswith k "_url" then strip_items d else (k, strip_locators v) :: strip_items d.
Proof. unfold strip_items. simpl. now destruct (endswith k "_url"). Qed.

Lemma strip_dict d : strip_locators (YDict d) = YDict (strip_items d).
Proof. reflexivity. Qed.

#[local] Arguments strip_locators : simpl never.
#[local] Arguments strip_items : simpl never.

Lemma strip_get k d :
  dict_get k (strip_items d)
  = if endswith k "_url" then None else option_map strip_locators (dict_get k d).
Proof.
  induction d as [|[k' v'] d IH]; rewrite ?strip_items_nil, ?strip_items_cons;
    cbn [dict_get option_map].
  - now destruct (endswith k "_url").
  - destruct (String.eqb_spec k k') as [->|Hne].
    + destruct (endswith k' "_url") eqn:E; [exact IH|].
      cbn [dict_get option_map]. now rewrite String.eqb_refl.
    + destruct (endswith k' "_url"); [exact IH|].
      cbn [dict_get]. apply String.eqb_neq in Hne. now rewrite Hne.
Qed.

Lemma strip_set k v d :
  strip_items (dict_set k v d)
  = if endswith k "_url" then strip_items d
    else dict_set k (strip_locators v) (strip_items d).
Proof.
  induction d as [|[k' v'] d IH]; cbn [dict_set].
  - rewrite strip_items_cons, strip_items_nil. now destruct (endswith k "_url").
  - destruct (String.eqb_spec k k') as [->|Hne].
    + rewrite !strip_items_cons. destruct (endswith k' "_url"); [reflexivity|].
      cbn [dict_set]. now rewrite String.eqb_refl.
    + rewrite !strip_items_cons, IH.
      destruct (endswith k "_url"), (endswith k' "_url"); try reflexivity.
      cbn [dict_set]. apply String.eqb_neq in Hne. now rewrite Hne.
Qed.

(** Storing a value that looks like the old one up to locators changes
    nothing up to locators. *)
Lemma strip_set_alike k v v' d :
  dict_get k d = Some v -> strip_locators v' = strip_locators v ->
  strip_items (dict_set k v' d) = strip_items d.
Proof.
  intros Hget Hv. rewrite strip_set. destruct (endswith k "_url") eqn:E; [reflexivity|].
  apply dict_set_same. now rewrite strip_get, E, Hget, Hv.
Qed.

Lemma strip_set_nested parts :
  forall t last v t',
    set_nested t parts last v = inr t' ->
    endswith last "_url" = true ->
    strip_locators t' = strip_locators t.
Proof.
  induction parts as [|part parts IH]; intros t last v t' Hset Hurl;
    destruct t as [x|s|l|items]; try discriminate Hset; simpl in Hset.
  - injection Hset as <-. now rewrite !strip_dict, strip_set, Hurl.
  - destruct (dict_get part items) as [child|] eqn:Ec; [|discriminate].
    destruct (set_nested child parts last v) as [e|child'] eqn:Es; [discriminate|].
    injection Hset as <-. rewrite !strip_dict. f_equal.
    eapply strip_set_alike; [exact Ec|]. eapply IH; eassumption.
Qed.

Lemma strip_set_nested_dict metric_data parts last v metric_data' :
  set_nested_dict metric_data parts last v = inr metric_data' ->
  endswith last "_url" = true ->
  strip_items metric_data' = strip_items metric_data.
Proof.
  intros Hset Hurl. apply set_nested_dict_ok in Hset.
  apply strip_set_nested in Hset; [|exact Hurl].
  rewrite !strip_dict in Hset. now injection Hset.
Qed.

Lemma url_suffix s : endswith (s ++ "_url") "_url" = true.
Proof. apply endswith_spec. now exists s. Qed.

Lemma strip_with_metric_data task model_data metrics metric_data metric_data' :
  yaml_get model_data "metrics" = inr metrics ->
  yaml_get metrics task = inr (YDict metric_data) ->
  strip_items metric_data' = strip_items metric_data ->
  strip_locators (with_metric_data model_data task metric_data')
  = strip_locators model_data.
Proof.
  intros Hm He Hs. unfold with_metric_data.
  destruct model_data as [x|s|l|top]; try reflexivity.
  destruct (dict_get "metrics" top) as [[x|s|l|ms]|] eqn:Em; try reflexivity.
  destruct (dict_has task ms) eqn:Et; [|reflexivity].
  simpl in Hm. rewrite Em in Hm. injection Hm as <-.
  simpl in He. unfold dict_has in Et.
  destruct (dict_get task ms) as [entry|] eqn:Ee; [|discriminate]. injection He as ->.
  rewrite !strip_dict. f_equal.
  eapply strip_set_alike; [exact Em|].
  rewrite !strip_dict. f_equal.
  eapply strip_set_alike; [exact Ee|].
  now rewrite !strip_dict, Hs.
Qed.
End StripFacts.

(** Steps that change neither the metadata files nor the record of
    writes. *)
Ltac frame_tac Hrefl Htrans :=
  repeat first
    [ preserves_step Hrefl Htrans
    | match goal with
      | |- preserves _ (print _) => intros ?w; reflexivity
      | |- preserves _ (query _ _) => intros ?w; reflexivity
      | |- preserves _ (command ?c ?f) =>
          intros ?w; unfold command;
          match goal with |- context [f ?r] => destruct (f r) end; reflexivity
      end ].

Section LocatorsOnly.
Context {R : Type} {F : Figshare R} (env : Env).
Import PyStr PyStrFacts.
#[local] Abbreviation docs_alike := (@docs_alike R).
#[local] Arguments strip_locators : simpl never.
#[local] Arguments strip_items : simpl never.
#[local] Arguments split_path : simpl never.
#[local] Arguments set_nested_dict : simpl never.
#[local] Arguments download_url : simpl never.

Lemma docs_alike_refl (w : World R) : docs_alike w w.
Proof. now intros path. Qed.

Lemma docs_alike_trans (w1 w2 w3 : World R) :
  docs_alike w1 w2 -> docs_alike w2 w3 -> docs_alike w1 w3.
Proof. intros H1 H2 path. now rewrite H2, H1. Qed.

Lemma docs_alike_same (w w' : World R) : yaml_files w' = yaml_files w -> docs_alike w w'.
Proof. intros H path. now rewrite H. Qed.

(** One turn of the file loop changes the tree in locators only. *)
Lemma process_file_strip task model article_id existing_files dry_run force_reupload
  b metric_data item (w : World R) b' metric_data' w' :
  process_file env task model article_id existing_files dry_run force_reupload
    (b, metric_data) item w = (inr (b', metric_data'), w') ->
  strip_items metric_data' = strip_items metric_data.
Proof.
  destruct dry_run.
  - intros H.
    pose proof (process_file_dry_run env task model article_id existing_files
                  force_reupload (b, metric_data) item w) as Hdry.
    rewrite H in Hdry. simpl in Hdry. now injection Hdry as _ ->.
  - destruct item as [key_path rel]. intros H. apply process_file_ok in H.
    destruct H as [(_ & _ & -> & _)|[(_ & _ & Hskip)|(_ & w1 & _ & Hup)]].
    + reflexivity.
    + apply try_skip_ok in Hskip.
      destruct Hskip as (file_hash & size & [[] [file_id|]] & _ & _ & _ & Hres);
        try discriminate Hres.
      destruct Hres as (md & [= _ <-] & Hmd).
      destruct (dict_has (key_path ++ "_url") metric_data); [now subst|].
      eapply strip_set_nested_dict; [exact Hmd|].
      rewrite split_path_url. apply url_suffix.
    + apply upload_ok in Hup. destruct Hup as (file_id & up & r' & _ & _ & _ & Hset).
      eapply strip_set_nested_dict; [exact Hset|]. apply url_suffix.
Qed.

Lemma process_files_strip task model article_id existing_files dry_run force_reupload
  items :
  forall b metric_data (w : World R) b' metric_data' w',
    for_each (process_file env task model article_id existing_files dry_run
                force_reupload) items (b, metric_data) w
    = (inr (b', metric_data'), w') ->
    strip_items metric_data' = strip_items metric_data.
Proof.
  intros b metric_data w b' metric_data' w' H.
  apply (for_each_ok_rel (fun s s' => strip_items (snd (fst s')) = strip_items (snd (fst s))))
    in H; [exact H | reflexivity | intros ? ? ? ? ?; congruence |].
  intros [b0 md0] item w0 [b1 md1] w1 _ Hstep. simpl.
  eapply process_file_strip. exact Hstep.
Qed.

(** The file loop leaves the metadata files alone, however it ends. *)
Lemma process_files_keep_yaml task model article_id existing_files dry_run
  force_reupload items st :
  preserves (fun w w' : World R => yaml_files w' = yaml_files w)
    (for_each (process_file env task model article_id existing_files dry_run
                 force_reupload) items st).
Proof.
  assert (Hrefl : forall w : World R, yaml_files w = yaml_files w) by reflexivity.
  assert (Htrans : forall w1 w2 w3 : World R,
             yaml_files w2 = yaml_files w1 -> yaml_files w3 = yaml_files w2 ->
             yaml_files w3 = yaml_files w1) by (intros; congruence).
  unfold process_file, try_skip, upload.
  frame_tac Hrefl Htrans.
Qed.

(** Going through a model changes its document in locators only. *)
Lemma process_model_alike task article_id existing_files dry_run file_type
  force_reupload b model :
  preserves docs_alike
    (process_model env task article_id existing_files dry_run file_type force_reupload
       b model).
Proof.
  intros w. unfold process_model, bind at 1, yaml_isfile. cbn [fst snd].
  destruct (negb (dict_has (yaml_path model) (yaml_files w)));
    [apply docs_alike_same; reflexivity|].
  unfold bind at 1, load_yaml.
  destruct (dict_get (yaml_path model) (yaml_files w)) as [model_data|] eqn:Edoc;
    [|apply docs_alike_refl].
  destruct (yaml_get model_data "metrics") as [e|metrics] eqn:Em;
    [rewrite bind_lift_inl; apply docs_alike_refl|].
  rewrite bind_lift_inr.
  destruct (yaml_get metrics task) as [e|entry] eqn:Ee;
    [rewrite bind_lift_inl; apply docs_alike_refl|].
  rewrite bind_lift_inr.
  destruct entry as [x|s|l|metric_data]; try apply docs_alike_refl.
  unfold bind at 1.
  pose proof (process_files_keep_yaml task model article_id existing_files dry_run
                force_reupload (find_file_keys file_type metric_data "")
                (b, metric_data) w) as Hy.
  destruct (for_each _ _ _ w) as [[e|[b1 md1]] w1] eqn:Eloop; cbn [snd] in Hy |- *.
  - now apply docs_alike_same.
  - apply process_files_strip in Eloop.
    destruct dry_run; cbn [negb fst snd]; [now apply docs_alike_same|].
    intros path. cbn [yaml_files dump_yaml bind ret fst snd]. rewrite Hy, dict_get_set.
    destruct (String.eqb_spec path (yaml_path model)) as [->|Hne]; [|reflexivity].
    rewrite Edoc. cbn [option_map]. f_equal.
    eapply strip_with_metric_data; eassumption.
Qed.

(** X15: a run changes the metadata in locators only.  Whatever the
    arguments and the state, and whether the run returns or raises: no
    metadata file appears or disappears, and every document, once the
    entries whose key ends in [_url] are taken out of its mappings, is
    what it was.  (What lies under such a key is taken out with it.) *)
Theorem run_changes_only_locators (task : string) (models : list Model)
  (dry_run : bool) (file_type : string) (force_reupload : bool) (w : World R)
  (path : string) :
  option_map strip_locators
    (dict_get path
       (yaml_files (snd (update_one_modeling_task_article env task models dry_run
                           file_type force_reupload w))))
  = option_map strip_locators (dict_get path (yaml_files w)).
Proof.
  revert path.
  change (docs_alike w (snd (update_one_modeling_task_article env task models dry_run
                               file_type force_reupload w))).
  revert w.
  change (preserves docs_alike
            (update_one_modeling_task_article env task models dry_run file_type
               force_reupload)).
  unfold update_one_modeling_task_article, resolve_article, print_summary.
  repeat first
    [ apply process_model_alike
    | preserves_step docs_alike_refl docs_alike_trans
    | match goal with
      | |- preserves _ (print _) => intros w; apply docs_alike_same; reflexivity
      | |- preserves _ (query _ _) => intros w; apply docs_alike_same; reflexivity
      | |- preserves _ (command ?c ?f) =>
          intros w; apply docs_alike_same; unfold command;
          destruct (f (remote w)); reflexivity
      | |- preserves _ (print_enumerated ?line ?idx ?d) =>
          intros w; apply docs_alike_same;
          destruct (print_enumerated_ok line d idx w) as (w1 & Hrun & Hs);
          rewrite Hrun; apply Hs
      end ].
Qed.
End LocatorsOnly.

(** ** Which metadata files are written *)

Section Writes.
Context {R : Type} {F : Figshare R} (env : Env).
#[local] Arguments find_file_keys : simpl never.

(** The entry of the task is a mapping before and after the metric data
    went back into the document. *)
Lemma with_metric_data_shape task model_data metrics metric_data metric_data' :
  yaml_get model_data "metrics" = inr metrics ->
  yaml_get metrics task = inr (YDict metric_data) ->
  exists metrics' metric_data'',
    yaml_get (with_metric_data model_data task metric_data') "metrics" = inr metrics'
    /\ yaml_get metrics' task = inr (YDict metric_data'').
Proof.
  intros Hm He. unfold with_metric_data.
  destruct model_data as [x|s|l|top]; try discriminate. simpl in Hm.
  destruct (dict_get "metrics" top) as [m|] eqn:Etop.
  - injection Hm as ->. destruct metrics as [x|s|l|ms]; try discriminate.
    simpl in He. unfold dict_has. destruct (dict_get task ms) as [e|] eqn:Etask.
    + injection He as ->. eexists _, _. split.
      * simpl. rewrite dict_get_set_eq. reflexivity.
      * simpl. now rewrite dict_get_set_eq.
    + exists (YDict ms), []. split; [simpl; now rewrite Etop|]. simpl. now rewrite Etask.
  - injection Hm as <-. exists (YDict []), []. split; [|reflexivity].
    simpl. now rewrite Etop.
Qed.

Lemma has_task_mapping_frame task docs docs' model :
  dict_get (yaml_path model) docs' = dict_get (yaml_path model) docs ->
  has_task_mapping task docs' model = has_task_mapping task docs model.
Proof. unfold has_task_mapping, metric_data_of. now intros ->. Qed.

(** One turn of the model loop outside a dry run: the metadata file is
    written exactly when the entry of the task is a mapping, and whether
    it is one is the same afterwards for every model. *)
Lemma process_model_writes task article_id existing_files file_type force_reupload
  b model (w : World R) b' w' :
  process_model env task article_id existing_files false file_type force_reupload
    b model w = (inr b', w') ->
  yaml_writes w'
  = (yaml_writes w
       ++ if has_task_mapping task (yaml_files w) model then [yaml_path model] else [])%list
  /\ forall m, has_task_mapping task (yaml_files w') m
               = has_task_mapping task (yaml_files w) m.
Proof.
  intros H. apply process_model_ok in H.
  destruct H as [(Hnone & _ & ->)|(doc & metrics & entry & Hdoc & Hm & He & H)].
  - unfold has_task_mapping, metric_data_of. rewrite Hnone. simpl.
    now rewrite app_nil_r.
  - assert (Hshape : has_task_mapping task (yaml_files w) model
                     = match entry with YDict _ => true | _ => false end).
    { unfold has_task_mapping, metric_data_of. rewrite Hdoc, Hm, He. now destruct entry. }
    destruct H as [(Hnd & _ & ->)|(md & md' & w1 & -> & Hloop & ->)].
    + rewrite Hshape. destruct entry; try (now rewrite app_nil_r). now destruct (Hnd d).
    + rewrite Hshape. apply process_files_yaml in Hloop. destruct Hloop as [Hy Hw].
      simpl. rewrite Hw. split; [reflexivity|].
      intros m. rewrite Hy.
      destruct (String.eqb_spec (yaml_path m) (yaml_path model)) as [Heq|Hne].
      * unfold has_task_mapping, metric_data_of. rewrite Heq, dict_get_set_eq, Hdoc, Hm, He.
        destruct (with_metric_data_shape task doc metrics md md' Hm He)
          as (metrics' & md'' & Hm' & He').
        now rewrite Hm', He'.
      * apply has_task_mapping_frame. now apply dict_get_set_neq.
Qed.

Lemma process_models_writes task article_id existing_files file_type force_reupload
  models :
  forall b (w : World R) b' w',
    for_each (process_model env task article_id existing_files false file_type
                force_reupload) models b w = (inr b', w') ->
    yaml_writes w'
    = (yaml_writes w
         ++ map yaml_path (filter (has_task_mapping task (yaml_files w)) models))%list.
Proof.
  induction models as [|m models IH]; intros b w b' w' H.
  - apply ret_ok in H. destruct H as [_ ->]. simpl. now rewrite app_nil_r.
  - apply for_each_cons_ok in H. destruct H as (b1 & w1 & Hstep & Hrest).
    apply process_model_writes in Hstep. destruct Hstep as [Hw Hsame].
    rewrite (IH _ _ _ _ Hrest), Hw, (filter_ext _ _ Hsame). simpl.
    destruct (has_task_mapping task (yaml_files w) m); simpl;
      now rewrite <- app_assoc.
Qed.

Lemma resolve_article_writes task dry_run (w : World R) :
  yaml_writes (snd (resolve_article env task dry_run w)) = yaml_writes w.
Proof.
  revert w.
  change (preserves (fun w w' => yaml_writes w' = yaml_writes w)
            (resolve_article env task dry_run)).
  assert (Hrefl : forall w : World R, yaml_writes w = yaml_writes w) by reflexivity.
  assert (Htrans : forall w1 w2 w3 : World R,
             yaml_writes w2 = yaml_writes w1 -> yaml_writes w3 = yaml_writes w2 ->
             yaml_writes w3 = yaml_writes w1) by (intros; congruence).
  unfold resolve_article.
  frame_tac Hrefl Htrans.
Qed.

(** X16: the metadata files a run writes.  A run that is not a dry run and
    returns has opened for writing, in the order of the models and once
    for every model of the list, the metadata file of each model whose
    document is there with a mapping (or nothing) under the task, whether
    or not its tree was changed, and no other file. *)
Theorem every_processed_model_is_written (task : string) (models : list Model)
  (file_type : string) (force_reupload : bool) (w : World R) (b : Buckets)
  (w' : World R) :
  update_one_modeling_task_article env task models false file_type force_reupload w
  = (inr b, w') ->
  yaml_writes w'
  = (yaml_writes w
       ++ map yaml_path (filter (has_task_mapping task (yaml_files w)) models))%list.
Proof.
  intros H. apply update_one_ok in H.
  destruct H as (article_id & w0 & existing_files & w1 & w2
                 & Hres & _ & _ & Hy1 & Hw1 & _ & Hloop & Hs).
  apply process_models_writes in Hloop.
  pose proof (resolve_article_yaml env task false w) as Hy0.
  pose proof (resolve_article_writes task false w) as Hw0.
  rewrite Hres in Hy0, Hw0. simpl in Hy0, Hw0.
  destruct Hs as (_ & _ & _ & Hs). rewrite Hs, Hloop, Hw1, Hw0, Hy1, Hy0. reflexivity.
Qed.
End Writes.

Section WritesExample.
Import Reference Scenario MoreScenarios.

Lemma every_processed_model_is_written_witness :
  yaml_writes (snd (run "discovery" [m2; m1] false "all" false remote_empty docs_m1))
  = ["models/m1.yml"].
Proof.
  refine (@every_processed_model_is_written Remote fs ev "discovery" [m2; m1] "all" false
            (world remote_empty docs_m1)
            {| skipped_files := []; updated_files := [];
               new_files := [("a/b.csv", "https://figshare.com/files/100")] |}
            (snd (run "discovery" [m2; m1] false "all" false remote_empty docs_m1)) _).
  vm_compute. reflexivity.
Defined.
End WritesExample.

(** ** What the loop over the files does with a file *)

Section FileOutcome.
Context {R : Type} {F : Figshare R} (env : Env).
#[local] Arguments split_path : simpl never.
#[local] Arguments set_nested_dict : simpl never.
#[local] Arguments download_url : simpl never.

Lemma sorted_by_listing_skipped existing_files rel url b :
  isfile env (ROOT env ++ "/" ++ rel) = true ->
  sorted_by_listing env existing_files b ->
  sorted_by_listing env existing_files (record_skipped rel url b).
Proof.
  intros Hfile (Hu & Hn & Hf). unfold record_skipped. repeat split; simpl; trivial.
  intros name. rewrite keys_set_iff. intros [[->|H]|H]; [exact Hfile| |]; apply Hf; tauto.
Qed.

Lemma sorted_by_listing_uploaded existing_files rel url b :
  isfile env (ROOT env ++ "/" ++ rel) = true ->
  sorted_by_listing env existing_files b ->
  sorted_by_listing env existing_files (record_uploaded existing_files rel url b).
Proof.
  intros Hfile (Hu & Hn & Hf). unfold record_uploaded.
  destruct (dict_has rel existing_files) eqn:Eh; repeat split; simpl; trivial;
    intros name; rewrite ?keys_set_iff.
  - intros [->|H]; [exact Eh | now apply Hu].
  - intros [H|[[->|H]|H]]; [| exact Hfile | |]; apply Hf; tauto.
  - intros [->|H]; [exact Eh | now apply Hn].
  - intros [H|[H|[->|H]]]; [| | exact Hfile |]; apply Hf; tauto.
Qed.

Lemma process_file_by_listing task model article_id existing_files force_reupload
  b metric_data item (w : World R) b' metric_data' w' :
  process_file env task model article_id existing_files false force_reupload
    (b, metric_data) item w = (inr (b', metric_data'), w') ->
  sorted_by_listing env existing_files b -> sorted_by_listing env existing_files b'.
Proof.
  destruct item as [key_path rel]. intros H Hs. apply process_file_ok in H.
  destruct H as [(_ & -> & _)|[(Hfile & _ & H)|(Hfile & w1 & _ & H)]].
  - exact Hs.
  - apply try_skip_ok in H. destruct H as (h & sz & found & _ & _ & _ & H).
    destruct found as [[] [fid|]]; try discriminate.
    destruct H as (md & [= -> _] & _). now apply sorted_by_listing_skipped.
  - apply upload_ok in H. destruct H as (fid & up & r' & _ & _ & -> & _).
    now apply sorted_by_listing_uploaded.
Qed.

Lemma process_model_by_listing task article_id existing_files file_type force_reupload
  b model (w : World R) b' w' :
  process_model env task article_id existing_files false file_type force_reupload
    b model w = (inr b', w') ->
  sorted_by_listing env existing_files b -> sorted_by_listing env existing_files b'.
Proof.
  intros H. apply process_model_ok in H.
  destruct H as [(_ & -> & _)|(doc & metrics & entry & _ & _ & _ & H)]; [trivial|].
  destruct H as [(_ & -> & _)|(md & md' & w1 & _ & Hloop & _)]; [trivial|].
  refine (for_each_ok_rel
            (fun s s' => sorted_by_listing env existing_files (fst (fst s)) ->
                         sorted_by_listing env existing_files (fst (fst s')))
            _ _ ltac:(tauto) ltac:(tauto) _ _ _ _ _ Hloop).
  intros [b0 md0] item w0 [b1 md1] w2 _ Hstep. simpl.
  eapply process_file_by_listing. exact Hstep.
Qed.

(** X17: the three dictionaries against the listing of the article.  In a
    run that returns, with the listing [get_existing_files] gave for the
    article the run settled on: every name in [updated_files] is in that
    listing, no name in [new_files] is, and every name in one of the
    three dictionaries is the path, relative to [ROOT], of a file that
    exists. *)
Theorem uploads_are_sorted_by_listing (task : string) (models : list Model)
  (dry_run : bool) (file_type : string) (force_reupload : bool) (w : World R)
  (b : Buckets) (w' : World R) :
  update_one_modeling_task_article env task models dry_run file_type force_reupload w
  = (inr b, w') ->
  exists article_id w0 existing_files,
    resolve_article env task dry_run w = (inr article_id, w0)
    /\ get_existing_files article_id (remote w0) = inr existing_files
    /\ sorted_by_listing env existing_files b.
Proof.
  intros H. apply update_one_ok in H.
  destruct H as (article_id & w0 & existing_files & w1 & w2
                 & Hres & Hlist & _ & _ & _ & _ & Hloop & _).
  exists article_id, w0, existing_files. split; [exact Hres|]. split; [exact Hlist|].
  assert (H0 : sorted_by_listing env existing_files no_files).
  { repeat split; simpl; try contradiction. intros name [[]|[[]|[]]]. }
  destruct dry_run.
  - apply (for_each_ok_rel (fun s s' => fst s' = fst s)) in Hloop;
      [simpl in Hloop; now rewrite Hloop | reflexivity | intros ? ? ? ? ?; congruence |].
    intros a m wa a1 wb _ Hm. simpl. eapply process_model_dry_buckets. exact Hm.
  - refine (for_each_ok_rel
              (fun s s' => sorted_by_listing env existing_files (fst s) ->
                           sorted_by_listing env existing_files (fst s'))
              _ _ ltac:(tauto) ltac:(tauto) _ _ _ _ _ Hloop H0).
    intros a m wa a1 wb _ Hm. simpl. eapply process_model_by_listing. exact Hm.
Qed.

(** X18: what the loop body does with a file that exists.  Outside a dry
    run, when the body of the file loop returns for a reference whose
    file exists under [ROOT], then either the run is not forced, the
    remote service reported for the hash of the local file a file of
    the same name with that hash, the remote service is as it was and
    the name is in [skipped_files] with the download URL of the reported
    id; or [upload_file_if_needed] returned an id (after the remote
    service reported no such file, unless the run is forced), the name
    is in [updated_files] or [new_files], according to the listing, with
    the download URL of that id, and the same URL is in the tree beside
    the reference, under the last key of the key-path with [_url]
    appended. *)
Theorem file_is_skipped_or_uploaded (task : string) (model : Model) (article_id : Z)
  (existing_files : Dict FileData) (force_reupload : bool) (b : Buckets)
  (metric_data : Dict Yaml) (key_path rel : string) (w : World R)
  (b' : Buckets) (metric_data' : Dict Yaml) (w' : World R) :
  process_file env task model article_id existing_files false force_reupload
    (b, metric_data) (key_path, rel) w = (inr (b', metric_data'), w') ->
  isfile env (ROOT env ++ "/" ++ rel) = true ->
  (force_reupload = false
   /\ remote w' = remote w
   /\ exists file_hash size file_id,
        get_file_hash_and_size (ROOT env ++ "/" ++ rel) = inr (file_hash, size)
        /\ file_exists_with_same_hash article_id rel file_hash (remote w)
           = inr (true, Some file_id)
        /\ b' = record_skipped rel (download_url file_id) b)
  \/ (exists file_id was_uploaded,
         upload_file_if_needed article_id (ROOT env ++ "/" ++ rel) rel force_reupload
           (remote w) = (inr (file_id, was_uploaded), remote w')
         /\ b' = record_uploaded existing_files rel (download_url file_id) b
         /\ get_nested (YDict metric_data') (slot_path key_path)
            = Some (YStr (download_url file_id)))
     /\ (force_reupload = false ->
         exists file_hash size found,
           get_file_hash_and_size (ROOT env ++ "/" ++ rel) = inr (file_hash, size)
           /\ file_exists_with_same_hash article_id rel file_hash (remote w) = inr found
           /\ forall file_id, found <> (true, Some file_id)).
Proof.
  intros H Hfile. apply process_file_ok in H.
  destruct H as [(Hno & _)|[(_ & Hforce & H)|(_ & w1 & Hpre & H)]].
  - congruence.
  - left. apply try_skip_ok in H.
    destruct H as (file_hash & size & found & Hhash & Hfound & -> & H).
    destruct found as [[] [file_id|]]; try discriminate.
    destruct H as (md & [= -> _] & _).
    split; [exact Hforce|]. split; [reflexivity|].
    now exists file_hash, size, file_id.
  - right. apply upload_ok in H.
    destruct H as (file_id & was_uploaded & r' & Hup & -> & -> & Hset).
    assert (Hr : remote w1 = remote w /\
                 (force_reupload = false ->
                  exists file_hash size found,
                    get_file_hash_and_size (ROOT env ++ "/" ++ rel) = inr (file_hash, size)
                    /\ file_exists_with_same_hash article_id rel file_hash (remote w)
                       = inr found
                    /\ forall file_id, found <> (true, Some file_id))).
    { destruct force_reupload; [subst w1; split; [reflexivity | discriminate]|].
      apply try_skip_ok in Hpre.
      destruct Hpre as (file_hash & size & found & Hhash & Hfound & -> & Hnone).
      split; [reflexivity|]. intros _. exists file_hash, size, found.
      split; [exact Hhash|]. split; [exact Hfound|].
      intros file_id' ->. destruct Hnone as (md & Hmd & _). discriminate Hmd. }
    destruct Hr as [Hr Hcheck]. split; [|exact Hcheck].
    exists file_id, was_uploaded. simpl. rewrite <- Hr. split; [exact Hup|].
    split; [reflexivity|].
    apply set_nested_dict_ok in Hset. apply set_get_same in Hset. exact Hset.
Qed.
End FileOutcome.

Section FileOutcomeExamples.
Import Reference Scenario.

Lemma uploads_are_sorted_by_listing_witness :
  exists article_id w0 existing_files,
    @resolve_article Remote fs ev "discovery" false (world remote_with_b docs_energy)
    = (inr article_id, w0)
    /\ @get_existing_files Remote fs article_id (remote w0) = inr existing_files
    /\ sorted_by_listing ev existing_files
         {| skipped_files := [("a/b.csv", "https://figshare.com/files/41")];
            updated_files := [];
            new_files := [("a/c.csv", "https://figshare.com/files/100")] |}.
Proof.
  refine (@uploads_are_sorted_by_listing Remote fs ev "discovery" [m1] false "all" false
            (world remote_with_b docs_energy) _
            (snd (run "discovery" [m1] false "all" false remote_with_b docs_energy)) _).
  vm_compute. reflexivity.
Defined.

Lemma file_is_skipped_or_uploaded_witness :
  exists file_id,
    get_nested
      (YDict [ ("energy_pred_file", YStr "a/b.csv");
               ("energy_pred_file_url", YStr "https://figshare.com/files/100") ])
      (slot_path "energy_pred_file")
    = Some (YStr (@download_url Remote fs file_id)).
Proof.
  destruct (@file_is_skipped_or_uploaded Remote fs ev "discovery" m1 7%Z [] false
              no_files tree_pred_only "energy_pred_file" "a/b.csv"
              (world remote_empty [])
              {| skipped_files := []; updated_files := [];
                 new_files := [("a/b.csv", "https://figshare.com/files/100")] |}
              [ ("energy_pred_file", YStr "a/b.csv");
                ("energy_pred_file_url", YStr "https://figshare.com/files/100") ]
              (snd (@process_file Remote fs ev "discovery" m1 7%Z [] false false
                      (no_files, tree_pred_only) ("energy_pred_file", "a/b.csv")
                      (world remote_empty [])))
              ltac:(vm_compute; reflexivity) eq_refl)
    as [(_ & _ & h & sz & file_id & _ & Hmatch & _)|[(file_id & up & _ & _ & Hslot) _]].
  - vm_compute in Hmatch. discriminate Hmatch.
  - exists file_id. exact Hslot.
Defined.
End FileOutcomeExamples.

(** ** The metadata of a new article *)

Section ArticleMetadata.
Context {R : Type} {F : Figshare R} (env : Env).

(** X19: the metadata [get_article_metadata] builds for an article.  A task
    that [MODELING_TASKS] does not know gives [KeyError] for the task.
    For a known task the tags are the keywords of the project followed by
    one more tag, [task-<task>], so the metadata of two different tasks
    are never the same. *)
Theorem article_metadata_tells_tasks_apart (task task' : string) :
  (dict_get task (MODELING_TASKS env) = None ->
   get_article_metadata env task = inl (KeyError task))
  /\ forall metadata,
       get_article_metadata env task = inr metadata ->
       dict_has task (MODELING_TASKS env) = true
       /\ removelast (tags metadata) = keywords env
       /\ List.last (tags metadata) "" = "task-" ++ task
       /\ (get_article_metadata env task' = inr metadata -> task' = task).
Proof.
  unfold get_article_metadata, dict_has. split.
  - now intros ->.
  - intros metadata.
    destruct (dict_get task (MODELING_TASKS env)) as [task_info|]; [|discriminate].
    intros [= <-]. cbn [tags]. split; [reflexivity|].
    split; [apply removelast_last|]. split; [apply last_last|].
    destruct (dict_get task' (MODELING_TASKS env)) as [task_info'|]; [|discriminate].
    intros [= _ _ Htags]. apply app_inv_head in Htags. now injection Htags.
Qed.
End ArticleMetadata.

Section ArticleMetadataExample.
Import Reference Scenario.

Lemma article_metadata_tells_tasks_apart_witness :
  exists metadata,
    @get_article_metadata Remote fs ev "geo_opt" = inr metadata
    /\ List.last (tags metadata) "" = "task-geo_opt".
Proof.
  eexists. split; [reflexivity|].
  refine (proj1 (proj2 (proj2 (proj2 (@article_metadata_tells_tasks_apart Remote fs ev
                                        "geo_opt" "discovery") _ eq_refl)))).
Defined.
End ArticleMetadataExample.

(** ** The summary a run prints *)

Section Summary.
Context {R : Type} {F : Figshare R} (env : Env).
#[local] Abbreviation grows := (@grows R).

(** The lines [enumerate(d.items(), start=idx)] gives rise to. *)
Lemma print_enumerated_stdout {V} (line : nat -> string -> V -> Msg) d :
  forall idx (w : World R),
    stdout (snd (print_enumerated line idx d w))
    = (stdout w
         ++ map (fun ik => line (fst ik) (fst (snd ik)) (snd (snd ik)))
              (combine (seq idx (length d)) d))%list.
Proof.
  induction d as [|[k v] d IH]; intros idx w; simpl.
  - now rewrite app_nil_r.
  - rewrite bind_print, IH. simpl. now rewrite <- app_assoc.
Qed.

Lemma print_enumerated_returns {V} (line : nat -> string -> V -> Msg) d idx (w : World R) :
  fst (print_enumerated line idx d w) = inr tt.
Proof.
  destruct (print_enumerated_ok line d idx w) as (w' & Hrun & _). now rewrite Hrun.
Qed.

Lemma numbered_lines (d : Dict string) name url :
  forall idx,
    (exists i, In (MFileLine i name url)
                 (map (fun ik => MFileLine (fst ik) (fst (snd ik)) (snd (snd ik)))
                    (combine (seq idx (length d)) d)))
    <-> In (name, url) d.
Proof.
  induction d as [|[k v] d IH]; intros idx; simpl.
  - split; [intros (i & []) | intros []].
  - split.
    + intros (i & [[= _ <- <-]|Hin]); [now left|].
      right. apply (IH (S idx)). now exists i.
    + intros [[= <- <-]|Hin]; [exists idx; now left|].
      apply (IH (S idx)) in Hin. destruct Hin as (i & Hi). exists i. now right.
Qed.

Lemma no_nothing_done (d : Dict string) idx :
  ~ In MNothingDone
      (map (fun ik => MFileLine (fst ik) (fst (snd ik)) (snd (snd ik)))
         (combine (seq idx (length d)) d)).
Proof.
  intros H. apply in_map_iff in H. destruct H as (ik & Heq & _). discriminate Heq.
Qed.

(** One block of the listing: the heading and the numbered lines of a
    dictionary that is not empty. *)
Lemma block_stdout (hdr : Msg) (d : Dict string) (w : World R) :
  (forall i name url, hdr <> MFileLine i name url) -> hdr <> MNothingDone ->
  exists w' lines,
    (if nonempty d then print hdr ;; print_enumerated MFileLine 1 d else ret tt) w
    = (inr tt, w')
    /\ stdout w' = (stdout w ++ lines)%list
    /\ (forall name url,
           (exists i, In (MFileLine i name url) lines) <-> In (name, url) d)
    /\ ~ In MNothingDone lines.
Proof.
  intros Hhdr Hnd. destruct d as [|kv d]; cbn [nonempty].
  - exists w, []. rewrite app_nil_r. repeat split; try tauto.
    + intros (i & []).
    + intros [].
  - rewrite bind_print.
    pose proof (print_enumerated_returns MFileLine (kv :: d) 1 (printed hdr w)) as Hret.
    pose proof (print_enumerated_stdout MFileLine (kv :: d) 1 (printed hdr w)) as Hout.
    destruct (print_enumerated MFileLine 1 (kv :: d) (printed hdr w)) as [res w'].
    cbn [fst snd] in Hret, Hout. subst res.
    eexists w', (hdr :: _). split; [reflexivity|].
    split; [rewrite Hout; cbn [stdout printed]; now rewrite <- app_assoc|].
    split.
    + intros name url. rewrite <- (numbered_lines (kv :: d) name url 1). split.
      * intros (i & [Heq|Hin]); [now destruct (Hhdr i name url) | now exists i].
      * intros (i & Hin). exists i. now right.
    + intros [Heq|Hin]; [now apply Hnd | now apply no_nothing_done in Hin].
Qed.

(** What [print_summary] prints. *)
Lemma print_summary_stdout b (w w' : World R) :
  print_summary b w = (inr tt, w') ->
  exists listing,
    stdout w'
    = (stdout w
         ++ MNewlyAdded (length (new_files b)) :: MUpdated (length (updated_files b))
         :: MSkipped (length (skipped_files b)) :: listing)%list
    /\ (forall name url,
           (exists i, In (MFileLine i name url) listing)
           <-> In (name, url) (new_files b ++ updated_files b ++ skipped_files b)%list)
    /\ (In MNothingDone listing
        <-> new_files b = [] /\ updated_files b = [] /\ skipped_files b = []).
Proof.
  unfold print_summary. rewrite !bind_print.
  set (w3 := printed _ (printed _ (printed _ w))).
  assert (H3 : stdout w3
               = (stdout w ++ [MNewlyAdded (length (new_files b));
                               MUpdated (length (updated_files b));
                               MSkipped (length (skipped_files b))])%list).
  { subst w3. simpl. now rewrite <- !app_assoc. }
  destruct (nonempty (new_files b) || nonempty (updated_files b)
            || nonempty (skipped_files b)) eqn:Eany.
  - destruct (block_stdout MNewHeader (new_files b) w3) as (w4 & l1 & R1 & O1 & L1 & N1);
      try discriminate.
    destruct (block_stdout MUpdatedHeader (updated_files b) w4)
      as (w5 & l2 & R2 & O2 & L2 & N2); try discriminate.
    destruct (block_stdout MSkippedHeader (skipped_files b) w5)
      as (w6 & l3 & R3 & O3 & L3 & N3); try discriminate.
    rewrite (bind_inr _ _ _ _ _ R1), (bind_inr _ _ _ _ _ R2), R3.
    intros [= <-]. exists (l1 ++ l2 ++ l3)%list. split; [|split].
    + rewrite O3, O2, O1, H3, <- !app_assoc. reflexivity.
    + intros name url. rewrite !in_app_iff. split.
      * intros (i & Hi). rewrite !in_app_iff in Hi.
        destruct Hi as [Hi|[Hi|Hi]];
          [left; apply L1 | right; left; apply L2 | right; right; apply L3];
          now exists i.
      * intros [Hn|[Hn|Hn]]; [apply L1 in Hn | apply L2 in Hn | apply L3 in Hn];
          destruct Hn as (i & Hi); exists i; rewrite !in_app_iff; tauto.
    + split.
      * rewrite !in_app_iff. tauto.
      * intros (E1 & E2 & E3). rewrite E1, E2, E3 in Eany. discriminate Eany.
  - apply orb_false_iff in Eany. destruct Eany as [Eany E3].
    apply orb_false_iff in Eany. destruct Eany as [E1 E2].
    destruct (new_files b), (updated_files b), (skipped_files b); try discriminate.
    rewrite print_ok. intros [= <-]. exists [MNothingDone]. split; [|split].
    + simpl. rewrite <- !app_assoc. reflexivity.
    + intros name url. simpl. split; [intros (i & [Heq|[]]); discriminate Heq | intros []].
    + simpl. tauto.
Qed.

(** X20: the summary is the last thing a run prints and it reports the
    three dictionaries.  A run that returns has added to standard output,
    at the end, the three counts (the sizes of [new_files],
    [updated_files] and [skipped_files]) and a listing; a file name with
    its URL is on a numbered line of the listing exactly when it is an
    entry of one of the three dictionaries; and the listing holds
    [No files were added or updated.] exactly when all three are empty. *)
Theorem summary_reports_the_dictionaries (task : string) (models : list Model)
  (dry_run : bool) (file_type : string) (force_reupload : bool) (w : World R)
  (b : Buckets) (w' : World R) :
  update_one_modeling_task_article env task models dry_run file_type force_reupload w
  = (inr b, w') ->
  exists before listing,
    stdout w'
    = (stdout w ++ before
         ++ MNewlyAdded (length (new_files b)) :: MUpdated (length (updated_files b))
         :: MSkipped (length (skipped_files b)) :: listing)%list
    /\ (forall name url,
           (exists i, In (MFileLine i name url) listing)
           <-> In (name, url) (new_files b ++ updated_files b ++ skipped_files b)%list)
    /\ (In MNothingDone listing
        <-> new_files b = [] /\ updated_files b = [] /\ skipped_files b = []).
Proof.
  intros H. apply update_one_ends_with_summary in H.
  destruct H as (article_id & existing_files & w1 & w2 & G1 & _ & G2 & Hsum).
  destruct (grows_trans _ _ _ G1 G2) as (before & Hbefore).
  apply print_summary_stdout in Hsum. destruct Hsum as (listing & Hout & Hlines & Hnone).
  exists before, listing. split; [|now split].
  rewrite Hout, Hbefore, <- app_assoc. reflexivity.
Qed.
End Summary.

Section SummaryExample.
Import Reference Scenario.

Lemma summary_reports_the_dictionaries_witness :
  exists before listing,
    stdout (snd (run "discovery" [m1] false "all" false remote_with_b docs_energy))
    = (before
         ++ MNewlyAdded 1 :: MUpdated 0 :: MSkipped 1 :: listing)%list
    /\ exists i, In (MFileLine i "a/c.csv" "https://figshare.com/files/100") listing.
Proof.
  destruct (@summary_reports_the_dictionaries Remote fs ev "discovery" [m1] false "all"
              false (world remote_with_b docs_energy)
              {| skipped_files := [("a/b.csv", "https://figshare.com/files/41")];
                 updated_files := [];
                 new_files := [("a/c.csv", "https://figshare.com/files/100")] |}
              (snd (run "discovery" [m1] false "all" false remote_with_b docs_energy))
              ltac:(vm_compute; reflexivity))
    as (before & listing & Hout & Hlines & _).
  exists before, listing. split; [exact Hout|].
  apply Hlines. now left.
Defined.
End SummaryExample.

(** ** Documents a run can work with *)

Section Readable.
Context {R : Type} {F : Figshare R} (env : Env).
#[local] Abbreviation docs_alike := (@docs_alike R).
#[local] Arguments strip_locators : simpl never.
#[local] Arguments strip_items : simpl never.

(** Whether [metrics] can be read from a document is a matter of the
    document up to its locators. *)
Lemma readable_alike doc doc' metrics :
  strip_locators doc' = strip_locators doc ->
  yaml_get doc "metrics" = inr (YDict metrics) ->
  exists metrics', yaml_get doc' "metrics" = inr (YDict metrics').
Proof.
  intros Hs Hget. destruct doc as [x|s|l|top]; try discriminate Hget.
  destruct doc' as [x|s|l|top']; try discriminate Hs.
  rewrite !strip_dict in Hs. injection Hs as Hs.
  pose proof (strip_get "metrics" top) as Ht.
  pose proof (strip_get "metrics" top') as Ht'. rewrite Hs, Ht in Ht'.
  change (PyStr.endswith "metrics" "_url") with false in Ht'. cbv iota in Ht'.
  simpl in Hget |- *.
  destruct (dict_get "metrics" top) as [v|], (dict_get "metrics" top') as [v'|];
    simpl in Ht'; try discriminate Ht'.
  - injection Hget as ->. injection Ht' as Hv. rewrite strip_dict in Hv.
    destruct v' as [x|s|l|ms']; try discriminate Hv. now exists ms'.
  - now exists [].
Qed.

(** A model that is gone through has a document [metrics] can be read
    from. *)
Lemma process_model_reads task article_id existing_files dry_run file_type
  force_reupload b model (w : World R) b' w' doc :
  process_model env task article_id existing_files dry_run file_type force_reupload
    b model w = (inr b', w') ->
  dict_get (yaml_path model) (yaml_files w) = Some doc ->
  exists metrics, yaml_get doc "metrics" = inr (YDict metrics).
Proof.
  unfold process_model. intros H Hdoc.
  apply bind_ok in H. destruct H as (present & w0 & Hpresent & H).
  apply ret_ok in Hpresent. destruct Hpresent as [-> ->]. unfold dict_has in H.
  rewrite Hdoc in H. cbn [negb] in H.
  apply bind_ok in H. destruct H as (doc0 & w0 & Hload & H).
  unfold load_yaml in Hload. rewrite Hdoc in Hload. injection Hload as <- <-.
  apply bind_ok in H. destruct H as (metrics & w0 & Hm & H).
  apply lift_ok in Hm. destruct Hm as [Hm ->].
  apply bind_ok in H. destruct H as (entry & w0 & He & H).
  apply lift_ok in He. destruct He as [He ->].
  destruct metrics as [x|s|l|ms]; try discriminate He. now exists ms.
Qed.

Lemma process_models_read task article_id existing_files dry_run file_type
  force_reupload models :
  forall b (w : World R) b' w' model doc,
    for_each (process_model env task article_id existing_files dry_run file_type
                force_reupload) models b w = (inr b', w') ->
    In model models ->
    dict_get (yaml_path model) (yaml_files w) = Some doc ->
    exists metrics, yaml_get doc "metrics" = inr (YDict metrics).
Proof.
  induction models as [|m models IH]; intros b w b' w' model doc H Hin Hdoc;
    [destruct Hin|].
  apply for_each_cons_ok in H. destruct H as (b1 & w1 & Hstep & Hrest).
  destruct Hin as [<-|Hin]; [eapply process_model_reads; eassumption|].
  pose proof (process_model_alike env task article_id existing_files dry_run file_type
                force_reupload b m w (yaml_path model)) as Halike.
  rewrite Hstep, Hdoc in Halike. cbn [snd option_map] in Halike.
  destruct (dict_get (yaml_path model) (yaml_files w1)) as [doc1|] eqn:Edoc1;
    [|discriminate Halike].
  injection Halike as Halike.
  destruct (IH _ _ _ _ model doc1 Hrest Hin Edoc1) as (metrics1 & Hm1).
  eapply readable_alike; [|exact Hm1]. now symmetry.
Qed.

(** X21: a run returns only over documents it can read.  When a run
    returns, the document of every model of the run whose metadata file
    is there is a mapping, and what it holds under [metrics], if
    anything, is a mapping as well; over any other document (an empty
    file, a sequence, [metrics] that is a list or a scalar) the run
    raises instead of passing the model over. *)
Theorem run_returns_only_over_readable_documents (task : string) (models : list Model)
  (dry_run : bool) (file_type : string) (force_reupload : bool) (w : World R)
  (b : Buckets) (w' : World R) (model : Model) (doc : Yaml) :
  update_one_modeling_task_article env task models dry_run file_type force_reupload w
  = (inr b, w') ->
  In model models ->
  dict_get (yaml_path model) (yaml_files w) = Some doc ->
  exists metrics, yaml_get doc "metrics" = inr (YDict metrics).
Proof.
  intros H Hin Hdoc. apply update_one_ok in H.
  destruct H as (article_id & w0 & existing_files & w1 & w2
                 & Hres & _ & _ & Hy1 & _ & _ & Hloop & _).
  pose proof (resolve_article_yaml env task dry_run w) as Hy0.
  rewrite Hres in Hy0. simpl in Hy0.
  eapply process_models_read; [exact Hloop | exact Hin |].
  now rewrite Hy1, Hy0.
Qed.
End Readable.

Section Settles.
Context {R : Type} {F : Figshare R} {L : FigshareLaws F} (env : Env).

(** X22: what a run leaves behind.  Let the article of the task be
    registered and exist, let the metric data of every model have plain
    keys, and let the create-or-replace laws of the remote service hold.
    After a run that is not a dry run, is not forced and returns, for
    every reference the walk finds in the document of a model of the run
    and whose file exists under [ROOT]: the remote service holds, in the
    article and under the relative path, a file with the hash of the
    local file, and the tree holds a locator for the reference: the URL
    of that remote file beside the reference, or an entry under the
    dotted key [<key-path>_url] at the top of the tree. *)
Theorem run_settles_every_reference (task : string) (models : list Model)
  (file_type : string) (article_id : Z) (w : World R) (b : Buckets) (w' : World R)
  (model : Model) (metric_data : Dict Yaml) (key_path rel : string) :
  dict_get ("model_preds_" ++ task) ARTICLE_IDS = Some (Some article_id) ->
  article_exists article_id (remote w) = inr true ->
  (forall m md,
      In m models -> metric_data_of task (yaml_files w) m = Some md ->
      well_keyed (YDict md) = true) ->
  update_one_modeling_task_article env task models false file_type false w
  = (inr b, w') ->
  In model models ->
  metric_data_of task (yaml_files w') model = Some metric_data ->
  In (key_path, rel) (find_file_keys file_type metric_data "") ->
  isfile env (ROOT env ++ "/" ++ rel) = true ->
  exists file_hash size file_id,
    get_file_hash_and_size (ROOT env ++ "/" ++ rel) = inr (file_hash, size)
    /\ file_exists_with_same_hash article_id rel file_hash (remote w')
       = inr (true, Some file_id)
    /\ (get_nested (YDict metric_data) (slot_path key_path)
        = Some (YStr (download_url file_id))
        \/ dict_has (key_path ++ "_url") metric_data = true).
Proof.
  intros Hid Hex Htidy Hrun Hin Hmd Hkey Hfile.
  apply update_one_ok in Hrun.
  destruct Hrun as (aid & w0 & listing & wa & wb & Hres & _ & _ & Hya & _ & _
                    & Hloop & Hsilent).
  rewrite (resolve_registered env task false article_id w Hid Hex) in Hres.
  injection Hres as <- <-. cbn [yaml_files printed log_call] in Hya.
  destruct (first_run_models env article_id task file_type _ _ _ _ _ _ Hloop)
    as (_ & Hsettled & _).
  { intros m Hm md. rewrite Hya. now apply Htidy. }
  specialize (Hsettled model Hin).
  destruct Hsilent as (Hr & Hy & _ & _).
  unfold settled_model in Hsettled. unfold metric_data_of in Hmd.
  rewrite Hy in Hmd.
  destruct (dict_get (yaml_path model) (yaml_files wb)) as [doc|]; [|discriminate Hmd].
  destruct Hsettled as (metrics & entry & Hm & He & Hall).
  rewrite Hm, He in Hmd.
  destruct entry as [x|s|l|md]; try discriminate Hmd. injection Hmd as ->.
  destruct (Hall metric_data eq_refl (key_path, rel) Hkey Hfile)
    as (file_id & (file_hash & size & Hhash & Hmatch) & Hslot).
  exists file_hash, size, file_id. rewrite Hr. split; [exact Hhash|]. split; [exact Hmatch|].
  destruct Hslot as [Htop|Hslot]; [now right | now left].
Qed.
End Settles.

Section DocumentsExamples.
Import Reference Scenario.

Lemma run_returns_only_over_readable_documents_witness :
  exists metrics,
    yaml_get (doc_with "discovery" tree_energy) "metrics" = inr (YDict metrics).
Proof.
  refine (@run_returns_only_over_readable_documents Remote fs ev "discovery" [m1] false
            "all" false (world remote_with_b docs_energy)
            {| skipped_files := [("a/b.csv", "https://figshare.com/files/41")];
               updated_files := [];
               new_files := [("a/c.csv", "https://figshare.com/files/100")] |}
            (snd (run "discovery" [m1] false "all" false remote_with_b docs_energy))
            m1 (doc_with "discovery" tree_energy) _ (or_introl eq_refl) eq_refl).
  vm_compute. reflexivity.
Defined.

Lemma run_settles_every_reference_witness :
  exists file_id,
    @file_exists_with_same_hash Remote fs 7%Z "a/b.csv" "h1"
      (remote (snd (run "discovery" [m1] false "all" false remote_empty docs_energy)))
    = inr (true, Some file_id).
Proof.
  assert (Htidy : forall m metric_data,
             In m [m1] ->
             metric_data_of "discovery" (yaml_files (world remote_empty docs_energy)) m
             = Some metric_data ->
             well_keyed (YDict metric_data) = true).
  { intros m md [<-|[]] H. vm_compute in H. injection H as <-. reflexivity. }
  destruct (@run_settles_every_reference Remote fs (reference_laws disk article_ids) ev
              "discovery" [m1] "all" 7%Z (world remote_empty docs_energy)
              {| skipped_files := []; updated_files := [];
                 new_files := [("a/b.csv", "https://figshare.com/files/100");
                               ("a/c.csv", "https://figshare.com/files/101")] |}
              (snd (run "discovery" [m1] false "all" false remote_empty docs_energy))
              m1
              [ ("energy_pred_file", YStr "a/b.csv");
                ("energy_analysis_file", YStr "a/c.csv");
                ("mae", YScalar "0.1");
                ("energy_pred_file_url", YStr "https://figshare.com/files/100");
                ("energy_analysis_file_url", YStr "https://figshare.com/files/101") ]
              "energy_pred_file" "a/b.csv"
              eq_refl eq_refl Htidy
              ltac:(vm_compute; reflexivity)
              (or_introl eq_refl)
              ltac:(vm_compute; reflexivity)
              ltac:(vm_compute; now left)
              eq_refl)
    as (file_hash & size & file_id & Hhash & Hmatch & _).
  vm_compute in Hhash. injection Hhash as <- _.
  exists file_id. exact Hmatch.
Defined.
End DocumentsExamples.

(** ** Where a run can fail, and what a failure leaves *)

Section LocatorWrite.
Import PyStr PyStrFacts.
#[local] Arguments find_file_keys_val : simpl never.
#[local] Arguments find_file_keys : simpl never.
#[local] Arguments split_path : simpl never.

(** The descent of lines 226-230 succeeds when it leads to a mapping. *)
Lemma set_nested_succeeds parts :
  forall t last v d,
    get_nested t parts = Some (YDict d) ->
    exists t', set_nested t parts last v = inr t'.
Proof.
  induction parts as [|part parts IH]; intros t last v d Hget; simpl in Hget.
  - injection Hget as ->. simpl. eauto.
  - destruct t as [x|s|l|items]; try discriminate Hget. simpl.
    destruct (dict_get part items) as [child|]; [|discriminate Hget].
    destruct (IH child last v d Hget) as (child' & ->). eauto.
Qed.

Lemma set_nested_gives_mapping items parts last v t' :
  set_nested (YDict items) parts last v = inr t' -> exists items', t' = YDict items'.
Proof.
  destruct parts as [|part parts]; simpl.
  - intros [= <-]. eauto.
  - destruct (dict_get part items) as [child|]; [|discriminate].
    destruct (set_nested child parts last v); [discriminate|].
    intros [= <-]. eauto.
Qed.

(** The assignment of a locator leaves a mapping wherever one is reached
    through keys that do not end in [_url]. *)
Lemma set_keeps_mappings parts :
  forall t last v t' path d,
    set_nested t parts (last ++ "_url") v = inr t' ->
    url_free path = true ->
    get_nested t path = Some (YDict d) ->
    exists d', get_nested t' path = Some (YDict d').
Proof.
  induction parts as [|part parts IH]; intros t last v t' path d Hset Hfree Hget;
    destruct t as [x|s|l|items]; try discriminate Hset; simpl in Hset.
  - injection Hset as <-. destruct path as [|p path]; [simpl; eauto|].
    simpl in Hget |- *. rewrite dict_get_set.
    simpl in Hfree. apply andb_prop in Hfree. destruct Hfree as [Hp _].
    destruct (String.eqb_spec p (last ++ "_url")) as [->|_]; [|eauto].
    assert (Hends : endswith (last ++ "_url") "_url" = true)
      by (apply endswith_spec; now exists last).
    rewrite Hends in Hp. discriminate Hp.
  - destruct (dict_get part items) as [child|] eqn:Ec; [|discriminate Hset].
    destruct (set_nested child parts (last ++ "_url") v) as [e|child'] eqn:Es;
      [discriminate Hset|].
    injection Hset as <-. destruct path as [|p path]; [simpl; eauto|].
    simpl in Hget |- *. rewrite dict_get_set.
    simpl in Hfree. apply andb_prop in Hfree. destruct Hfree as [_ Hfree].
    destruct (String.eqb_spec p part) as [->|_]; [|eauto].
    rewrite Ec in Hget. eapply IH; eassumption.
Qed.

Lemma locator_write_returns metric_data key_path url d :
  get_nested (YDict metric_data) (fst (split_path key_path)) = Some (YDict d) ->
  exists metric_data',
    set_nested_dict metric_data (fst (split_path key_path))
      (snd (split_path key_path) ++ "_url") (YStr url) = inr metric_data'.
Proof.
  intros Hget.
  destruct (set_nested_succeeds _ _ (snd (split_path key_path) ++ "_url") (YStr url) _ Hget)
    as (t' & Hset).
  destruct (set_nested_gives_mapping _ _ _ _ _ Hset) as (metric_data' & ->).
  exists metric_data'. now apply set_nested_dict_ok.
Qed.

Lemma parents_ok_after metric_data items metric_data' key_path url :
  parents_ok metric_data items ->
  set_nested_dict metric_data (fst (split_path key_path))
    (snd (split_path key_path) ++ "_url") (YStr url) = inr metric_data' ->
  parents_ok metric_data' items.
Proof.
  intros H Hset kp rel Hin. destruct (H kp rel Hin) as [Hfree (d & Hget)].
  split; [exact Hfree|]. apply set_nested_dict_ok in Hset.
  eapply set_keeps_mappings; eassumption.
Qed.

(** The references of a tree with plain keys lead through mappings. *)
Lemma parents_ok_start file_type metric_data :
  well_keyed (YDict metric_data) = true ->
  clear_of_locators file_type metric_data = true ->
  parents_ok metric_data (find_file_keys file_type metric_data "").
Proof.
  intros Hwk Hclear key_path rel Hin. split.
  - unfold clear_of_locators in Hclear. rewrite forallb_forall in Hclear.
    exact (Hclear _ Hin).
  - apply (reference_read_along_key_path file_type metric_data key_path rel Hwk) in Hin.
    rewrite split_path_eq, get_nested_app in Hin.
    destruct (get_nested (YDict metric_data) (fst (split_path key_path))) as [t|];
      [|discriminate Hin].
    destruct t as [x|s|l|d]; try discriminate Hin. now exists d.
Qed.
End LocatorWrite.

Section LoopFailures.
Context {R : Type} {F : Figshare R} (env : Env).
Import PyStr PyStrFacts.
#[local] Arguments split_path : simpl never.
#[local] Arguments set_nested_dict : simpl never.
#[local] Arguments download_url : simpl never.

(** How the hash check ends when the descent leads to a mapping. *)
Lemma try_skip_outcome article_id force_reupload key_path rel b metric_data d
  (w : World R) res w' :
  get_nested (YDict metric_data) (fst (split_path key_path)) = Some (YDict d) ->
  try_skip article_id key_path (ROOT env ++ "/" ++ rel) rel b metric_data w = (res, w') ->
  match res with
  | inl e => helper_raised env article_id force_reupload rel e
  | inr None => True
  | inr (Some st') =>
      snd st' = metric_data
      \/ exists url,
           set_nested_dict metric_data (fst (split_path key_path))
             (snd (split_path key_path) ++ "_url") (YStr url) = inr (snd st')
  end.
Proof.
  intros Hget. unfold try_skip.
  destruct (get_file_hash_and_size (ROOT env ++ "/" ++ rel)) as [e|[file_hash size]] eqn:Eh.
  - rewrite bind_lift_inl. intros [= <- _]. now left.
  - rewrite bind_lift_inr. cbn [fst]. rewrite bind_query.
    destruct (file_exists_with_same_hash article_id rel file_hash (remote w))
      as [e|[[] [file_id|]]] eqn:Eq; try (intros [= <- _]; exact I).
    + intros [= <- _]. right. left. exists file_hash, size, (remote w). now split.
    + destruct (negb (dict_has (key_path ++ "_url") metric_data)).
      * rewrite split_path_url.
        destruct (locator_write_returns metric_data key_path (download_url file_id) d Hget)
          as (metric_data' & Hset).
        rewrite Hset, bind_lift_inr. intros [= <- _]. right.
        exists (download_url file_id). exact Hset.
      * intros [= <- _]. now left.
Qed.

(** How the upload ends when the descent leads to a mapping. *)
Lemma upload_outcome article_id existing_files force_reupload key_path rel b metric_data d
  (w : World R) res w' :
  get_nested (YDict metric_data) (fst (split_path key_path)) = Some (YDict d) ->
  upload article_id existing_files force_reupload key_path (ROOT env ++ "/" ++ rel) rel
    b metric_data w = (res, w') ->
  match res with
  | inl e => helper_raised env article_id force_reupload rel e
  | inr st' =>
      exists url,
        set_nested_dict metric_data (fst (split_path key_path))
          (snd (split_path key_path) ++ "_url") (YStr url) = inr (snd st')
  end.
Proof.
  intros Hget. unfold upload, bind at 1, command.
  destruct (upload_file_if_needed article_id (ROOT env ++ "/" ++ rel) rel force_reupload
              (remote w)) as [[e|[file_id was_uploaded]] r'] eqn:Eup.
  - intros [= <- _]. right. right. exists (remote w). now rewrite Eup.
  - cbn [fst].
    destruct (locator_write_returns metric_data key_path (download_url file_id) d Hget)
      as (metric_data' & Hset).
    rewrite (surjective_pairing (split_path key_path)), Hset, bind_lift_inr.
    intros [= <- _]. exists (download_url file_id). exact Hset.
Qed.

(** How the body of the file loop ends when the descent leads to a
    mapping: it raises what a helper raised, or it returns the tree as it
    was or with the locator written. *)
Lemma process_file_outcome task model article_id existing_files dry_run force_reupload
  b metric_data key_path rel d (w : World R) res w' :
  get_nested (YDict metric_data) (fst (split_path key_path)) = Some (YDict d) ->
  process_file env task model article_id existing_files dry_run force_reupload
    (b, metric_data) (key_path, rel) w = (res, w') ->
  match res with
  | inl e =>
      isfile env (ROOT env ++ "/" ++ rel) = true
      /\ helper_raised env article_id force_reupload rel e
  | inr st' =>
      snd st' = metric_data
      \/ exists url,
           set_nested_dict metric_data (fst (split_path key_path))
             (snd (split_path key_path) ++ "_url") (YStr url) = inr (snd st')
  end.
Proof.
  intros Hget. unfold process_file. rewrite filename_of_rel.
  destruct (isfile env (ROOT env ++ "/" ++ rel)) eqn:Efile; cbn [negb].
  - destruct (negb force_reupload && negb dry_run) eqn:Eskip.
    + unfold bind at 1.
      destruct (try_skip article_id key_path (ROOT env ++ "/" ++ rel) rel b metric_data w)
        as [[e|[st'|]] w1] eqn:Etry;
        apply (try_skip_outcome _ force_reupload _ _ _ _ _ _ _ _ Hget) in Etry.
      * intros [= <- _]. now split.
      * intros [= <- _]. exact Etry.
      * apply andb_prop in Eskip. destruct Eskip as [_ Edry]. rewrite Edry.
        intros Hup. apply (upload_outcome _ _ _ _ _ _ _ _ _ _ _ Hget) in Hup.
        destruct res as [e|st']; [now split | now right].
    + rewrite bind_ret. destruct (negb dry_run).
      * intros Hup. apply (upload_outcome _ _ _ _ _ _ _ _ _ _ _ Hget) in Hup.
        destruct res as [e|st']; [now split | now right].
      * intros [= <- _]. now left.
  - rewrite bind_print. intros [= <- _]. now left.
Qed.

Lemma file_loop_failure task model article_id existing_files dry_run force_reupload items :
  forall b metric_data (w : World R) e w',
    parents_ok metric_data items ->
    for_each (process_file env task model article_id existing_files dry_run
                force_reupload) items (b, metric_data) w = (inl e, w') ->
    exists key_path rel,
      In (key_path, rel) items
      /\ isfile env (ROOT env ++ "/" ++ rel) = true
      /\ helper_raised env article_id force_reupload rel e.
Proof.
  induction items as [|[kp rel] items IH]; intros b md w e w' Hok H.
  - discriminate H.
  - cbn [for_each] in H. unfold bind in H.
    destruct (Hok kp rel (or_introl eq_refl)) as [_ (d & Hget)].
    destruct (process_file env task model article_id existing_files dry_run
                force_reupload (b, md) (kp, rel) w) as [[e1|[b1 md1]] w1] eqn:E;
      apply (process_file_outcome _ _ _ _ _ _ _ _ _ _ _ _ _ _ Hget) in E.
    + injection H as <- _. exists kp, rel. split; [now left | exact E].
    + cbn [snd] in E.
      destruct (IH b1 md1 w1 e w') as (kp' & rel' & Hin & Hr);
        [|exact H|exists kp', rel'; split; [now right | exact Hr]].
      destruct E as [->|(url & Hset)].
      * intros k r Hin. apply (Hok k r). now right.
      * eapply parents_ok_after; [|exact Hset]. intros k r Hin. apply (Hok k r). now right.
Qed.

(** X24: the loop over the references fails only where a helper fails.
    Let the tree have plain keys (not empty, without a dot, each once per
    mapping) and let none of its file references lie in a mapping that is
    stored under a key ending in [_url].  Then the assignments of lines
    188-230 that write the locators never raise: when the loop of lines
    177-230 raises, in whatever mode, the exception is one that
    [get_file_hash_and_size], [file_exists_with_same_hash] or
    [upload_file_if_needed] raised for a reference of the tree whose file
    is on disk. *)
Theorem file_loop_fails_only_in_helpers (task : string) (model : Model) (article_id : Z)
  (existing_files : Dict FileData) (dry_run force_reupload : bool) (file_type : string)
  (metric_data : Dict Yaml) (b : Buckets) (w : World R) (e : PyErr) (w' : World R) :
  well_keyed (YDict metric_data) = true ->
  clear_of_locators file_type metric_data = true ->
  for_each (process_file env task model article_id existing_files dry_run force_reupload)
    (find_file_keys file_type metric_data "") (b, metric_data) w = (inl e, w') ->
  exists key_path rel,
    In (key_path, rel) (find_file_keys file_type metric_data "")
    /\ isfile env (ROOT env ++ "/" ++ rel) = true
    /\ helper_raised env article_id force_reupload rel e.
Proof.
  intros Hwk Hclear. apply file_loop_failure. now apply parents_ok_start.
Qed.
End LoopFailures.

Section LoopFailuresExamples.
Import Reference Scenario MoreScenarios.

Lemma file_loop_fails_only_in_helpers_witness :
  exists key_path rel,
    In (key_path, rel) (find_file_keys "all" tree_energy "")
    /\ isfile ev (ROOT ev ++ "/" ++ rel) = true
    /\ @helper_raised Remote fs ev 7%Z false rel RequestError.
Proof.
  refine (@file_loop_fails_only_in_helpers Remote fs ev "discovery" m1 7%Z [] false false
            "all" tree_energy no_files (world remote_blank docs_energy) RequestError
            (snd (for_each (@process_file Remote fs ev "discovery" m1 7%Z [] false false)
                    (find_file_keys "all" tree_energy "") (no_files, tree_energy)
                    (world remote_blank docs_energy)))
            eq_refl eq_refl _).
  vm_compute. reflexivity.
Defined.

(** Without the second condition a locator can fail to be written: the
    locator of [p_file] replaces the mapping that holds [q_file], and the
    write of the locator of [q_file], a reference found before the loop
    began, raises [TypeError] although every helper returns. *)
Example locator_write_fails_under_url_key :
  well_keyed (YDict tree_under_url) = true
  /\ clear_of_locators "all" tree_under_url = false
  /\ fst (for_each (@process_file Remote fs ev "discovery" m1 7%Z [] false false)
            (find_file_keys "all" tree_under_url "") (no_files, tree_under_url)
            (world remote_empty []))
     = inl TypeError.
Proof. vm_compute. repeat split. Qed.
End LoopFailuresExamples.

Section FailedModel.
Context {R : Type} {F : Figshare R} (env : Env).

(** The file loop opens no metadata file, however it ends. *)
Lemma process_files_keep_writes task model article_id existing_files dry_run
  force_reupload items st :
  preserves (fun w w' : World R => yaml_writes w' = yaml_writes w)
    (for_each (process_file env task model article_id existing_files dry_run
                 force_reupload) items st).
Proof.
  assert (Hrefl : forall w : World R, yaml_writes w = yaml_writes w) by reflexivity.
  assert (Htrans : forall w1 w2 w3 : World R,
             yaml_writes w2 = yaml_writes w1 -> yaml_writes w3 = yaml_writes w2 ->
             yaml_writes w3 = yaml_writes w1) by (intros; congruence).
  unfold process_file, try_skip, upload.
  frame_tac Hrefl Htrans.
Qed.

(** X23: a model the run fails on is not written.  When the body of the
    model loop raises (the document cannot be read, a remote call fails,
    a locator cannot be written), the metadata files are what they were
    and none was opened for writing, whatever was uploaded for the model
    before the failure: the locators of those uploads are not saved. *)
Theorem failed_model_is_not_written (task : string) (article_id : Z)
  (existing_files : Dict FileData) (dry_run : bool) (file_type : string)
  (force_reupload : bool) (b : Buckets) (model : Model) (w : World R)
  (e : PyErr) (w' : World R) :
  process_model env task article_id existing_files dry_run file_type force_reupload
    b model w = (inl e, w') ->
  yaml_files w' = yaml_files w /\ yaml_writes w' = yaml_writes w.
Proof.
  unfold process_model, bind at 1, yaml_isfile. cbn [fst snd].
  destruct (negb (dict_has (yaml_path model) (yaml_files w))); [discriminate|].
  unfold bind at 1, load_yaml.
  destruct (dict_get (yaml_path model) (yaml_files w)) as [model_data|];
    [|now intros [= _ <-]].
  destruct (yaml_get model_data "metrics") as [e1|metrics];
    [rewrite bind_lift_inl; now intros [= _ <-]|].
  rewrite bind_lift_inr.
  destruct (yaml_get metrics task) as [e1|entry];
    [rewrite bind_lift_inl; now intros [= _ <-]|].
  rewrite bind_lift_inr.
  destruct entry as [x|s|l|metric_data]; try discriminate.
  unfold bind at 1.
  pose proof (process_files_keep_yaml env task model article_id existing_files dry_run
                force_reupload (find_file_keys file_type metric_data "")
                (b, metric_data) w) as Hy.
  pose proof (process_files_keep_writes task model article_id existing_files dry_run
                force_reupload (find_file_keys file_type metric_data "")
                (b, metric_data) w) as Hw.
  destruct (for_each _ _ _ w) as [[e1|st] w1]; cbn [snd] in Hy, Hw.
  - now intros [= _ <-].
  - destruct dry_run; discriminate.
Qed.
End FailedModel.

Section FailedModelExample.
Import Reference Scenario MoreScenarios.

Lemma failed_model_is_not_written_witness :
  yaml_writes
    (snd (@process_model Remote fs ev "discovery" 7%Z [] false "all" false no_files m2
            (world remote_empty docs_two)))
  = [].
Proof.
  refine (proj2 (@failed_model_is_not_written Remote fs ev "discovery" 7%Z [] false "all"
                   false no_files m2 (world remote_empty docs_two) AttributeError
                   (snd (@process_model Remote fs ev "discovery" 7%Z [] false "all" false
                           no_files m2 (world remote_empty docs_two)))
                   _)).
  vm_compute. reflexivity.
Defined.
End FailedModelExample.

(** ** Every file that is there is reported *)

Section Reported.
Context {R : Type} {F : Figshare R} (env : Env).
#[local] Arguments find_file_keys : simpl never.

Lemma reported_skipped rel url b :
  reported (record_skipped rel url b) rel
  /\ forall k, reported b k -> reported (record_skipped rel url b) k.
Proof.
  unfold reported, record_skipped. simpl. split.
  - left. apply keys_set_in.
  - intros k [H|H]; [left; now apply keys_set_incl | now right].
Qed.

Lemma reported_uploaded existing_files rel url b :
  reported (record_uploaded existing_files rel url b) rel
  /\ forall k, reported b k -> reported (record_uploaded existing_files rel url b) k.
Proof.
  unfold reported, record_uploaded. destruct (dict_has rel existing_files); simpl; split.
  - right. left. apply keys_set_in.
  - intros k [H|[H|H]]; [now left | right; left; now apply keys_set_incl | tauto].
  - right. right. apply keys_set_in.
  - intros k [H|[H|H]]; [now left | tauto | right; right; now apply keys_set_incl].
Qed.

Lemma process_file_reports task model article_id existing_files force_reupload
  b metric_data key_path rel (w : World R) b' metric_data' w' :
  process_file env task model article_id existing_files false force_reupload
    (b, metric_data) (key_path, rel) w = (inr (b', metric_data'), w') ->
  (forall k, reported b k -> reported b' k)
  /\ (isfile env (ROOT env ++ "/" ++ rel) = true -> reported b' rel).
Proof.
  intros H. apply process_file_ok in H.
  destruct H as [(Hno & -> & _)|[(_ & _ & H)|(_ & w1 & _ & H)]].
  - split; [trivial | congruence].
  - apply try_skip_ok in H. destruct H as (h & sz & found & _ & _ & _ & H).
    destruct found as [[] [fid|]]; try discriminate.
    destruct H as (md & [= -> _] & _).
    destruct (reported_skipped rel (download_url fid) b) as [H1 H2]. now split.
  - apply upload_ok in H. destruct H as (fid & up & r' & _ & _ & -> & _).
    destruct (reported_uploaded existing_files rel (download_url fid) b) as [H1 H2].
    now split.
Qed.

Lemma process_files_report task model article_id existing_files force_reupload items :
  forall b metric_data (w : World R) b' metric_data' w',
    for_each (process_file env task model article_id existing_files false force_reupload)
      items (b, metric_data) w = (inr (b', metric_data'), w') ->
    (forall k, reported b k -> reported b' k)
    /\ forall key_path rel,
         In (key_path, rel) items -> isfile env (ROOT env ++ "/" ++ rel) = true ->
         reported b' rel.
Proof.
  induction items as [|[kp r] items IH]; intros b md w b' md' w' H.
  - apply ret_ok in H. destruct H as [[= -> ->] _]. split; [trivial | intros ? ? []].
  - apply for_each_cons_ok in H. destruct H as ([b1 md1] & w1 & Hstep & Hrest).
    apply process_file_reports in Hstep. destruct Hstep as [Hmono1 Hrel].
    destruct (IH _ _ _ _ _ _ Hrest) as [Hmono2 Hall].
    split; [auto|].
    intros key_path rel [[= <- <-]|Hin] Hfile; [auto | eapply Hall; eassumption].
Qed.

Lemma process_model_reports task article_id existing_files file_type force_reupload
  b model (w : World R) b' w' :
  process_model env task article_id existing_files false file_type force_reupload
    b model w = (inr b', w') ->
  (forall k, reported b k -> reported b' k)
  /\ forall key_path rel,
       In (key_path, rel) (discovered task file_type (yaml_files w) model) ->
       isfile env (ROOT env ++ "/" ++ rel) = true ->
       reported b' rel.
Proof.
  intros H. apply process_model_ok in H.
  destruct H as [(Hnone & -> & _)|(doc & metrics & entry & Hdoc & Hm & He & H)].
  - split; [trivial|]. unfold discovered. rewrite Hnone. intros ? ? [].
  - rewrite (discovered_entry task file_type _ model doc metrics entry Hdoc Hm He).
    destruct H as [(Hnd & -> & _)|(md & md' & w1 & -> & Hloop & _)].
    + split; [trivial|]. destruct entry; try (intros ? ? []). now destruct (Hnd d).
    + eapply process_files_report. exact Hloop.
Qed.

Lemma discovered_same_path task file_type docs model model' :
  yaml_path model' = yaml_path model ->
  discovered task file_type docs model' = discovered task file_type docs model.
Proof. unfold discovered. now intros ->. Qed.

Lemma process_models_report task article_id existing_files file_type force_reupload
  models :
  forall b (w : World R) b' w',
    for_each (process_model env task article_id existing_files false file_type
                force_reupload) models b w = (inr b', w') ->
    (forall k, reported b k -> reported b' k)
    /\ forall model key_path rel,
         In model models ->
         In (key_path, rel) (discovered task file_type (yaml_files w) model) ->
         isfile env (ROOT env ++ "/" ++ rel) = true ->
         reported b' rel.
Proof.
  induction models as [|m models IH]; intros b w b' w' H.
  - apply ret_ok in H. destruct H as [-> _]. split; [trivial | intros ? ? ? []].
  - apply for_each_cons_ok in H. destruct H as (b1 & w1 & Hstep & Hrest).
    pose proof (process_model_reports _ _ _ _ _ _ _ _ _ _ Hstep) as [Hmono1 Hm].
    destruct (IH _ _ _ _ Hrest) as [Hmono2 Hall].
    split; [auto|].
    intros model key_path rel Hin Hdisc Hfile.
    destruct (string_dec (yaml_path model) (yaml_path m)) as [Heq|Hne].
    + apply Hmono2. apply (Hm key_path rel); [|exact Hfile].
      now rewrite <- (discovered_same_path task file_type _ m model Heq).
    + destruct Hin as [<-|Hin]; [contradiction|].
      apply (Hall model key_path rel Hin); [|exact Hfile].
      rewrite (discovered_frame task file_type (yaml_files w) (yaml_files w1) model);
        [exact Hdisc|].
      eapply process_model_frame; [exact Hstep | congruence].
Qed.

(** X25: every referenced file that exists is reported.  After a run that
    is not a dry run and returns, for every model of the run and every
    reference the walk finds in its document as it was before the run,
    when the referenced file exists under [ROOT] its relative path is a
    key of [skipped_files], of [updated_files] or of [new_files]. *)
Theorem every_existing_file_is_reported (task : string) (models : list Model)
  (file_type : string) (force_reupload : bool) (w : World R) (b : Buckets)
  (w' : World R) (model : Model) (key_path rel : string) :
  update_one_modeling_task_article env task models false file_type force_reupload w
  = (inr b, w') ->
  In model models ->
  In (key_path, rel) (discovered task file_type (yaml_files w) model) ->
  isfile env (ROOT env ++ "/" ++ rel) = true ->
  reported b rel.
Proof.
  intros H Hin Hdisc Hfile. apply update_one_ok in H.
  destruct H as (article_id & w0 & existing_files & w1 & w2
                 & Hres & _ & _ & Hy1 & _ & _ & Hloop & _).
  pose proof (resolve_article_yaml env task false w) as Hy0.
  rewrite Hres in Hy0. simpl in Hy0.
  apply process_models_report in Hloop. destruct Hloop as [_ Hall].
  apply (Hall model key_path rel Hin); [|exact Hfile].
  now rewrite Hy1, Hy0.
Qed.
End Reported.

Section ReportedExample.
Import Reference Scenario.

Lemma every_existing_file_is_reported_witness :
  reported
    {| skipped_files := [("a/b.csv", "https://figshare.com/files/41")];
       updated_files := [];
       new_files := [("a/c.csv", "https://figshare.com/files/100")] |}
    "a/c.csv".
Proof.
  refine (@every_existing_file_is_reported Remote fs ev "discovery" [m1] "all" false
            (world remote_with_b docs_energy) _
            (snd (run "discovery" [m1] false "all" false remote_with_b docs_energy))
            m1 "energy_analysis_file" "a/c.csv" _ (or_introl eq_refl) _ eq_refl).
  - vm_compute. reflexivity.
  - vm_compute. right. now left.
Defined.
End ReportedExample.
